(** * financemanager auth service: sessions, refresh-token rotation and TOTP MFA

    A shallow embedding of [services/auth/src/lib/totp.ts],
    [services/auth/src/lib/encryption.ts], [services/auth/src/services/auth-service.ts]
    and [services/auth/src/repositories/prisma-auth-repository.ts], followed by
    the properties the specification states about them.

    Conventions.
    - JavaScript strings are modelled as [string] (byte strings); a [Buffer]
      is a [list Z] of bytes in [0, 256).
    - JavaScript numbers that the code uses as integers are [Z]; the 32-bit
      bitwise operators have their wrap-around written out.
    - A [Date] is its [getTime()] value, a [Z] of milliseconds.
    - An [async] method is a function of the kind [M A]: it takes the world
      (database, clock, entropy) and returns a result or a thrown exception
      together with the world it leaves behind. *)

From Stdlib Require Import ZArith List Lia Bool Ascii String.
From stdpp Require Import gmap strings list fin_maps.

Import ListNotations.
Local Open Scope string_scope.
Local Open Scope list_scope.
Local Open Scope Z_scope.

(** ** Exceptions *)

(** The helpers of [../errors] build a [ServiceError] out of an HTTP class and
    a stable machine code; the human message is not modelled. *)
Inductive HttpKind :=
| BadRequest | Unauthorized | Forbidden | Conflict | Gone | TooManyRequests.

Inductive Exn :=
| ServiceError (kind : HttpKind) (code : string)
| PrismaKnownRequestError (code : string)
| RangeError
| NodeError (name : string).

Inductive Result (A : Type) :=
| Ok (a : A)
| Throw (e : Exn).
Arguments Ok {A} a.
Arguments Throw {A} e.

Definition badRequest := ServiceError BadRequest.
Definition unauthorized := ServiceError Unauthorized.
Definition forbidden := ServiceError Forbidden.
Definition conflict := ServiceError Conflict.
Definition gone := ServiceError Gone.
Definition tooManyRequests := ServiceError TooManyRequests.

(** ** Node's [crypto.createHmac('sha1', key)]

    The digest the TOTP codec reads is HMAC-SHA1 (RFC 2104 over FIPS 180-4),
    written out here so that codes can be computed. *)
Module Sha1.

Definition w32 (x : Z) : Z := Z.land x 4294967295.

Definition rotl (n x : Z) : Z :=
  w32 (Z.lor (Z.shiftl x n) (Z.shiftr x (32 - n))).

Definition add32 (x y : Z) : Z := w32 (x + y).

Fixpoint be_bytes (n : nat) (x : Z) : list Z :=
  match n with
  | O => []
  | S k => be_bytes k (Z.shiftr x 8) ++ [Z.land x 255]
  end.

Definition pad (msg : list Z) : list Z :=
  let len := Z.of_nat (length msg) in
  let zeros := Z.to_nat ((55 - len) mod 64) in
  msg ++ [128] ++ repeat 0 zeros ++ be_bytes 8 (8 * len).

Fixpoint words (n : nat) (bs : list Z) : list Z :=
  match n with
  | O => []
  | S k =>
      match bs with
      | b0 :: b1 :: b2 :: b3 :: rest =>
          (Z.lor (Z.shiftl b0 24) (Z.lor (Z.shiftl b1 16) (Z.lor (Z.shiftl b2 8) b3)))
            :: words k rest
      | _ => []
      end
  end.

Definition f_round (t : nat) (b c d : Z) : Z :=
  if (t <? 20)%nat then Z.lor (Z.land b c) (Z.land (Z.lxor b 4294967295) d)
  else if (t <? 40)%nat then Z.lxor b (Z.lxor c d)
  else if (t <? 60)%nat then Z.lor (Z.land b c) (Z.lor (Z.land b d) (Z.land c d))
  else Z.lxor b (Z.lxor c d).

Definition k_round (t : nat) : Z :=
  if (t <? 20)%nat then 1518500249
  else if (t <? 40)%nat then 1859775393
  else if (t <? 60)%nat then 2400959708
  else 3395469782.

Definition State : Type := Z * Z * Z * Z * Z.

Fixpoint rounds (n t : nat) (win : list Z) (s : State) : State :=
  match n with
  | O => s
  | S k =>
      let '(a, b, c, d, e) := s in
      let w := nth 0 win 0 in
      let next :=
        rotl 1 (Z.lxor (nth 13 win 0) (Z.lxor (nth 8 win 0) (Z.lxor (nth 2 win 0) w))) in
      let tmp := add32 (add32 (add32 (add32 (rotl 5 a) (f_round t b c d)) e) (k_round t)) w in
      rounds k (S t) (tl win ++ [next]) (tmp, a, rotl 30 b, c, d)
  end.

Definition compress (s : State) (block : list Z) : State :=
  let '(h0, h1, h2, h3, h4) := s in
  let '(a, b, c, d, e) := rounds 80 0 (words 16 block) s in
  (add32 h0 a, add32 h1 b, add32 h2 c, add32 h3 d, add32 h4 e).

Fixpoint blocks (n : nat) (s : State) (bs : list Z) : State :=
  match n with
  | O => s
  | S k => blocks k (compress s (firstn 64 bs)) (skipn 64 bs)
  end.

Definition init : State :=
  (1732584193, 4023233417, 2562383102, 271733878, 3285377520).

Definition digest (msg : list Z) : list Z :=
  let p := pad msg in
  let '(h0, h1, h2, h3, h4) := blocks (Nat.div (length p) 64) init p in
  be_bytes 4 h0 ++ be_bytes 4 h1 ++ be_bytes 4 h2 ++ be_bytes 4 h3 ++ be_bytes 4 h4.

Definition hmac (key msg : list Z) : list Z :=
  let k0 := if (64 <? length key)%nat then digest key else key in
  let k := k0 ++ repeat 0 (64 - length k0)%nat in
  digest (map (Z.lxor 92) k ++ digest (map (Z.lxor 54) k ++ msg)).

End Sha1.

(** ** JavaScript string and number helpers *)

Definition chr (n : Z) : ascii := ascii_of_N (Z.to_N n).
Definition ord (c : ascii) : Z := Z.of_N (N_of_ascii c).

Definition is_digit (c : ascii) : bool := (48 <=? ord c) && (ord c <=? 57).
Definition is_upper (c : ascii) : bool := (65 <=? ord c) && (ord c <=? 90).
Definition is_lower (c : ascii) : bool := (97 <=? ord c) && (ord c <=? 122).

Fixpoint string_forallb (p : ascii -> bool) (s : string) : bool :=
  match s with
  | EmptyString => true
  | String c r => p c && string_forallb p r
  end.

(** A string is the sequence of the UTF-8 bytes of the JavaScript string.
    The functions below that change case or strip white space ([toUpperCase],
    [toLowerCase], [trim]) are [String.prototype]'s on strings of ASCII
    characters, which is what the service's own codes, secrets and ids are.
    On other characters JavaScript follows the Unicode tables (U+017F
    upper-cases to S, U+00A0 is white space), which are not modelled: a
    statement about text the caller chooses that goes through one of them
    carries [ascii_only] of that text as a hypothesis. *)
Definition ascii_only (s : string) : bool :=
  string_forallb (fun c => ord c <? 128) s.

(** [/^[0-9]{6}$/.test(token)] *)
Definition is_six_digits (token : string) : bool :=
  (String.length token =? 6)%nat && string_forallb is_digit token.

(** [Number.prototype.toString()] on a non-negative integer. *)
Fixpoint digits_of (fuel : nat) (n : Z) (acc : string) : string :=
  match fuel with
  | O => acc
  | S f =>
      let acc' := String (chr (48 + n mod 10)) acc in
      if n / 10 =? 0 then acc' else digits_of f (n / 10) acc'
  end.

Definition toString (n : Z) : string :=
  digits_of (S (Z.to_nat (Z.log2 n))) n "".

Fixpoint string_repeat (c : ascii) (n : nat) : string :=
  match n with
  | O => ""
  | S k => String c (string_repeat c k)
  end.

(** [s.padStart(width, c)] for a one-character filler. *)
Definition padStart (width : nat) (c : ascii) (s : string) : string :=
  string_repeat c (width - String.length s) +:+ s.

Definition toUpperChar (c : ascii) : ascii :=
  if is_lower c then chr (ord c - 32) else c.

(** [s.toUpperCase()], for [s] of ASCII characters. *)
Fixpoint toUpperCase (s : string) : string :=
  match s with
  | EmptyString => ""
  | String c r => String (toUpperChar c) (toUpperCase r)
  end.

Fixpoint string_filter (p : ascii -> bool) (s : string) : string :=
  match s with
  | EmptyString => ""
  | String c r => if p c then String c (string_filter p r) else string_filter p r
  end.

Fixpoint string_to_list (s : string) : list ascii :=
  match s with
  | EmptyString => []
  | String c r => c :: string_to_list r
  end.

(** ** totp.ts *)

Definition BASE32_ALPHABET : string := "ABCDEFGHIJKLMNOPQRSTUVWXYZ234567".

(** JavaScript's [<<], [|] and [>>>] on the number [value]: the operands are
    taken modulo 2^32. *)
Definition toInt32 (x : Z) : Z := (x + 2147483648) mod 4294967296 - 2147483648.
Definition toUint32 (x : Z) : Z := x mod 4294967296.
Definition js_shl (x n : Z) : Z := toInt32 (Z.shiftl x (n mod 32)).
Definition js_or (x y : Z) : Z := toInt32 (Z.lor (toInt32 x) (toInt32 y)).
Definition js_and (x y : Z) : Z := toInt32 (Z.land (toInt32 x) (toInt32 y)).
Definition js_ushr (x n : Z) : Z := Z.shiftr (toUint32 x) (n mod 32).

Definition alphabet_at (index : Z) : string :=
  match String.get (Z.to_nat index) BASE32_ALPHABET with
  | Some c => String c ""
  | None => "undefined"
  end.

Fixpoint indexOf_from (pos : Z) (c : ascii) (s : string) : Z :=
  match s with
  | EmptyString => -1
  | String d r => if Ascii.eqb c d then pos else indexOf_from (pos + 1) c r
  end.

Definition alphabet_indexOf (c : ascii) : Z := indexOf_from 0 c BASE32_ALPHABET.

(** The inner [while (bits >= 5)] of [base32Encode]; at most three turns run
    after a byte is shifted in. *)
Fixpoint base32_drain (fuel : nat) (value bits : Z) (output : string) : Z * string :=
  match fuel with
  | O => (bits, output)
  | S f =>
      if 5 <=? bits then
        let index := js_and (js_ushr value (bits - 5)) 31 in
        base32_drain f value (bits - 5) (output +:+ alphabet_at index)
      else (bits, output)
  end.

Fixpoint base32Encode_loop (buffer : list Z) (bits value : Z) (output : string)
  : Z * Z * string :=
  match buffer with
  | [] => (bits, value, output)
  | byte :: rest =>
      let value := js_or (js_shl value 8) byte in
      let bits := bits + 8 in
      let '(bits, output) := base32_drain (Z.to_nat bits) value bits output in
      base32Encode_loop rest bits value output
  end.

Definition base32Encode (buffer : list Z) : string :=
  let '(bits, value, output) := base32Encode_loop buffer 0 0 "" in
  if 0 <? bits then
    output +:+ alphabet_at (js_and (js_shl value (5 - bits)) 31)
  else output.

Definition is_base32_char (c : ascii) : bool :=
  is_upper c || ((50 <=? ord c) && (ord c <=? 55)).

Fixpoint base32Decode_loop (clean : list ascii) (bits value : Z) (bytes : list Z)
  : Result (list Z) :=
  match clean with
  | [] => Ok bytes
  | char :: rest =>
      let index := alphabet_indexOf char in
      if index =? -1 then Throw (NodeError "Invalid base32 character")
      else
        let value := js_or (js_shl value 5) index in
        let bits := bits + 5 in
        if 8 <=? bits then
          base32Decode_loop rest (bits - 8) value
            (bytes ++ [js_and (js_ushr value (bits - 8)) 255])
        else base32Decode_loop rest bits value bytes
  end.

Definition base32Decode (input : string) : Result (list Z) :=
  let clean := string_filter is_base32_char (toUpperCase input) in
  base32Decode_loop (string_to_list clean) 0 0 [].

(** [buffer.writeBigUInt64BE(BigInt(counter))] rejects a value outside
    [0, 2^64). *)
Definition writeBigUInt64BE (counter : Z) : Result (list Z) :=
  if (0 <=? counter) && (counter <? 2 ^ 64) then Ok (Sha1.be_bytes 8 counter)
  else Throw RangeError.

Definition byte_at (buf : list Z) (i : Z) : Z := nth (Z.to_nat i) buf 0.

Definition generateOtp (secret : list Z) (counter : Z) (digits : Z) : Result string :=
  match writeBigUInt64BE counter with
  | Throw e => Throw e
  | Ok buffer =>
      let hmac := Sha1.hmac secret buffer in
      let offset := Z.land (byte_at hmac (Z.of_nat (length hmac) - 1)) 15 in
      let binary :=
        Z.lor (Z.shiftl (Z.land (byte_at hmac offset) 127) 24)
          (Z.lor (Z.shiftl (Z.land (byte_at hmac (offset + 1)) 255) 16)
             (Z.lor (Z.shiftl (Z.land (byte_at hmac (offset + 2)) 255) 8)
                (Z.land (byte_at hmac (offset + 3)) 255))) in
      Ok (padStart (Z.to_nat digits) "0"%char (toString (binary mod 10 ^ digits)))
  end.

Record TotpOptions := {
  stepSeconds : option Z;
  digits : option Z;
  window : option Z;
  timestamp : option Z;
}.

Definition noOptions : TotpOptions :=
  {| stepSeconds := None; digits := None; window := None; timestamp := None |}.

Definition atTime (t : Z) : TotpOptions :=
  {| stepSeconds := None; digits := None; window := None; timestamp := Some t |}.

(** [a ?? b] *)
Definition nullish {A} (a : option A) (b : A) : A :=
  match a with Some x => x | None => b end.

(** [Math.floor(timestamp / (stepSeconds * 1000))] on integers below 2^53.
    With a step of zero the quotient is infinite or not a number, which
    [BigInt] refuses with a RangeError where the counter is used. *)
Definition stepCounter (timestamp stepSeconds : Z) : option Z :=
  if stepSeconds * 1000 =? 0 then None else Some (timestamp / (stepSeconds * 1000)).

Fixpoint totp_scan (secretBuffer : list Z) (counter digits : Z) (token : string)
  (offsets : list Z) : Result bool :=
  match offsets with
  | [] => Ok false
  | offset :: rest =>
      match generateOtp secretBuffer (counter + offset) digits with
      | Throw e => Throw e
      | Ok expected =>
          if String.eqb expected token then Ok true
          else totp_scan secretBuffer counter digits token rest
      end
  end.

(** The values [offset] takes in [for (offset = -window; offset <= window; offset += 1)]. *)
Definition window_offsets (window : Z) : list Z :=
  map (fun i => - window + Z.of_nat i) (seq 0 (Z.to_nat (2 * window + 1))).

(** [dateNow] is what [Date.now()] returns when the option is absent. *)
Definition isValidTotpToken (secret token : string) (options : TotpOptions) (dateNow : Z)
  : Result bool :=
  let digits := nullish (digits options) 6 in
  let stepSeconds := nullish (stepSeconds options) 30 in
  let window := nullish (window options) 1 in
  let timestamp := nullish (timestamp options) dateNow in
  if negb (is_six_digits token) then Ok false
  else
    match base32Decode secret with
    | Throw e => Throw e
    | Ok secretBuffer =>
        match stepCounter timestamp stepSeconds with
        | Some counter =>
            totp_scan secretBuffer counter digits token (window_offsets window)
        | None =>
            match window_offsets window with
            | [] => Ok false
            | _ :: _ => Throw RangeError
            end
        end
    end.

Definition generateTotp (secret : string) (options : TotpOptions) (dateNow : Z)
  : Result string :=
  let digits := nullish (digits options) 6 in
  let stepSeconds := nullish (stepSeconds options) 30 in
  let timestamp := nullish (timestamp options) dateNow in
  match base32Decode secret with
  | Throw e => Throw e
  | Ok secretBuffer =>
      match stepCounter timestamp stepSeconds with
      | Some counter => generateOtp secretBuffer counter digits
      | None => Throw RangeError
      end
  end.

(** ** Domain models ([../domain/models])

    Only the fields the service reads or writes are kept; [createdAt],
    [updatedAt], names and time zone play no part in it. The MFA method is
    always ['totp'] and is left out. *)

Inductive UserStatus := active | invited | suspended.
Inductive PlanTier := free | pro | family.

Record AuthUser := {
  user_id : string;
  user_email : string;
  user_status : UserStatus;
  user_planTier : PlanTier;
  user_roles : list string;
  user_emailVerifiedAt : option Z;
  user_lastLoginAt : option Z;
}.

Record RefreshTokenRecord := {
  rt_id : string;
  rt_userId : string;
  rt_tokenHash : string;
  rt_issuedAt : Z;
  rt_expiresAt : Z;
  rt_revokedAt : option Z;
  rt_replacedByTokenId : option string;
  rt_ipAddress : option string;
  rt_userAgent : option string;
}.

Record PasswordResetTokenRecord := {
  prt_id : string;
  prt_userId : string;
  prt_token : string;
  prt_expiresAt : Z;
  prt_consumedAt : option Z;
}.

Record MfaConfiguration := {
  mfa_id : string;
  mfa_secretEncrypted : string;
  mfa_deviceName : option string;
  mfa_activatedAt : option Z;
}.

Inductive ChallengeType := Setup | Login | Recovery.

(** The [context] JSON of a challenge only ever holds [{ rememberMe }]; it is
    modelled by that member. *)
Record MfaChallengeRecord := {
  ch_id : string;
  ch_userId : string;
  ch_userMfaId : option string;
  ch_type : ChallengeType;
  ch_secretEncrypted : option string;
  ch_deviceName : option string;
  ch_context : option bool;
  ch_expiresAt : Z;
  ch_consumedAt : option Z;
  ch_attempts : Z;
}.

Record MfaBackupCodeRecord := {
  bc_id : string;
  bc_userMfaId : string;
  bc_codeHash : string;
  bc_usedAt : option Z;
}.

Record MfaRememberedDeviceRecord := {
  rd_id : string;
  rd_userMfaId : string;
  rd_tokenHash : string;
  rd_expiresAt : Z;
  rd_lastUsedAt : option Z;
  rd_ipAddress : option string;
  rd_userAgent : option string;
}.

Inductive MetaValue :=
| MBool (b : bool)
| MString (s : string)
| MNumber (n : Z).

Record AuditEventInput := {
  ev_action : string;
  ev_actor : string;
  ev_userId : option string;
  ev_ipAddress : option string;
  ev_userAgent : option string;
  ev_metadata : list (string * MetaValue);
}.

Record RequestContext := {
  ipAddress : option string;
  userAgent : option string;
}.

(** ** The database behind [PrismaClient]

    Tables with a unique key the code looks rows up by are finite maps on that
    key: users, refresh tokens and challenges by [id], password credentials and
    MFA settings by [userId], reset tokens by [token]. Backup codes and
    remembered devices are scanned in order and are lists. *)
Record Db := {
  users : gmap string AuthUser;
  passwordCredentials : gmap string string;
  refreshTokens : gmap string RefreshTokenRecord;
  passwordResetTokens : gmap string PasswordResetTokenRecord;
  mfaSettings : gmap string MfaConfiguration;
  mfaChallenges : gmap string MfaChallengeRecord;
  mfaBackupCodes : list MfaBackupCodeRecord;
  mfaRememberedDevices : list MfaRememberedDeviceRecord;
  auditEvents : list AuditEventInput;
}.

Definition with_users (f : gmap string AuthUser -> gmap string AuthUser) (d : Db) : Db :=
  {| users := f (users d); passwordCredentials := passwordCredentials d;
     refreshTokens := refreshTokens d; passwordResetTokens := passwordResetTokens d;
     mfaSettings := mfaSettings d; mfaChallenges := mfaChallenges d;
     mfaBackupCodes := mfaBackupCodes d; mfaRememberedDevices := mfaRememberedDevices d;
     auditEvents := auditEvents d |}.

Definition with_passwordCredentials (f : gmap string string -> gmap string string) (d : Db) : Db :=
  {| users := users d; passwordCredentials := f (passwordCredentials d);
     refreshTokens := refreshTokens d; passwordResetTokens := passwordResetTokens d;
     mfaSettings := mfaSettings d; mfaChallenges := mfaChallenges d;
     mfaBackupCodes := mfaBackupCodes d; mfaRememberedDevices := mfaRememberedDevices d;
     auditEvents := auditEvents d |}.

Definition with_refreshTokens
  (f : gmap string RefreshTokenRecord -> gmap string RefreshTokenRecord) (d : Db) : Db :=
  {| users := users d; passwordCredentials := passwordCredentials d;
     refreshTokens := f (refreshTokens d); passwordResetTokens := passwordResetTokens d;
     mfaSettings := mfaSettings d; mfaChallenges := mfaChallenges d;
     mfaBackupCodes := mfaBackupCodes d; mfaRememberedDevices := mfaRememberedDevices d;
     auditEvents := auditEvents d |}.

Definition with_passwordResetTokens
  (f : gmap string PasswordResetTokenRecord -> gmap string PasswordResetTokenRecord)
  (d : Db) : Db :=
  {| users := users d; passwordCredentials := passwordCredentials d;
     refreshTokens := refreshTokens d; passwordResetTokens := f (passwordResetTokens d);
     mfaSettings := mfaSettings d; mfaChallenges := mfaChallenges d;
     mfaBackupCodes := mfaBackupCodes d; mfaRememberedDevices := mfaRememberedDevices d;
     auditEvents := auditEvents d |}.

Definition with_mfaSettings
  (f : gmap string MfaConfiguration -> gmap string MfaConfiguration) (d : Db) : Db :=
  {| users := users d; passwordCredentials := passwordCredentials d;
     refreshTokens := refreshTokens d; passwordResetTokens := passwordResetTokens d;
     mfaSettings := f (mfaSettings d); mfaChallenges := mfaChallenges d;
     mfaBackupCodes := mfaBackupCodes d; mfaRememberedDevices := mfaRememberedDevices d;
     auditEvents := auditEvents d |}.

Definition with_mfaChallenges
  (f : gmap string MfaChallengeRecord -> gmap string MfaChallengeRecord) (d : Db) : Db :=
  {| users := users d; passwordCredentials := passwordCredentials d;
     refreshTokens := refreshTokens d; passwordResetTokens := passwordResetTokens d;
     mfaSettings := mfaSettings d; mfaChallenges := f (mfaChallenges d);
     mfaBackupCodes := mfaBackupCodes d; mfaRememberedDevices := mfaRememberedDevices d;
     auditEvents := auditEvents d |}.

Definition with_mfaBackupCodes
  (f : list MfaBackupCodeRecord -> list MfaBackupCodeRecord) (d : Db) : Db :=
  {| users := users d; passwordCredentials := passwordCredentials d;
     refreshTokens := refreshTokens d; passwordResetTokens := passwordResetTokens d;
     mfaSettings := mfaSettings d; mfaChallenges := mfaChallenges d;
     mfaBackupCodes := f (mfaBackupCodes d); mfaRememberedDevices := mfaRememberedDevices d;
     auditEvents := auditEvents d |}.

Definition with_mfaRememberedDevices
  (f : list MfaRememberedDeviceRecord -> list MfaRememberedDeviceRecord) (d : Db) : Db :=
  {| users := users d; passwordCredentials := passwordCredentials d;
     refreshTokens := refreshTokens d; passwordResetTokens := passwordResetTokens d;
     mfaSettings := mfaSettings d; mfaChallenges := mfaChallenges d;
     mfaBackupCodes := mfaBackupCodes d; mfaRememberedDevices := f (mfaRememberedDevices d);
     auditEvents := auditEvents d |}.

Definition with_auditEvents
  (f : list AuditEventInput -> list AuditEventInput) (d : Db) : Db :=
  {| users := users d; passwordCredentials := passwordCredentials d;
     refreshTokens := refreshTokens d; passwordResetTokens := passwordResetTokens d;
     mfaSettings := mfaSettings d; mfaChallenges := mfaChallenges d;
     mfaBackupCodes := mfaBackupCodes d; mfaRememberedDevices := mfaRememberedDevices d;
     auditEvents := f (auditEvents d) |}.

(** ** The world an [async] method runs in

    [clock] lists the values successive [new Date()] and [Date.now()] calls
    return, [uuids] those of [crypto.randomUUID()] and of the ids the database
    generates, [entropy] the bytes [crypto.randomBytes] hands out; the three
    counters say how far each has been read. *)
Record World := {
  db : Db;
  clock : nat -> Z;
  ticks : nat;
  uuids : nat -> string;
  uuidsDrawn : nat;
  entropy : nat -> Z;
  bytesDrawn : nat;
}.

Definition set_db (d : Db) (w : World) : World :=
  {| db := d; clock := clock w; ticks := ticks w; uuids := uuids w;
     uuidsDrawn := uuidsDrawn w; entropy := entropy w; bytesDrawn := bytesDrawn w |}.

Definition M (A : Type) : Type := World -> Result A * World.

Definition ret {A} (a : A) : M A := fun w => (Ok a, w).
Definition throw {A} (e : Exn) : M A := fun w => (Throw e, w).

Definition bind {A B} (m : M A) (k : A -> M B) : M B :=
  fun w =>
    match m w with
    | (Ok a, w') => k a w'
    | (Throw e, w') => (Throw e, w')
    end.

Notation "x <- m ;; k" := (bind m (fun x => k))
  (at level 100, m at next level, right associativity).
Notation "m ;; k" := (bind m (fun _ => k))
  (at level 100, right associativity).

(** [promise.catch(() => value)] *)
Definition catch_with {A} (m : M A) (value : A) : M A :=
  fun w =>
    match m w with
    | (Ok a, w') => (Ok a, w')
    | (Throw _, w') => (Ok value, w')
    end.

Definition lift {A} (r : Result A) : M A := fun w => (r, w).

Definition getDb : M Db := fun w => (Ok (db w), w).
Definition modifyDb (f : Db -> Db) : M unit := fun w => (Ok tt, set_db (f (db w)) w).

Definition newDate : M Z :=
  fun w =>
    (Ok (clock w (ticks w)),
     {| db := db w; clock := clock w; ticks := S (ticks w); uuids := uuids w;
        uuidsDrawn := uuidsDrawn w; entropy := entropy w; bytesDrawn := bytesDrawn w |}).

Definition randomUUID : M string :=
  fun w =>
    (Ok (uuids w (uuidsDrawn w)),
     {| db := db w; clock := clock w; ticks := ticks w; uuids := uuids w;
        uuidsDrawn := S (uuidsDrawn w); entropy := entropy w; bytesDrawn := bytesDrawn w |}).

Definition randomBytes (n : nat) : M (list Z) :=
  fun w =>
    (Ok (map (entropy w) (seq (bytesDrawn w) n)),
     {| db := db w; clock := clock w; ticks := ticks w; uuids := uuids w;
        uuidsDrawn := uuidsDrawn w; entropy := entropy w;
        bytesDrawn := (bytesDrawn w + n)%nat |}).

(** JavaScript truthiness of an optional string and of an optional boolean. *)
Definition truthy (s : option string) : bool :=
  match s with
  | Some v => negb (String.eqb v "")
  | None => false
  end.

Definition Boolean (b : option bool) : bool := nullish b false.

(** ** The Node modules the service imports

    [argon2], [jsonwebtoken] and the cipher and text encodings of
    [node:crypto] and [Buffer] are outside the repository. [argon2.hash]
    draws a salt; [argon2.verify] and the GCM decipher can reject. *)
Record AccessTokenPayload := {
  jwt_sub : string;
  jwt_email : string;
  jwt_planTier : PlanTier;
  jwt_emailVerified : bool;
  jwt_roles : list string;
}.

Class NodeModules := {
  argon2_hash : list Z -> string -> string;
  argon2_verify : string -> string -> Result bool;
  jwt_sign : AccessTokenPayload -> string -> Z -> string;
  base64url : list Z -> string;
  base64_decode : string -> list Z;
  aes_256_gcm_decipher : list Z -> list Z -> list Z -> list Z -> Result (list Z);
}.

(** [../env]: the parsed configuration. *)
Class Env := {
  JWT_ACCESS_SECRET : string;
  ACCESS_TOKEN_TTL_SECONDS : Z;
  REFRESH_TOKEN_TTL_SECONDS : Z;
  MFA_ENCRYPTION_KEY : string;
  MFA_CHALLENGE_TTL_SECONDS : Z;
  MFA_MAX_ATTEMPTS : Z;
  MFA_REMEMBER_DEVICE_DAYS : Z;
}.

(** ** prisma-auth-repository.ts

    Prisma's calls are read as follows: [create] on a taken unique key throws
    P2002, [update] and [delete] on a missing row throw P2025, [updateMany]
    and [deleteMany] touch the rows the filter selects, [$transaction] leaves
    the tables as they were when its body throws. Foreign keys are not
    checked. *)
Module PrismaAuthRepository.

Definition P2002 : Exn := PrismaKnownRequestError "P2002".
Definition P2025 : Exn := PrismaKnownRequestError "P2025".

Definition findUserByEmail (email : string) : M (option (AuthUser * string)) :=
  d <- getDb ;;
  match List.find (fun kv => String.eqb (user_email (snd kv)) email) (map_to_list (users d)) with
  | None => ret None
  | Some (_, user) =>
      match passwordCredentials d !! user_id user with
      | None => ret None
      | Some passwordHash => ret (Some (user, passwordHash))
      end
  end.

Definition findUserById (id : string) : M (option AuthUser) :=
  d <- getDb ;; ret (users d !! id).

Record SaveRefreshTokenInput := {
  srt_id : string;
  srt_userId : string;
  srt_tokenHash : string;
  srt_issuedAt : Z;
  srt_expiresAt : Z;
  srt_ipAddress : option string;
  srt_userAgent : option string;
}.

Definition saveRefreshToken (input : SaveRefreshTokenInput) : M RefreshTokenRecord :=
  d <- getDb ;;
  match refreshTokens d !! srt_id input with
  | Some _ => throw P2002
  | None =>
      let record :=
        {| rt_id := srt_id input; rt_userId := srt_userId input;
           rt_tokenHash := srt_tokenHash input; rt_issuedAt := srt_issuedAt input;
           rt_expiresAt := srt_expiresAt input; rt_revokedAt := None;
           rt_replacedByTokenId := None; rt_ipAddress := srt_ipAddress input;
           rt_userAgent := srt_userAgent input |} in
      modifyDb (with_refreshTokens (insert (srt_id input) record)) ;;
      ret record
  end.

(** [include: { user }]: the owning user is joined in. *)
Definition findRefreshTokenById (id : string) : M (option (RefreshTokenRecord * AuthUser)) :=
  d <- getDb ;;
  match refreshTokens d !! id with
  | None => ret None
  | Some record =>
      match users d !! rt_userId record with
      | None => ret None
      | Some user => ret (Some (record, user))
      end
  end.

Definition revoked (revokedAt : Z) (replacedByTokenId : option string)
  (r : RefreshTokenRecord) : RefreshTokenRecord :=
  {| rt_id := rt_id r; rt_userId := rt_userId r; rt_tokenHash := rt_tokenHash r;
     rt_issuedAt := rt_issuedAt r; rt_expiresAt := rt_expiresAt r;
     rt_revokedAt := Some revokedAt; rt_replacedByTokenId := replacedByTokenId;
     rt_ipAddress := rt_ipAddress r; rt_userAgent := rt_userAgent r |}.

Definition revokeRefreshToken (id : string) (revokedAt : Z)
  (replacedByTokenId : option string) : M unit :=
  d <- getDb ;;
  match refreshTokens d !! id with
  | None => throw P2025
  | Some record =>
      modifyDb (with_refreshTokens (insert id (revoked revokedAt replacedByTokenId record)))
  end.

Definition is_none {A} (o : option A) : bool :=
  match o with None => true | Some _ => false end.

Definition is_some {A} (o : option A) : bool := negb (is_none o).

(** [updateMany({ where: { userId, revokedAt: null }, data: { revokedAt } })] *)
Definition revokeRefreshTokensForUser (userId : string) (revokedAt : Z) : M unit :=
  modifyDb (with_refreshTokens (fmap (fun r =>
    if String.eqb (rt_userId r) userId && is_none (rt_revokedAt r)
    then {| rt_id := rt_id r; rt_userId := rt_userId r; rt_tokenHash := rt_tokenHash r;
            rt_issuedAt := rt_issuedAt r; rt_expiresAt := rt_expiresAt r;
            rt_revokedAt := Some revokedAt;
            rt_replacedByTokenId := rt_replacedByTokenId r;
            rt_ipAddress := rt_ipAddress r; rt_userAgent := rt_userAgent r |}
    else r))).

Definition consumePasswordResetToken (token : string) (consumedAt : Z)
  : M (option PasswordResetTokenRecord) :=
  d <- getDb ;;
  match passwordResetTokens d !! token with
  | None => ret None
  | Some record =>
      if is_some (prt_consumedAt record) then ret None
      else if prt_expiresAt record <? consumedAt then ret None
      else
        let updated :=
          {| prt_id := prt_id record; prt_userId := prt_userId record;
             prt_token := prt_token record; prt_expiresAt := prt_expiresAt record;
             prt_consumedAt := Some consumedAt |} in
        modifyDb (with_passwordResetTokens (insert token updated)) ;;
        ret (Some updated)
  end.

Definition updatePasswordHash (userId passwordHash : string) (when : Z) : M unit :=
  d <- getDb ;;
  match passwordCredentials d !! userId with
  | None => throw P2025
  | Some _ => modifyDb (with_passwordCredentials (insert userId passwordHash))
  end.

Definition updateLastLogin (userId : string) (when : Z) : M unit :=
  d <- getDb ;;
  match users d !! userId with
  | None => throw P2025
  | Some u =>
      modifyDb (with_users (insert userId
        {| user_id := user_id u; user_email := user_email u; user_status := user_status u;
           user_planTier := user_planTier u; user_roles := user_roles u;
           user_emailVerifiedAt := user_emailVerifiedAt u;
           user_lastLoginAt := Some when |}))
  end.

Definition createAuditEvent (event : AuditEventInput) : M unit :=
  modifyDb (with_auditEvents (fun l => l ++ [event])).

Definition getMfaConfiguration (userId : string) : M (option MfaConfiguration) :=
  d <- getDb ;; ret (mfaSettings d !! userId).

Record UpsertMfaSettingInput := {
  ums_userId : string;
  ums_secretEncrypted : string;
  ums_deviceName : option string;
  ums_activatedAt : option Z;
}.

Definition upsertMfaSetting (input : UpsertMfaSettingInput) : M MfaConfiguration :=
  d <- getDb ;;
  match mfaSettings d !! ums_userId input with
  | Some existing =>
      let record :=
        {| mfa_id := mfa_id existing; mfa_secretEncrypted := ums_secretEncrypted input;
           mfa_deviceName := ums_deviceName input;
           mfa_activatedAt := ums_activatedAt input |} in
      modifyDb (with_mfaSettings (insert (ums_userId input) record)) ;;
      ret record
  | None =>
      id <- randomUUID ;;
      if existsb (fun kv => String.eqb (mfa_id (snd kv)) id) (map_to_list (mfaSettings d))
      then throw P2002
      else
        let record :=
          {| mfa_id := id; mfa_secretEncrypted := ums_secretEncrypted input;
             mfa_deviceName := ums_deviceName input;
             mfa_activatedAt := ums_activatedAt input |} in
        modifyDb (with_mfaSettings (insert (ums_userId input) record)) ;;
        ret record
  end.

Definition listMfaBackupCodes (userMfaId : string) : M (list MfaBackupCodeRecord) :=
  d <- getDb ;;
  ret (List.filter (fun r => String.eqb (bc_userMfaId r) userMfaId) (mfaBackupCodes d)).

Fixpoint distinct (ids : list string) : bool :=
  match ids with
  | [] => true
  | id :: rest => negb (existsb (String.eqb id) rest) && distinct rest
  end.

(** [input] is the MFA setting id and the [(id, codeHash)] pairs. *)
Definition replaceMfaBackupCodes (userMfaId : string) (codes : list (string * string))
  : M unit :=
  d <- getDb ;;
  let kept :=
    List.filter (fun r => negb (String.eqb (bc_userMfaId r) userMfaId)) (mfaBackupCodes d) in
  match codes with
  | [] => modifyDb (with_mfaBackupCodes (fun _ => kept))
  | _ =>
      if forallb (fun code => negb (existsb (fun r => String.eqb (bc_id r) (fst code)) kept)) codes
         && distinct (map fst codes) then
        modifyDb (with_mfaBackupCodes (fun _ =>
          kept ++ map (fun code =>
            {| bc_id := fst code; bc_userMfaId := userMfaId;
               bc_codeHash := snd code; bc_usedAt := None |}) codes))
      else throw P2002
  end.

Definition markBackupCodeUsed (id : string) (when : Z) : M unit :=
  d <- getDb ;;
  if existsb (fun r => String.eqb (bc_id r) id) (mfaBackupCodes d) then
    modifyDb (with_mfaBackupCodes (map (fun r =>
      if String.eqb (bc_id r) id
      then {| bc_id := bc_id r; bc_userMfaId := bc_userMfaId r;
              bc_codeHash := bc_codeHash r; bc_usedAt := Some when |}
      else r)))
  else throw P2025.

Record CreateMfaChallengeInput := {
  cmc_userId : string;
  cmc_userMfaId : option string;
  cmc_type : ChallengeType;
  cmc_secretEncrypted : option string;
  cmc_deviceName : option string;
  cmc_context : option bool;
  cmc_expiresAt : Z;
}.

Definition createMfaChallenge (input : CreateMfaChallengeInput) : M MfaChallengeRecord :=
  id <- randomUUID ;;
  d <- getDb ;;
  match mfaChallenges d !! id with
  | Some _ => throw P2002
  | None =>
      let record :=
        {| ch_id := id; ch_userId := cmc_userId input; ch_userMfaId := cmc_userMfaId input;
           ch_type := cmc_type input; ch_secretEncrypted := cmc_secretEncrypted input;
           ch_deviceName := cmc_deviceName input; ch_context := cmc_context input;
           ch_expiresAt := cmc_expiresAt input; ch_consumedAt := None; ch_attempts := 0 |} in
      modifyDb (with_mfaChallenges (insert id record)) ;;
      ret record
  end.

Definition findMfaChallengeById (id : string) : M (option MfaChallengeRecord) :=
  d <- getDb ;; ret (mfaChallenges d !! id).

Definition with_attempts (attempts : Z) (c : MfaChallengeRecord) : MfaChallengeRecord :=
  {| ch_id := ch_id c; ch_userId := ch_userId c; ch_userMfaId := ch_userMfaId c;
     ch_type := ch_type c; ch_secretEncrypted := ch_secretEncrypted c;
     ch_deviceName := ch_deviceName c; ch_context := ch_context c;
     ch_expiresAt := ch_expiresAt c; ch_consumedAt := ch_consumedAt c;
     ch_attempts := attempts |}.

Definition with_consumedAt (when : Z) (c : MfaChallengeRecord) : MfaChallengeRecord :=
  {| ch_id := ch_id c; ch_userId := ch_userId c; ch_userMfaId := ch_userMfaId c;
     ch_type := ch_type c; ch_secretEncrypted := ch_secretEncrypted c;
     ch_deviceName := ch_deviceName c; ch_context := ch_context c;
     ch_expiresAt := ch_expiresAt c; ch_consumedAt := Some when;
     ch_attempts := ch_attempts c |}.

Definition incrementMfaChallengeAttempts (id : string) (attempts : Z) : M unit :=
  d <- getDb ;;
  match mfaChallenges d !! id with
  | None => throw P2025
  | Some record => modifyDb (with_mfaChallenges (insert id (with_attempts attempts record)))
  end.

(** [update({ where: { id }, data: { consumedAt: when } })], with P2025 turned
    into [null]. *)
Definition consumeMfaChallenge (id : string) (when : Z) : M (option MfaChallengeRecord) :=
  d <- getDb ;;
  match mfaChallenges d !! id with
  | None => ret None
  | Some record =>
      modifyDb (with_mfaChallenges (insert id (with_consumedAt when record))) ;;
      ret (Some (with_consumedAt when record))
  end.

Definition deleteMfaChallenge (id : string) : M unit :=
  d <- getDb ;;
  match mfaChallenges d !! id with
  | None => throw P2025
  | Some _ => modifyDb (with_mfaChallenges (delete id))
  end.

Definition listRememberedDevices (userMfaId : string) : M (list MfaRememberedDeviceRecord) :=
  d <- getDb ;;
  ret (List.filter (fun r => String.eqb (rd_userMfaId r) userMfaId) (mfaRememberedDevices d)).

Record CreateRememberedDeviceInput := {
  crd_userMfaId : string;
  crd_tokenHash : string;
  crd_expiresAt : Z;
  crd_ipAddress : option string;
  crd_userAgent : option string;
}.

Definition createRememberedDevice (input : CreateRememberedDeviceInput)
  : M MfaRememberedDeviceRecord :=
  id <- randomUUID ;;
  d <- getDb ;;
  if existsb (fun r => String.eqb (rd_id r) id) (mfaRememberedDevices d) then throw P2002
  else
    let record :=
      {| rd_id := id; rd_userMfaId := crd_userMfaId input;
         rd_tokenHash := crd_tokenHash input; rd_expiresAt := crd_expiresAt input;
         rd_lastUsedAt := None; rd_ipAddress := crd_ipAddress input;
         rd_userAgent := crd_userAgent input |} in
    modifyDb (with_mfaRememberedDevices (fun l => l ++ [record])) ;;
    ret record.

Definition updateRememberedDevice (id : string) (lastUsedAt : Z)
  (ip ua : option string) : M unit :=
  d <- getDb ;;
  if existsb (fun r => String.eqb (rd_id r) id) (mfaRememberedDevices d) then
    modifyDb (with_mfaRememberedDevices (map (fun r =>
      if String.eqb (rd_id r) id
      then {| rd_id := rd_id r; rd_userMfaId := rd_userMfaId r;
              rd_tokenHash := rd_tokenHash r; rd_expiresAt := rd_expiresAt r;
              rd_lastUsedAt := Some lastUsedAt; rd_ipAddress := ip; rd_userAgent := ua |}
      else r)))
  else throw P2025.

Definition deleteExpiredRememberedDevices (userMfaId : string) (now : Z) : M unit :=
  modifyDb (with_mfaRememberedDevices (List.filter (fun r =>
    negb (String.eqb (rd_userMfaId r) userMfaId && (rd_expiresAt r <? now))))).

End PrismaAuthRepository.

(** ** encryption.ts *)

Definition IV_LENGTH : nat := 12.
Definition AUTH_TAG_LENGTH : nat := 16.

Definition utf8_toString (bytes : list Z) : string :=
  fold_right (fun b r => String (chr b) r) "" bytes.

Section Encryption.
Context `{NodeModules}.

Definition decodeKey (base64 : string) : Result (list Z) :=
  let key := base64_decode base64 in
  if (length key =? 32)%nat then Ok key
  else Throw (NodeError "MFA_ENCRYPTION_KEY must decode to 32 bytes").

Definition decryptSecret (payload keyBase64 : string) : Result string :=
  match decodeKey keyBase64 with
  | Throw e => Throw e
  | Ok key =>
      let buffer := base64_decode payload in
      if (length buffer <? IV_LENGTH + AUTH_TAG_LENGTH)%nat
      then Throw (NodeError "Encrypted payload is too short")
      else
        let iv := firstn IV_LENGTH buffer in
        let authTag := firstn AUTH_TAG_LENGTH (skipn IV_LENGTH buffer) in
        let ciphertext := skipn (IV_LENGTH + AUTH_TAG_LENGTH) buffer in
        match aes_256_gcm_decipher key iv authTag ciphertext with
        | Throw e => Throw e
        | Ok decrypted => Ok (utf8_toString decrypted)
        end
  end.

End Encryption.

(** ** totp.ts, the part that draws entropy *)

(** [s.slice(a, b)] for [0 <= a <= b]. *)
Definition slice (a b : nat) (s : string) : string := String.substring a (b - a) s.

Fixpoint generateBackupCodes (count : nat) : M (list string) :=
  match count with
  | O => ret []
  | S k =>
      bytes <- randomBytes 5 ;;
      let raw := slice 0 8 (base32Encode bytes) in
      let code := slice 0 4 raw +:+ "-" +:+ slice 4 8 raw in
      rest <- generateBackupCodes k ;;
      ret (code :: rest)
  end.

(** ** auth-service.ts *)
Module AuthService.

Module repository := PrismaAuthRepository.

Definition ACCESS_TOKEN_AUDIENCE : string := "finance-manager-dashboard".
Definition ACCESS_TOKEN_ISSUER : string := "finance-manager-auth".
Definition BACKUP_CODE_COUNT : nat := 8.

Definition is_upper_alnum (c : ascii) : bool := is_upper c || is_digit c.

(** [/^[A-Z0-9]{4}-[A-Z0-9]{4}$/.test(s)] *)
Definition BACKUP_CODE_PATTERN (s : string) : bool :=
  (String.length s =? 9)%nat
  && string_forallb is_upper_alnum (String.substring 0 4 s)
  && String.eqb (String.substring 4 1 s) "-"
  && string_forallb is_upper_alnum (String.substring 5 4 s).

Record LoginInput := {
  in_email : string;
  in_password : string;
  in_rememberMe : option bool;
  in_challengeId : option string;
  in_mfaCode : option string;
  in_rememberDevice : option bool;
  in_rememberedDeviceToken : option string;
}.

Record VerifyMfaChallengeInput := {
  vin_challengeId : string;
  vin_code : string;
  vin_rememberDevice : option bool;
}.

Record AuthTokens := {
  accessToken : string;
  accessTokenExpiresAt : Z;
  refreshToken : string;
  refreshTokenExpiresAt : Z;
}.

Record RememberDevice := {
  value : string;
  expiresAt : Z;
}.

Inductive LoginResult :=
| authenticated (user : AuthUser) (tokens : AuthTokens) (emailVerified : bool)
    (rememberDevice : option RememberDevice)
| mfa_challenge (challengeId : string) (methods : list string) (expiresAt : Z).

Record RefreshResult := {
  rr_user : AuthUser;
  rr_tokens : AuthTokens;
}.

Record VerifyMfaLoginResult := {
  vl_user : AuthUser;
  vl_tokens : AuthTokens;
  vl_rememberDevice : option RememberDevice;
}.

Inductive VerifyMfaChallengeResult :=
| setup_result (backupCodes : list string) (activatedAt : Z)
| login_result (r : VerifyMfaLoginResult).

(** The white space and line terminators of ECMAScript among the ASCII
    characters: space, tab, LF, VT, FF, CR. *)
Definition is_space (c : ascii) : bool :=
  let n := ord c in (n =? 32) || ((9 <=? n) && (n <=? 13)).

Fixpoint trimStart (s : string) : string :=
  match s with
  | EmptyString => ""
  | String c r => if is_space c then trimStart r else s
  end.

Fixpoint trimEnd (s : string) : string :=
  match s with
  | EmptyString => ""
  | String c r =>
      match trimEnd r with
      | EmptyString => if is_space c then "" else String c ""
      | r' => String c r'
      end
  end.

(** [s.trim()], for [s] of ASCII characters. *)
Definition trim (s : string) : string := trimEnd (trimStart s).

Definition toLowerChar (c : ascii) : ascii :=
  if is_upper c then chr (ord c + 32) else c.

(** [s.toLowerCase()], for [s] of ASCII characters. *)
Fixpoint toLowerCase (s : string) : string :=
  match s with
  | EmptyString => ""
  | String c r => String (toLowerChar c) (toLowerCase r)
  end.

Definition normalizeEmail (value : string) : string := toLowerCase (trim value).

(** [token.split('.')] *)
Fixpoint split_dot (token : string) : list string :=
  match token with
  | EmptyString => [""]
  | String c r =>
      if Ascii.eqb c "."%char then "" :: split_dot r
      else
        match split_dot r with
        | [] => [String c ""]
        | seg :: segs => String c seg :: segs
        end
  end.

Section Service.
Context `{NodeModules} `{Env}.

Definition argon2Hash (plain : string) : M string :=
  salt <- randomBytes 16 ;;
  ret (argon2_hash salt plain).

Definition argon2Verify (digest plain : string) : M bool :=
  lift (argon2_verify digest plain).

Definition event (action actor : string) (context : RequestContext)
  (metadata : list (string * MetaValue)) : AuditEventInput :=
  {| ev_action := action; ev_actor := actor; ev_userId := Some actor;
     ev_ipAddress := ipAddress context; ev_userAgent := userAgent context;
     ev_metadata := metadata |}.

Definition getActiveMfaConfiguration (userId : string) : M (option MfaConfiguration) :=
  config <- repository.getMfaConfiguration userId ;;
  match config with
  | None => ret None
  | Some c =>
      match mfa_activatedAt c with
      | None => ret None
      | Some _ => ret (Some c)
      end
  end.

Definition parseCompositeToken (token : string) : option (string * string) :=
  match split_dot token with
  | [id; secret] =>
      if String.eqb id "" || String.eqb secret "" then None else Some (id, secret)
  | _ => None
  end.

Definition issueSession (user : AuthUser) (context : RequestContext)
  (previousTokenId : option string) (rememberMe : option bool) : M AuthTokens :=
  now <- newDate ;;
  let accessTokenExpiresAt := now + ACCESS_TOKEN_TTL_SECONDS * 1000 in
  let defaultTtl := REFRESH_TOKEN_TTL_SECONDS in
  let refreshTtlSeconds :=
    if Boolean rememberMe then defaultTtl else Z.min defaultTtl (7 * 24 * 60 * 60) in
  let refreshTokenExpiresAt := now + refreshTtlSeconds * 1000 in
  secretBytes <- randomBytes 48 ;;
  let refreshTokenSecret := base64url secretBytes in
  refreshTokenId <- randomUUID ;;
  let refreshTokenValue := refreshTokenId +:+ "." +:+ refreshTokenSecret in
  refreshTokenHash <- argon2Hash refreshTokenSecret ;;
  repository.saveRefreshToken
    {| repository.srt_id := refreshTokenId; repository.srt_userId := user_id user;
       repository.srt_tokenHash := refreshTokenHash; repository.srt_issuedAt := now;
       repository.srt_expiresAt := refreshTokenExpiresAt;
       repository.srt_ipAddress := ipAddress context;
       repository.srt_userAgent := userAgent context |} ;;
  (match previousTokenId with
   | Some prev =>
       if String.eqb prev "" then ret tt
       else repository.revokeRefreshToken prev now (Some refreshTokenId)
   | None => ret tt
   end) ;;
  let accessTokenPayload :=
    {| jwt_sub := user_id user; jwt_email := user_email user;
       jwt_planTier := user_planTier user;
       jwt_emailVerified := repository.is_some (user_emailVerifiedAt user);
       jwt_roles := user_roles user |} in
  let accessToken := jwt_sign accessTokenPayload JWT_ACCESS_SECRET ACCESS_TOKEN_TTL_SECONDS in
  ret {| accessToken := accessToken; accessTokenExpiresAt := accessTokenExpiresAt;
         refreshToken := refreshTokenValue; refreshTokenExpiresAt := refreshTokenExpiresAt |}.

(** The part of [refreshSession] that runs before [issueSession] is awaited. *)
Definition refreshSession_checks (refreshToken : string)
  : M (string * RefreshTokenRecord * AuthUser) :=
  match parseCompositeToken refreshToken with
  | None => throw (unauthorized "AUTH_INVALID_REFRESH_TOKEN")
  | Some (id, secret) =>
      record <- repository.findRefreshTokenById id ;;
      match record with
      | None => throw (unauthorized "AUTH_INVALID_REFRESH_TOKEN")
      | Some (record, user) =>
          now <- newDate ;;
          if repository.is_some (rt_revokedAt record)
          then throw (unauthorized "AUTH_REFRESH_TOKEN_REVOKED")
          else if rt_expiresAt record <=? now then
            repository.revokeRefreshToken (rt_id record) now None ;;
            throw (unauthorized "AUTH_REFRESH_TOKEN_EXPIRED")
          else
            secretValid <- argon2Verify (rt_tokenHash record) secret ;;
            if negb secretValid then
              repository.revokeRefreshToken (rt_id record) now None ;;
              throw (unauthorized "AUTH_INVALID_REFRESH_TOKEN")
            else if match user_status user with suspended => true | _ => false end then
              repository.revokeRefreshToken (rt_id record) now None ;;
              throw (forbidden "AUTH_ACCOUNT_SUSPENDED")
            else ret (id, record, user)
      end
  end.

(** The rest of [refreshSession], from [issueSession] on. *)
Definition refreshSession_rotate (context : RequestContext)
  (checked : string * RefreshTokenRecord * AuthUser) : M RefreshResult :=
  let '(id, record, user) := checked in
  tokens <- issueSession user context (Some (rt_id record)) None ;;
  repository.createAuditEvent
    (event "auth.refresh" (user_id user) context [("refreshTokenId", MString id)]) ;;
  ret {| rr_user := user; rr_tokens := tokens |}.

Definition refreshSession (refreshToken : string) (context : RequestContext)
  : M RefreshResult :=
  checked <- refreshSession_checks refreshToken ;;
  refreshSession_rotate context checked.

Definition resetPassword (token newPassword : string) (context : RequestContext)
  : M AuthUser :=
  consumedAt <- newDate ;;
  record <- repository.consumePasswordResetToken token consumedAt ;;
  match record with
  | None => throw (badRequest "AUTH_RESET_TOKEN_INVALID")
  | Some record =>
      user <- repository.findUserById (prt_userId record) ;;
      match user with
      | None => throw (badRequest "AUTH_RESET_TOKEN_INVALID")
      | Some user =>
          newHash <- argon2Hash newPassword ;;
          when <- newDate ;;
          repository.updatePasswordHash (user_id user) newHash when ;;
          revokedAt <- newDate ;;
          repository.revokeRefreshTokensForUser (user_id user) revokedAt ;;
          repository.createAuditEvent
            (event "auth.password.reset" (user_id user) context []) ;;
          ret user
      end
  end.

Definition type_name (t : ChallengeType) : string :=
  match t with Setup => "setup" | Login => "login" | Recovery => "recovery" end.

(** Always throws: its callers never continue past it. *)
Definition registerFailedMfaAttempt (challenge : MfaChallengeRecord)
  (context : RequestContext) : M unit :=
  let nextAttempts := ch_attempts challenge + 1 in
  repository.incrementMfaChallengeAttempts (ch_id challenge) nextAttempts ;;
  repository.createAuditEvent
    (event "auth.mfa.challenge.failed" (ch_userId challenge) context
       [("challengeId", MString (ch_id challenge)); ("attempts", MNumber nextAttempts);
        ("type", MString (type_name (ch_type challenge)))]) ;;
  if MFA_MAX_ATTEMPTS <=? nextAttempts then
    repository.deleteMfaChallenge (ch_id challenge) ;;
    throw (tooManyRequests "AUTH_MFA_CHALLENGE_LOCKED")
  else throw (unauthorized "AUTH_MFA_CODE_INCORRECT").

(** [isValidTotpToken(secret, code)] as the service calls it: no options, so
    the time stamp is [Date.now()]. *)
Definition isValidTotpTokenNow (secret code : string) : M bool :=
  dateNow <- newDate ;;
  lift (isValidTotpToken secret code noOptions dateNow).

Fixpoint hashBackupCodes (backupCodes : list string) : M (list (string * string)) :=
  match backupCodes with
  | [] => ret []
  | value :: rest =>
      id <- randomUUID ;;
      codeHash <- argon2Hash value ;;
      hashed <- hashBackupCodes rest ;;
      ret ((id, codeHash) :: hashed)
  end.

Definition completeSetupChallenge (challenge : MfaChallengeRecord) (code : string)
  (context : RequestContext) : M VerifyMfaChallengeResult :=
  if negb (truthy (ch_secretEncrypted challenge))
  then throw (badRequest "AUTH_MFA_CHALLENGE_INVALID")
  else
    let secretEncrypted := nullish (ch_secretEncrypted challenge) "" in
    secret <- lift (decryptSecret secretEncrypted MFA_ENCRYPTION_KEY) ;;
    valid <- isValidTotpTokenNow secret code ;;
    (if negb valid then registerFailedMfaAttempt challenge context else ret tt) ;;
    activatedAt <- newDate ;;
    setting <- repository.upsertMfaSetting
      {| repository.ums_userId := ch_userId challenge;
         repository.ums_secretEncrypted := secretEncrypted;
         repository.ums_deviceName := ch_deviceName challenge;
         repository.ums_activatedAt := Some activatedAt |} ;;
    generated <- generateBackupCodes BACKUP_CODE_COUNT ;;
    let backupCodes := map toUpperCase generated in
    hashedCodes <- hashBackupCodes backupCodes ;;
    repository.replaceMfaBackupCodes (mfa_id setting) hashedCodes ;;
    repository.consumeMfaChallenge (ch_id challenge) activatedAt ;;
    repository.createAuditEvent
      (event "auth.mfa.setup.completed" (ch_userId challenge) context []) ;;
    ret (setup_result backupCodes activatedAt).

Fixpoint consumeBackupCode_scan (codes : list MfaBackupCodeRecord)
  (userMfaId userId code : string) (context : RequestContext) : M bool :=
  match codes with
  | [] => ret false
  | record :: rest =>
      if repository.is_some (bc_usedAt record)
      then consumeBackupCode_scan rest userMfaId userId code context
      else
        valid <- argon2Verify (bc_codeHash record) code ;;
        if valid then
          when <- newDate ;;
          repository.markBackupCodeUsed (bc_id record) when ;;
          repository.createAuditEvent
            (event "auth.mfa.backup-code.used" userId context
               [("userMfaId", MString userMfaId); ("backupCodeId", MString (bc_id record))]) ;;
          ret true
        else consumeBackupCode_scan rest userMfaId userId code context
  end.

Definition consumeBackupCode (userMfaId userId code : string) (context : RequestContext)
  : M bool :=
  codes <- repository.listMfaBackupCodes userMfaId ;;
  consumeBackupCode_scan codes userMfaId userId code context.

Definition createRememberedDevice (userMfaId : string) (context : RequestContext)
  : M RememberDevice :=
  bytes <- randomBytes 32 ;;
  let value := base64url bytes in
  tokenHash <- argon2Hash value ;;
  dateNow <- newDate ;;
  let expiresAt := dateNow + MFA_REMEMBER_DEVICE_DAYS * 24 * 60 * 60 * 1000 in
  repository.createRememberedDevice
    {| repository.crd_userMfaId := userMfaId; repository.crd_tokenHash := tokenHash;
       repository.crd_expiresAt := expiresAt;
       repository.crd_ipAddress := ipAddress context;
       repository.crd_userAgent := userAgent context |} ;;
  ret {| value := value; expiresAt := expiresAt |}.

(** What [completeLoginChallenge] has established once the code is accepted. *)
Record AcceptedLoginCode := {
  acc_challenge : MfaChallengeRecord;
  acc_setting : MfaConfiguration;
  acc_now : Z;
  acc_usingBackupCode : bool;
}.

(** [completeLoginChallenge] up to and including the check of the code. *)
Definition completeLoginChallenge_verify (challengeId code : string)
  (context : RequestContext) : M AcceptedLoginCode :=
  challenge <- repository.findMfaChallengeById challengeId ;;
  match challenge with
  | None => throw (badRequest "AUTH_MFA_CHALLENGE_INVALID")
  | Some challenge =>
      now <- newDate ;;
      if ch_expiresAt challenge <? now then
        repository.deleteMfaChallenge (ch_id challenge) ;;
        throw (gone "AUTH_MFA_CHALLENGE_EXPIRED")
      else
        setting <- getActiveMfaConfiguration (ch_userId challenge) ;;
        match setting with
        | None =>
            repository.deleteMfaChallenge (ch_id challenge) ;;
            throw (badRequest "AUTH_MFA_CHALLENGE_INVALID")
        | Some setting =>
            secret <- lift (decryptSecret (mfa_secretEncrypted setting) MFA_ENCRYPTION_KEY) ;;
            let isTotp := is_six_digits code in
            usingBackupCode <-
              (if isTotp then
                 valid <- isValidTotpTokenNow secret code ;;
                 (if negb valid then registerFailedMfaAttempt challenge context else ret tt) ;;
                 ret false
               else if BACKUP_CODE_PATTERN (toUpperCase code) then
                 usingBackupCode <- consumeBackupCode (mfa_id setting) (ch_userId challenge)
                                      (toUpperCase code) context ;;
                 (if negb usingBackupCode then registerFailedMfaAttempt challenge context
                  else ret tt) ;;
                 ret usingBackupCode
               else
                 registerFailedMfaAttempt challenge context ;;
                 ret false) ;;
            ret {| acc_challenge := challenge; acc_setting := setting; acc_now := now;
                   acc_usingBackupCode := usingBackupCode |}
        end
  end.

(** [completeLoginChallenge] from [consumeMfaChallenge] on. *)
Definition completeLoginChallenge_finish (rememberDevice : bool) (context : RequestContext)
  (accepted : AcceptedLoginCode) : M VerifyMfaLoginResult :=
  let challenge := acc_challenge accepted in
  let setting := acc_setting accepted in
  let now := acc_now accepted in
  let usingBackupCode := acc_usingBackupCode accepted in
  consumed <- repository.consumeMfaChallenge (ch_id challenge) now ;;
  let rememberMe :=
    Boolean (match consumed with Some c => ch_context c | None => None end) in
  user <- repository.findUserById (ch_userId challenge) ;;
  match user with
  | None => throw (unauthorized "AUTH_INVALID_CREDENTIALS")
  | Some user =>
      tokens <- issueSession user context None (Some rememberMe) ;;
      rememberDeviceResult <-
        (if rememberDevice && negb usingBackupCode then
           r <- createRememberedDevice (mfa_id setting) context ;; ret (Some r)
         else ret None) ;;
      repository.updateLastLogin (user_id user) now ;;
      repository.createAuditEvent
        (event "auth.mfa.login.success" (user_id user) context
           [("rememberMe", MBool rememberMe);
            ("rememberDevice", MBool (repository.is_some rememberDeviceResult));
            ("usedBackupCode", MBool usingBackupCode)]) ;;
      ret {| vl_user := user; vl_tokens := tokens; vl_rememberDevice := rememberDeviceResult |}
  end.

Definition completeLoginChallenge (challengeId code : string) (rememberDevice : bool)
  (context : RequestContext) : M VerifyMfaLoginResult :=
  accepted <- completeLoginChallenge_verify challengeId code context ;;
  completeLoginChallenge_finish rememberDevice context accepted.

Definition verifyMfaChallenge (input : VerifyMfaChallengeInput) (context : RequestContext)
  : M VerifyMfaChallengeResult :=
  challenge <- repository.findMfaChallengeById (vin_challengeId input) ;;
  match challenge with
  | None => throw (badRequest "AUTH_MFA_CHALLENGE_INVALID")
  | Some challenge =>
      now <- newDate ;;
      if ch_expiresAt challenge <? now then
        repository.deleteMfaChallenge (ch_id challenge) ;;
        throw (gone "AUTH_MFA_CHALLENGE_EXPIRED")
      else if repository.is_some (ch_consumedAt challenge)
      then throw (badRequest "AUTH_MFA_CHALLENGE_INVALID")
      else
        match ch_type challenge with
        | Setup => completeSetupChallenge challenge (vin_code input) context
        | Login =>
            r <- completeLoginChallenge (vin_challengeId input) (vin_code input)
                   (Boolean (vin_rememberDevice input)) context ;;
            ret (login_result r)
        | Recovery => throw (badRequest "AUTH_MFA_CHALLENGE_INVALID")
        end
  end.

Fixpoint validateRememberedDevice_scan (devices : list MfaRememberedDeviceRecord)
  (token : string) (now : Z) (context : RequestContext) : M (option string) :=
  match devices with
  | [] => ret None
  | device :: rest =>
      if rd_expiresAt device <? now
      then validateRememberedDevice_scan rest token now context
      else
        valid <- catch_with (argon2Verify (rd_tokenHash device) token) false ;;
        if valid then
          repository.updateRememberedDevice (rd_id device) now
            (ipAddress context) (userAgent context) ;;
          ret (Some (rd_id device))
        else validateRememberedDevice_scan rest token now context
  end.

Definition validateRememberedDevice (setting : MfaConfiguration) (token : option string)
  (context : RequestContext) : M (option string) :=
  if negb (truthy token) then ret None
  else
    devices <- repository.listRememberedDevices (mfa_id setting) ;;
    now <- newDate ;;
    matchedId <- validateRememberedDevice_scan devices (nullish token "") now context ;;
    repository.deleteExpiredRememberedDevices (mfa_id setting) now ;;
    ret matchedId.

Definition login (input : LoginInput) (context : RequestContext) : M LoginResult :=
  if truthy (in_challengeId input) && truthy (in_mfaCode input) then
    challengeResult <- completeLoginChallenge (nullish (in_challengeId input) "")
                         (nullish (in_mfaCode input) "")
                         (Boolean (in_rememberDevice input)) context ;;
    ret (authenticated (vl_user challengeResult) (vl_tokens challengeResult)
           (repository.is_some (user_emailVerifiedAt (vl_user challengeResult)))
           (vl_rememberDevice challengeResult))
  else
    let email := normalizeEmail (in_email input) in
    record <- repository.findUserByEmail email ;;
    match record with
    | None => throw (unauthorized "AUTH_INVALID_CREDENTIALS")
    | Some (user, passwordHash) =>
        passwordValid <- argon2Verify passwordHash (in_password input) ;;
        if negb passwordValid then throw (unauthorized "AUTH_INVALID_CREDENTIALS")
        else if match user_status user with suspended => true | _ => false end
        then throw (forbidden "AUTH_ACCOUNT_SUSPENDED")
        else
          mfaConfig <- getActiveMfaConfiguration (user_id user) ;;
          match mfaConfig with
          | None =>
              tokens <- issueSession user context None (in_rememberMe input) ;;
              when <- newDate ;;
              repository.updateLastLogin (user_id user) when ;;
              repository.createAuditEvent
                (event "auth.login" (user_id user) context
                   [("rememberMe", MBool (Boolean (in_rememberMe input)))]) ;;
              ret (authenticated user tokens
                     (repository.is_some (user_emailVerifiedAt user)) None)
          | Some mfaConfig =>
              remembered <- validateRememberedDevice mfaConfig
                              (in_rememberedDeviceToken input) context ;;
              match remembered with
              | Some remembered =>
                  tokens <- issueSession user context None (in_rememberMe input) ;;
                  when <- newDate ;;
                  repository.updateLastLogin (user_id user) when ;;
                  repository.createAuditEvent
                    (event "auth.login" (user_id user) context
                       [("rememberMe", MBool (Boolean (in_rememberMe input)));
                        ("rememberedDeviceId", MString remembered)]) ;;
                  ret (authenticated user tokens
                         (repository.is_some (user_emailVerifiedAt user)) None)
              | None =>
                  dateNow <- newDate ;;
                  let challengeExpiresAt := dateNow + MFA_CHALLENGE_TTL_SECONDS * 1000 in
                  challenge <- repository.createMfaChallenge
                    {| repository.cmc_userId := user_id user;
                       repository.cmc_userMfaId := Some (mfa_id mfaConfig);
                       repository.cmc_type := Login;
                       repository.cmc_secretEncrypted := None;
                       repository.cmc_deviceName := None;
                       repository.cmc_context := Some (Boolean (in_rememberMe input));
                       repository.cmc_expiresAt := challengeExpiresAt |} ;;
                  repository.createAuditEvent
                    (event "auth.login.challenge" (user_id user) context
                       [("challengeId", MString (ch_id challenge))]) ;;
                  ret (mfa_challenge (ch_id challenge) ["totp"; "backup_code"]
                         (ch_expiresAt challenge))
              end
          end
    end.

End Service.

End AuthService.

(** ** Test doubles and fixtures

    Stand-ins for the Node modules, in the manner of the repository's
    [test/helpers.ts]: the hash of [p] is [p] behind a PHC prefix and
    [verify] rejects a digest without one, as [argon2.verify] does; the
    decipher hands back the ciphertext; [base64_decode] is the real decoding. *)
Module Fixtures.

Import AuthService.

Definition BASE64_ALPHABET : string :=
  "ABCDEFGHIJKLMNOPQRSTUVWXYZabcdefghijklmnopqrstuvwxyz0123456789+/".

Fixpoint base64_loop (chars : list ascii) (bits value : Z) (bytes : list Z) : list Z :=
  match chars with
  | [] => bytes
  | c :: rest =>
      let index := indexOf_from 0 c BASE64_ALPHABET in
      if index =? -1 then base64_loop rest bits value bytes
      else
        let value := Z.lor (Z.shiftl value 6) index mod 65536 in
        let bits := bits + 6 in
        if 8 <=? bits then
          base64_loop rest (bits - 8) value (bytes ++ [Z.land (Z.shiftr value (bits - 8)) 255])
        else base64_loop rest bits value bytes
  end.

Definition phc : string := "$argon2id$v=19$m=19456,t=2,p=1$".

Definition modules : NodeModules :=
  {| argon2_hash := fun salt plain => phc +:+ plain;
     argon2_verify := fun digest plain =>
       if String.prefix phc digest then Ok (String.eqb digest (phc +:+ plain))
       else Throw (NodeError "TypeError");
     jwt_sign := fun payload secret ttl => "jwt." +:+ jwt_sub payload;
     base64url := fun bytes => utf8_toString (map (fun b => 97 + b mod 26) bytes);
     base64_decode := fun s => base64_loop (string_to_list s) 0 0 [];
     aes_256_gcm_decipher := fun key iv authTag ciphertext => Ok ciphertext |}.

(** The environment of [createAuthServiceForTest]. *)
Definition env : Env :=
  {| JWT_ACCESS_SECRET := "test-access-secret-should-be-long";
     ACCESS_TOKEN_TTL_SECONDS := 900;
     REFRESH_TOKEN_TTL_SECONDS := 60 * 60 * 24 * 30;
     MFA_ENCRYPTION_KEY := "AAAAAAAAAAAAAAAAAAAAAAAAAAAAAAAAAAAAAAAAAAA=";
     MFA_CHALLENGE_TTL_SECONDS := 600;
     MFA_MAX_ATTEMPTS := 5;
     MFA_REMEMBER_DEVICE_DAYS := 30 |}.

Definition ctx : RequestContext :=
  {| ipAddress := Some "127.0.0.1"; userAgent := Some "vitest" |}.

Definition casey : AuthUser :=
  {| user_id := "user-1"; user_email := "casey@example.com"; user_status := active;
     user_planTier := free; user_roles := ["user"]; user_emailVerifiedAt := None;
     user_lastLoginAt := None |}.

(** The moment the fixtures start at: 2028-10-12T06:41:30Z, the start of TOTP
    step 61831283. *)
Definition t0 : Z := 1854938490000.

(** base64 of twelve bytes of nonce, sixteen of tag and "JBSWY3DPEHPK3PXP". *)
Definition secretEncrypted : string :=
  "bm9uY2Vub25jZW5vdGFndGFndGFndGFndGFndEpCU1dZM0RQRUhQSzNQWFA=".

Definition setting : MfaConfiguration :=
  {| mfa_id := "mfa-1"; mfa_secretEncrypted := secretEncrypted;
     mfa_deviceName := Some "Personal phone"; mfa_activatedAt := Some (t0 - 86400000) |}.

Definition emptyDb : Db :=
  {| users := ∅; passwordCredentials := ∅; refreshTokens := ∅; passwordResetTokens := ∅;
     mfaSettings := ∅; mfaChallenges := ∅; mfaBackupCodes := []; mfaRememberedDevices := [];
     auditEvents := [] |}.

(** A world over [d]: the clock advances a millisecond per reading for the
    first second, ids and bytes count up. *)
Definition world (d : Db) : World :=
  {| db := d; clock := fun n => t0 + Z.min (Z.of_nat n) 1000; ticks := 0;
     uuids := fun n => "uuid-" +:+ toString (Z.of_nat n); uuidsDrawn := 0;
     entropy := fun n => Z.of_nat n mod 256; bytesDrawn := 0 |}.


(** Casey, signed up with password "Sup3rSecurePass!", without MFA. *)
Definition db_signed_up : Db :=
  with_passwordCredentials (insert "user-1" (phc +:+ "Sup3rSecurePass!"))
    (with_users (insert "user-1" casey) emptyDb).

Definition refreshToken1 : RefreshTokenRecord :=
  {| rt_id := "rt-1"; rt_userId := "user-1"; rt_tokenHash := phc +:+ "s3cret";
     rt_issuedAt := t0 - 1000; rt_expiresAt := t0 + 604800000; rt_revokedAt := None;
     rt_replacedByTokenId := None; rt_ipAddress := None; rt_userAgent := None |}.

(** Casey holding the refresh token "rt-1.s3cret". *)
Definition db_session : Db :=
  with_refreshTokens (insert "rt-1" refreshToken1) db_signed_up.

Definition backupCode1 : MfaBackupCodeRecord :=
  {| bc_id := "bc-1"; bc_userMfaId := "mfa-1"; bc_codeHash := phc +:+ "ABCD-2345";
     bc_usedAt := None |}.

(** Casey with TOTP enabled and one backup code. *)
Definition db_mfa : Db :=
  with_mfaBackupCodes (fun _ => [backupCode1])
    (with_mfaSettings (insert "user-1" setting) db_session).

Definition loginChallenge : MfaChallengeRecord :=
  {| ch_id := "ch-1"; ch_userId := "user-1"; ch_userMfaId := Some "mfa-1";
     ch_type := Login; ch_secretEncrypted := None; ch_deviceName := None;
     ch_context := Some false; ch_expiresAt := t0 + 600000; ch_consumedAt := None;
     ch_attempts := 0 |}.

(** Casey with a pending login challenge. *)
Definition db_challenged : Db :=
  with_mfaChallenges (insert "ch-1" loginChallenge) db_mfa.

Definition setupChallenge : MfaChallengeRecord :=
  {| ch_id := "ch-0"; ch_userId := "user-1"; ch_userMfaId := None;
     ch_type := Setup; ch_secretEncrypted := Some secretEncrypted;
     ch_deviceName := Some "Personal phone";
     ch_context := None; ch_expiresAt := t0 + 600000; ch_consumedAt := None;
     ch_attempts := 0 |}.

(** Casey in the middle of enrolment. *)
Definition db_enrolling : Db :=
  with_mfaChallenges (insert "ch-0" setupChallenge) db_session.

(** The same challenge after it has been completed once. *)
Definition consumedChallenge : MfaChallengeRecord :=
  repository.with_consumedAt (t0 - 1000) loginChallenge.

Definition db_consumed : Db :=
  with_mfaChallenges (insert "ch-1" consumedChallenge) db_mfa.

(** Casey with a stored password hash that is not a PHC string. *)
Definition db_malformed_hash : Db :=
  with_passwordCredentials (insert "user-1" "not-a-hash") db_signed_up.

(** "rt-1" already rotated into "rt-2". *)
Definition db_rotated : Db :=
  with_refreshTokens (insert "rt-1" (repository.revoked (t0 - 500) (Some "rt-2") refreshToken1))
    db_session.

Definition resetToken1 : PasswordResetTokenRecord :=
  {| prt_id := "prt-1"; prt_userId := "user-1"; prt_token := "reset-1";
     prt_expiresAt := t0 + 3600000; prt_consumedAt := None |}.

(** Casey holding a refresh token and having asked for a password reset. *)
Definition db_reset_requested : Db :=
  with_passwordResetTokens (insert "reset-1" resetToken1) db_session.

Definition loginInput : LoginInput :=
  {| in_email := "casey@example.com"; in_password := "Sup3rSecurePass!";
     in_rememberMe := None; in_challengeId := None; in_mfaCode := None;
     in_rememberDevice := None; in_rememberedDeviceToken := None |}.

Definition challengeInput (code : string) : LoginInput :=
  {| in_email := "casey@example.com"; in_password := "Sup3rSecurePass!";
     in_rememberMe := None; in_challengeId := Some "ch-1"; in_mfaCode := Some code;
     in_rememberDevice := None; in_rememberedDeviceToken := None |}.

End Fixtures.

(** ** Vocabulary of the statements *)

Import AuthService.

(** The worlds left by one clock reading, one id drawn, [n] bytes drawn. *)
Definition tick (w : World) : World :=
  {| db := db w; clock := clock w; ticks := S (ticks w); uuids := uuids w;
     uuidsDrawn := uuidsDrawn w; entropy := entropy w; bytesDrawn := bytesDrawn w |}.

Definition drawUuid (w : World) : World :=
  {| db := db w; clock := clock w; ticks := ticks w; uuids := uuids w;
     uuidsDrawn := S (uuidsDrawn w); entropy := entropy w; bytesDrawn := bytesDrawn w |}.

Definition drawBytes (n : nat) (w : World) : World :=
  {| db := db w; clock := clock w; ticks := ticks w; uuids := uuids w;
     uuidsDrawn := uuidsDrawn w; entropy := entropy w;
     bytesDrawn := (bytesDrawn w + n)%nat |}.

Definition no_dot (s : string) : bool :=
  string_forallb (fun c => negb (Ascii.eqb c "."%char)) s.

(** [token] is [id], the delimiter, and [secret], both non-empty and free of
    the delimiter. *)
Definition two_segments (token id secret : string) : Prop :=
  token = id +:+ "." +:+ secret /\ no_dot id = true /\ no_dot secret = true /\
  id <> "" /\ secret <> "".

Fixpoint join_dot (segments : list string) : string :=
  match segments with
  | [] => ""
  | [s] => s
  | s :: rest => s +:+ "." +:+ join_dot rest
  end.

(** The backup code [generateBackupCodes] makes out of five random bytes. *)
Definition backupCodeOf (bytes : list Z) : string :=
  let raw := slice 0 8 (base32Encode bytes) in
  slice 0 4 raw +:+ "-" +:+ slice 4 8 raw.

(** The codes [generateBackupCodes(n)] returns in the world [w]: the [i]-th
    is made out of the five random bytes drawn at its turn, the bytes
    [5i .. 5i + 4] after the ones drawn before the call. *)
Definition generatedCodes (w : World) (n : nat) : list string :=
  map (fun i => backupCodeOf (map (entropy w) (seq (bytesDrawn w + 5 * i) 5))) (seq 0 n).

Definition ChallengeInvalid : Exn := badRequest "AUTH_MFA_CHALLENGE_INVALID".
Definition ChallengeExpired : Exn := gone "AUTH_MFA_CHALLENGE_EXPIRED".

Section Vocabulary.
Context `{NodeModules} `{Env}.

(** The backup codes stored for one MFA setting. *)
Definition codesOf (userMfaId : string) (d : Db) : list MfaBackupCodeRecord :=
  List.filter (fun r => String.eqb (bc_userMfaId r) userMfaId) (mfaBackupCodes d).






(** The ids about to be stored are new to the table and pairwise distinct. *)
Definition freshCodeIds (ids : list string) (kept : list MfaBackupCodeRecord) : bool :=
  forallb (fun id => negb (existsb (fun r => String.eqb (bc_id r) id) kept)) ids
  && repository.distinct ids.

Definition backupCodeRow (userMfaId : string) (code : string * string) : MfaBackupCodeRecord :=
  {| bc_id := fst code; bc_userMfaId := userMfaId; bc_codeHash := snd code;
     bc_usedAt := None |}.

(** The backup codes of every other MFA setting. *)
Definition otherCodes (userMfaId : string) (d : Db) : list MfaBackupCodeRecord :=
  List.filter (fun r => negb (String.eqb (bc_userMfaId r) userMfaId)) (mfaBackupCodes d).

(** The id the user's MFA setting has once a setup challenge completes: the
    one of the existing row, or the next id the database generates. *)
Definition settingIdFor (w : World) (userId : string) : string :=
  match mfaSettings (db w) !! userId with
  | Some s => mfa_id s
  | None => uuids w (uuidsDrawn w)
  end.

(** The ids [completeSetupChallenge] draws for the eight backup codes. *)
Definition backupCodeIds (w : World) (userId : string) : list string :=
  map (uuids w)
    (seq (match mfaSettings (db w) !! userId with
          | Some _ => uuidsDrawn w
          | None => S (uuidsDrawn w)
          end) 8).


End Vocabulary.

Section VocabularyBackupCodes.
Context `{NodeModules}.




End VocabularyBackupCodes.

(** Two callers running the same two-phase operation concurrently: both
    finish the first phase before either starts the second. Every [await] of
    the service lets the other caller run. *)
Definition interleaved {A B} (phase1 : M A) (phase2 : A -> M B) (w : World)
  : Result B * Result B :=
  let '(a1, w1) := phase1 w in
  let '(a2, w2) := phase1 w1 in
  match a1, a2 with
  | Ok x1, Ok x2 =>
      let '(b1, w3) := phase2 x1 w2 in
      let '(b2, _) := phase2 x2 w3 in
      (b1, b2)
  | Throw e, Ok x2 => (Throw e, fst (phase2 x2 w2))
  | Ok x1, Throw e => (fst (phase2 x1 w2), Throw e)
  | Throw e1, Throw e2 => (Throw e1, Throw e2)
  end.

(** ** totp.ts, the secret and its URL *)

(** [createTotpSecret(options)]; [size] is [options.size]. *)
Definition createTotpSecret (size : option Z) : M (string * list Z) :=
  let size := Z.max 10 (nullish size 20) in
  buffer <- randomBytes (Z.to_nat size) ;;
  let secret := base32Encode buffer in
  ret (secret, buffer).

(** The characters [encodeURIComponent] leaves as they are. *)
Definition is_uri_unreserved (c : ascii) : bool :=
  is_upper c || is_lower c || is_digit c
  || existsb (Ascii.eqb c) (string_to_list "-_.!~*'()").

Definition hex_digit (n : Z) : string :=
  match String.get (Z.to_nat n) "0123456789ABCDEF" with
  | Some c => String c ""
  | None => ""
  end.

(** [encodeURIComponent(s)] on the UTF-8 bytes of a well-formed string:
    every byte that is not unreserved becomes a percent escape. *)
Fixpoint encodeURIComponent (s : string) : string :=
  match s with
  | EmptyString => ""
  | String c r =>
      (if is_uri_unreserved c then String c ""
       else "%" +:+ hex_digit (ord c / 16) +:+ hex_digit (ord c mod 16))
      +:+ encodeURIComponent r
  end.

Definition buildOtpauthUrl (secret email issuer : string) : string :=
  let encodedLabel := encodeURIComponent (issuer +:+ ":" +:+ email) in
  let encodedIssuer := encodeURIComponent issuer in
  "otpauth://totp/" +:+ encodedLabel +:+ "?secret=" +:+ secret
  +:+ "&issuer=" +:+ encodedIssuer.

(** ** encryption.ts, the sealing side *)

(** The cipher of [node:crypto] and [Buffer]'s base64 printer. The cipher
    maps key, nonce and plaintext to ciphertext and authentication tag. *)
Class NodeCipher := {
  aes_256_gcm_cipher : list Z -> list Z -> list Z -> list Z * list Z;
  base64_encode : list Z -> string;
}.

(** The UTF-8 bytes of a string. *)
Definition utf8_bytes (s : string) : list Z := map ord (string_to_list s).

Section Sealing.
Context `{NodeModules} `{NodeCipher}.

Definition encryptSecret (plainText keyBase64 : string) : M string :=
  key <- lift (decodeKey keyBase64) ;;
  iv <- randomBytes IV_LENGTH ;;
  let '(encrypted, authTag) := aes_256_gcm_cipher key iv (utf8_bytes plainText) in
  ret (base64_encode (iv ++ authTag ++ encrypted)).

End Sealing.

(** ** prisma-auth-repository.ts, password reset tokens *)

(** [passwordResetToken.create]: the token is unique, the id is generated. *)
Definition createPasswordResetToken (userId token : string) (expiresAt : Z)
  : M PasswordResetTokenRecord :=
  id <- randomUUID ;;
  d <- getDb ;;
  if PrismaAuthRepository.is_some (passwordResetTokens d !! token)
     || existsb (fun kv => String.eqb (prt_id (snd kv)) id)
          (map_to_list (passwordResetTokens d))
  then throw PrismaAuthRepository.P2002
  else
    let record :=
      {| prt_id := id; prt_userId := userId; prt_token := token;
         prt_expiresAt := expiresAt; prt_consumedAt := None |} in
    modifyDb (with_passwordResetTokens (insert token record)) ;;
    ret record.

(** ** auth-service.ts, password reset requests and MFA enrolment *)

(** The members of [../env] these methods read besides the ones above. *)
Class EnvRest := {
  PASSWORD_RESET_TOKEN_TTL_MINUTES : Z;
  MFA_TOTP_ISSUER : string;
}.

(** [./email-service]: the mailer is a dependency handed to the service;
    sending runs in the same world and can fail. *)
Class EmailService := {
  sendPasswordResetEmail : AuthUser -> string -> Z -> M unit;
}.

Record StartMfaEnrollmentResult := {
  sme_challengeId : string;
  sme_secret : string;
  sme_otpauthUrl : string;
  sme_qrCodeSvg : string;
  sme_expiresAt : Z;
}.

Definition normalizeOptionalString (value : option string) : option string :=
  if negb (truthy value) then None
  else
    let trimmed := trim (nullish value "") in
    if (0 <? String.length trimmed)%nat then Some trimmed else None.

(** [s.replace(/c/g, by)] for a one-character pattern. *)
Fixpoint replaceAll (c : ascii) (by_ : string) (s : string) : string :=
  match s with
  | EmptyString => ""
  | String d r => (if Ascii.eqb d c then by_ else String d "") +:+ replaceAll c by_ r
  end.

(** The double quote, which the markup below is full of. *)
Definition quote : string := String (ascii_of_nat 34) "".

Definition attribute (name value : string) : string :=
  " " +:+ name +:+ "=" +:+ quote +:+ value +:+ quote.

Definition generateQrCodeSvg (data : string) : string :=
  let escaped := replaceAll ">" "&gt;" (replaceAll "<" "&lt;" (replaceAll "&" "&amp;" data)) in
  "<?xml" +:+ attribute "version" "1.0" +:+ attribute "encoding" "UTF-8" +:+ "?>"
  +:+ "<svg" +:+ attribute "xmlns" "http://www.w3.org/2000/svg"
  +:+ attribute "width" "220" +:+ attribute "height" "60" +:+ attribute "role" "img"
  +:+ attribute "aria-label" "Scan MFA setup URL" +:+ ">"
  +:+ "<rect" +:+ attribute "width" "220" +:+ attribute "height" "60"
  +:+ attribute "fill" "#f5f5f5" +:+ attribute "rx" "8" +:+ "/>"
  +:+ "<text" +:+ attribute "x" "50%" +:+ attribute "y" "50%"
  +:+ attribute "dominant-baseline" "middle" +:+ attribute "text-anchor" "middle"
  +:+ attribute "font-family" "monospace" +:+ attribute "font-size" "10" +:+ ">"
  +:+ "Scan manually: " +:+ escaped +:+ "</text></svg>".

Section ServiceRest.
Context `{NodeModules} `{Env} `{NodeCipher} `{EnvRest} `{EmailService}.

Definition getUserById (id : string) : M (option AuthUser) :=
  PrismaAuthRepository.findUserById id.

Definition generatePasswordResetToken : M (string * Z) :=
  bytes <- randomBytes 40 ;;
  let token := base64url bytes in
  dateNow <- newDate ;;
  let expiresAt := dateNow + PASSWORD_RESET_TOKEN_TTL_MINUTES * 60 * 1000 in
  ret (token, expiresAt).

(** The result is the [requested] member. *)
Definition requestPasswordReset (email : string) (context : RequestContext) : M bool :=
  let email := normalizeEmail email in
  record <- PrismaAuthRepository.findUserByEmail email ;;
  match record with
  | None => ret false
  | Some (user, _) =>
      token <- generatePasswordResetToken ;;
      createPasswordResetToken (user_id user) (fst token) (snd token) ;;
      sendPasswordResetEmail user (fst token) (snd token) ;;
      PrismaAuthRepository.createAuditEvent
        (event "auth.password.reset-request" (user_id user) context []) ;;
      ret true
  end.

Definition startMfaEnrollment (user : AuthUser) (deviceName : option string)
  (context : RequestContext) : M StartMfaEnrollmentResult :=
  existing <- getActiveMfaConfiguration (user_id user) ;;
  match existing with
  | Some _ => throw (conflict "AUTH_MFA_ALREADY_ENABLED")
  | None =>
      secret <- createTotpSecret None ;;
      encryptedSecret <- encryptSecret (fst secret) MFA_ENCRYPTION_KEY ;;
      dateNow <- newDate ;;
      let expiresAt := dateNow + MFA_CHALLENGE_TTL_SECONDS * 1000 in
      challenge <- PrismaAuthRepository.createMfaChallenge
        {| PrismaAuthRepository.cmc_userId := user_id user;
           PrismaAuthRepository.cmc_userMfaId := None;
           PrismaAuthRepository.cmc_type := Setup;
           PrismaAuthRepository.cmc_secretEncrypted := Some encryptedSecret;
           PrismaAuthRepository.cmc_deviceName := normalizeOptionalString deviceName;
           PrismaAuthRepository.cmc_context := None;
           PrismaAuthRepository.cmc_expiresAt := expiresAt |} ;;
      let otpauthUrl := buildOtpauthUrl (fst secret) (user_email user) MFA_TOTP_ISSUER in
      PrismaAuthRepository.createAuditEvent
        (event "auth.mfa.setup.started" (user_id user) context
           [("challengeId", MString (ch_id challenge))]) ;;
      ret {| sme_challengeId := ch_id challenge; sme_secret := fst secret;
             sme_otpauthUrl := otpauthUrl; sme_qrCodeSvg := generateQrCodeSvg otpauthUrl;
             sme_expiresAt := ch_expiresAt challenge |}
  end.

End ServiceRest.

(** ** Vocabulary of the statements about remembered devices *)

Section VocabularyDevices.
Context `{NodeModules}.

(** [device] has not expired at [now] and its hash accepts [token]; a hash
    the library rejects accepts nothing. *)
Definition deviceAccepts (token : string) (now : Z) (device : MfaRememberedDeviceRecord)
  : bool :=
  negb (rd_expiresAt device <? now)
  && match argon2_verify (rd_tokenHash device) token with
     | Ok true => true
     | _ => false
     end.

(** The remembered devices of one MFA setting, in storage order. *)
Definition devicesOf (userMfaId : string) (d : Db) : list MfaRememberedDeviceRecord :=
  List.filter (fun r => String.eqb (rd_userMfaId r) userMfaId) (mfaRememberedDevices d).

(** The device a presented token is matched to: none for an absent or empty
    token, otherwise the first stored device of the setting that accepts it. *)
Definition matchedDevice (setting : MfaConfiguration) (token : option string) (now : Z)
  (d : Db) : option MfaRememberedDeviceRecord :=
  if truthy token
  then List.find (deviceAccepts (nullish token "") now) (devicesOf (mfa_id setting) d)
  else None.

(** The device table after the rows with id [id] were marked as used. *)
Definition markDeviceUsed (id : string) (now : Z) (ctx : RequestContext)
  (l : list MfaRememberedDeviceRecord) : list MfaRememberedDeviceRecord :=
  map (fun r =>
         if String.eqb (rd_id r) id
         then {| rd_id := rd_id r; rd_userMfaId := rd_userMfaId r;
                 rd_tokenHash := rd_tokenHash r; rd_expiresAt := rd_expiresAt r;
                 rd_lastUsedAt := Some now; rd_ipAddress := ipAddress ctx;
                 rd_userAgent := userAgent ctx |}
         else r) l.

(** The device table without the devices of [userMfaId] that expired before [now]. *)
Definition withoutExpired (userMfaId : string) (now : Z)
  (l : list MfaRememberedDeviceRecord) : list MfaRememberedDeviceRecord :=
  List.filter (fun r => negb (String.eqb (rd_userMfaId r) userMfaId && (rd_expiresAt r <? now))) l.

End VocabularyDevices.
(** ** Vocabulary of the statements about the service as a whole *)

(** One call of a public method of [AuthService]. *)
Inductive Request :=
| CallLogin (input : LoginInput)
| CallRefreshSession (refreshToken : string)
| CallRequestPasswordReset (email : string)
| CallResetPassword (token newPassword : string)
| CallStartMfaEnrollment (user : AuthUser) (deviceName : option string)
| CallVerifyMfaChallenge (input : VerifyMfaChallengeInput).

Definition is_ResetPassword (request : Request) : bool :=
  match request with
  | CallResetPassword _ _ => true
  | _ => false
  end.

Section Serving.
Context `{NodeModules} `{Env} `{NodeCipher} `{EnvRest} `{EmailService}.

(** The world the service leaves behind once it has answered [request],
    whether with a result or with an error. *)
Definition serve (request : Request) (context : RequestContext) (w : World) : World :=
  match request with
  | CallLogin input => snd (login input context w)
  | CallRefreshSession refreshToken => snd (refreshSession refreshToken context w)
  | CallRequestPasswordReset email => snd (requestPasswordReset email context w)
  | CallResetPassword token newPassword => snd (resetPassword token newPassword context w)
  | CallStartMfaEnrollment user deviceName => snd (startMfaEnrollment user deviceName context w)
  | CallVerifyMfaChallenge input => snd (verifyMfaChallenge input context w)
  end.

Fixpoint serve_all (requests : list (Request * RequestContext)) (w : World) : World :=
  match requests with
  | [] => w
  | (request, context) :: rest => serve_all rest (serve request context w)
  end.

(** The mailer keeps its records elsewhere: it does not write to the
    service's database. *)
Definition mailer_keeps_out : Prop :=
  forall user resetToken expiresAt w,
    db (snd (sendPasswordResetEmail user resetToken expiresAt w)) = db w.

End Serving.

(** [m] never takes the database out of the relation [R]. *)
Definition keeps (R : Db -> Db -> Prop) {A} (m : M A) : Prop :=
  forall w, R (db w) (db (snd (m w))).

(** What a stored user is, as opposed to when they were last seen. *)
Definition identity (u : AuthUser)
  : string * string * UserStatus * PlanTier * list string * option Z :=
  (user_id u, user_email u, user_status u, user_planTier u, user_roles u,
   user_emailVerifiedAt u).

(** The facts about stored rows that no method of the service undoes: the
    audit log only grows; users are neither added nor removed nor changed in
    what they are; refresh tokens, reset tokens and MFA settings stay, keep
    their owner, hash, expiry and id, and stay revoked, consumed and active
    once they are. *)
Record grows (d d' : Db) : Prop := {
  grows_audit : exists added, auditEvents d' = auditEvents d ++ added;
  grows_users : forall id, identity <$> users d' !! id = identity <$> users d !! id;
  grows_refreshTokens :
    forall id r, refreshTokens d !! id = Some r ->
      exists r', refreshTokens d' !! id = Some r' /\
        rt_userId r' = rt_userId r /\ rt_tokenHash r' = rt_tokenHash r /\
        rt_expiresAt r' = rt_expiresAt r /\
        (is_Some (rt_revokedAt r) -> is_Some (rt_revokedAt r'));
  grows_passwordResetTokens :
    forall token r, passwordResetTokens d !! token = Some r ->
      exists r', passwordResetTokens d' !! token = Some r' /\
        prt_userId r' = prt_userId r /\ prt_expiresAt r' = prt_expiresAt r /\
        (is_Some (prt_consumedAt r) -> is_Some (prt_consumedAt r'));
  grows_mfaSettings :
    forall userId s, mfaSettings d !! userId = Some s ->
      exists s', mfaSettings d' !! userId = Some s' /\ mfa_id s' = mfa_id s /\
        (is_Some (mfa_activatedAt s) -> is_Some (mfa_activatedAt s'));
}.

(** The stored password hashes are the same. *)
Definition same_passwords (d d' : Db) : Prop :=
  passwordCredentials d' = passwordCredentials d.
(** ** Test doubles for the sealing side, the mailer and the rest of the
    environment *)
Module FixturesRest.

Definition base64_char (n : Z) : string :=
  match String.get (Z.to_nat n) Fixtures.BASE64_ALPHABET with
  | Some c => String c ""
  | None => ""
  end.

(** [Buffer.toString('base64')] *)
Fixpoint base64_print (bytes : list Z) : string :=
  match bytes with
  | [] => ""
  | [a] =>
      base64_char (a / 4) +:+ base64_char (a mod 4 * 16) +:+ "=="
  | [a; b] =>
      base64_char (a / 4) +:+ base64_char (a mod 4 * 16 + b / 16)
      +:+ base64_char (b mod 16 * 4) +:+ "="
  | a :: b :: c :: rest =>
      base64_char (a / 4) +:+ base64_char (a mod 4 * 16 + b / 16)
      +:+ base64_char (b mod 16 * 4 + c / 64) +:+ base64_char (c mod 64)
      +:+ base64_print rest
  end.

(** A cipher that leaves the plaintext as it is under a fixed tag; the
    decipher of [Fixtures.modules] is its inverse. *)
Definition cipher : NodeCipher :=
  {| aes_256_gcm_cipher := fun key iv plaintext =>
       (plaintext, map ord (string_to_list "tagtagtagtagtagt"));
     base64_encode := base64_print |}.

Definition envRest : EnvRest :=
  {| PASSWORD_RESET_TOKEN_TTL_MINUTES := 60;
     MFA_TOTP_ISSUER := "FinanceManager-Test" |}.

(** A mailer that delivers and keeps no state in the service's world. *)
Definition mailer : EmailService :=
  {| sendPasswordResetEmail := fun user resetToken expiresAt => ret tt |}.

(** A device Casey asked to be remembered on, good for a day; its token is
    "device-token". *)
Definition rememberedDevice1 : MfaRememberedDeviceRecord :=
  {| rd_id := "rd-1"; rd_userMfaId := "mfa-1";
     rd_tokenHash := Fixtures.phc +:+ "device-token";
     rd_expiresAt := Fixtures.t0 + 86400000; rd_lastUsedAt := None;
     rd_ipAddress := None; rd_userAgent := None |}.

Definition db_remembered : Db :=
  with_mfaRememberedDevices (fun _ => [rememberedDevice1]) Fixtures.db_mfa.

Definition rememberedInput : LoginInput :=
  {| in_email := "casey@example.com"; in_password := "Sup3rSecurePass!";
     in_rememberMe := None; in_challengeId := None; in_mfaCode := None;
     in_rememberDevice := None; in_rememberedDeviceToken := Some "device-token" |}.

(** Casey's login challenge, a millisecond too late. *)
Definition expiredChallenge : MfaChallengeRecord :=
  {| ch_id := "ch-1"; ch_userId := "user-1"; ch_userMfaId := Some "mfa-1";
     ch_type := Login; ch_secretEncrypted := None; ch_deviceName := None;
     ch_context := Some false; ch_expiresAt := Fixtures.t0 - 1; ch_consumedAt := None;
     ch_attempts := 0 |}.

Definition db_expired_challenge : Db :=
  with_mfaChallenges (insert "ch-1" expiredChallenge) Fixtures.db_mfa.

(** A login challenge of a user who has no MFA configuration. *)
Definition db_orphan_challenge : Db :=
  with_mfaChallenges (insert "ch-1" Fixtures.loginChallenge) Fixtures.db_session.

(** A challenge of the type the service never creates. *)
Definition recoveryChallenge : MfaChallengeRecord :=
  {| ch_id := "ch-2"; ch_userId := "user-1"; ch_userMfaId := Some "mfa-1";
     ch_type := Recovery; ch_secretEncrypted := None; ch_deviceName := None;
     ch_context := None; ch_expiresAt := Fixtures.t0 + 600000; ch_consumedAt := None;
     ch_attempts := 0 |}.

Definition db_recovery_challenge : Db :=
  with_mfaChallenges (insert "ch-2" recoveryChallenge) Fixtures.db_mfa.

(** The reset token "reset-1" after it has been used. *)
Definition usedResetToken : PasswordResetTokenRecord :=
  {| prt_id := "prt-1"; prt_userId := "user-1"; prt_token := "reset-1";
     prt_expiresAt := Fixtures.t0 + 3600000; prt_consumedAt := Some (Fixtures.t0 - 1000) |}.

Definition db_reset_used : Db :=
  with_passwordResetTokens (insert "reset-1" usedResetToken) Fixtures.db_session.

Definition wrongPasswordInput : LoginInput :=
  {| in_email := "casey@example.com"; in_password := "guess";
     in_rememberMe := None; in_challengeId := None; in_mfaCode := None;
     in_rememberDevice := None; in_rememberedDeviceToken := None |}.

(** Casey's address as typed in a hurry. *)
Definition shoutedInput : LoginInput :=
  {| in_email := " CASEY@Example.COM"; in_password := "Sup3rSecurePass!";
     in_rememberMe := None; in_challengeId := None; in_mfaCode := None;
     in_rememberDevice := None; in_rememberedDeviceToken := None |}.

(** A day of traffic: a failed login, a good login, a refresh, a reset
    request, an enrolment and an answer to a challenge that does not exist. *)
Definition traffic : list (Request * RequestContext) :=
  [(CallLogin wrongPasswordInput, Fixtures.ctx);
   (CallLogin Fixtures.loginInput, Fixtures.ctx);
   (CallRefreshSession "rt-1.s3cret", Fixtures.ctx);
   (CallRequestPasswordReset "Casey@Example.com ", Fixtures.ctx);
   (CallStartMfaEnrollment Fixtures.casey (Some "Tablet"), Fixtures.ctx);
   (CallVerifyMfaChallenge
      {| vin_challengeId := "ch-9"; vin_code := "000000"; vin_rememberDevice := None |},
    Fixtures.ctx)].

End FixturesRest.


(** * Properties *)

(** ** Stepping through monadic code *)

Lemma bind_ret {A B} (a : A) (k : A -> M B) w : bind (ret a) k w = k a w.
Proof. reflexivity. Qed.

Lemma bind_throw {A B} (e : Exn) (k : A -> M B) w : bind (throw e) k w = (Throw e, w).
Proof. reflexivity. Qed.

Lemma bind_bind {A B C} (m : M A) (f : A -> M B) (g : B -> M C) w :
  bind (bind m f) g w = bind m (fun a => bind (f a) g) w.
Proof. unfold bind. destruct (m w) as [[a|e] w']; reflexivity. Qed.

Lemma bind_getDb {B} (k : Db -> M B) w : bind getDb k w = k (db w) w.
Proof. reflexivity. Qed.

Lemma bind_modifyDb {B} f (k : unit -> M B) w :
  bind (modifyDb f) k w = k tt (set_db (f (db w)) w).
Proof. reflexivity. Qed.

Lemma bind_lift_Ok {A B} (a : A) (k : A -> M B) w : bind (lift (Ok a)) k w = k a w.
Proof. reflexivity. Qed.

Lemma bind_lift_Throw {A B} e (k : A -> M B) w :
  bind (lift (Throw e)) k w = (Throw e, w).
Proof. reflexivity. Qed.

Lemma bind_run {A B} (m : M A) (k : A -> M B) w a w' :
  m w = (Ok a, w') -> bind m k w = k a w'.
Proof. unfold bind. intros ->. reflexivity. Qed.


Lemma bind_newDate {B} (k : Z -> M B) w :
  bind newDate k w = k (clock w (ticks w)) (tick w).
Proof. reflexivity. Qed.

Lemma bind_randomUUID {B} (k : string -> M B) w :
  bind randomUUID k w = k (uuids w (uuidsDrawn w)) (drawUuid w).
Proof. reflexivity. Qed.

Lemma bind_randomBytes {B} n (k : list Z -> M B) w :
  bind (randomBytes n) k w = k (map (entropy w) (seq (bytesDrawn w) n)) (drawBytes n w).
Proof. reflexivity. Qed.

Ltac step :=
  first
    [ rewrite bind_bind
    | rewrite bind_ret
    | rewrite bind_throw
    | rewrite bind_getDb
    | rewrite bind_modifyDb
    | rewrite bind_newDate
    | rewrite bind_randomUUID
    | rewrite bind_randomBytes
    | rewrite bind_lift_Ok
    | rewrite bind_lift_Throw ].

Ltac steps := repeat step.

Ltac world_simpl :=
  cbn [fst snd nullish Boolean
       repository.srt_id repository.srt_userId repository.srt_tokenHash
       repository.srt_issuedAt repository.srt_expiresAt repository.srt_ipAddress
       repository.srt_userAgent
       repository.ums_userId repository.ums_secretEncrypted repository.ums_deviceName
       repository.ums_activatedAt
       repository.cmc_userId repository.cmc_userMfaId repository.cmc_type
       repository.cmc_secretEncrypted repository.cmc_deviceName repository.cmc_context
       repository.cmc_expiresAt
       repository.crd_userMfaId repository.crd_tokenHash repository.crd_expiresAt
       repository.crd_ipAddress repository.crd_userAgent
       rt_id rt_userId rt_tokenHash rt_issuedAt rt_expiresAt rt_revokedAt
       rt_replacedByTokenId rt_ipAddress rt_userAgent
       prt_id prt_userId prt_token prt_expiresAt prt_consumedAt
       mfa_id mfa_secretEncrypted mfa_deviceName mfa_activatedAt
       ch_id ch_userId ch_userMfaId ch_type ch_secretEncrypted ch_deviceName ch_context
       ch_expiresAt ch_consumedAt ch_attempts
       bc_id bc_userMfaId bc_codeHash bc_usedAt
       rd_id rd_userMfaId rd_tokenHash rd_expiresAt rd_lastUsedAt rd_ipAddress rd_userAgent
       repository.revoked repository.with_attempts repository.with_consumedAt
       repository.is_some repository.is_none negb andb orb
       acc_challenge acc_setting acc_now acc_usingBackupCode
       accessToken accessTokenExpiresAt refreshToken refreshTokenExpiresAt
       vl_user vl_tokens vl_rememberDevice rr_user rr_tokens
       db clock ticks uuids uuidsDrawn entropy bytesDrawn set_db tick drawUuid drawBytes
       users passwordCredentials refreshTokens passwordResetTokens mfaSettings
       mfaChallenges mfaBackupCodes mfaRememberedDevices auditEvents
       with_users with_passwordCredentials with_refreshTokens with_passwordResetTokens
       with_mfaSettings with_mfaChallenges with_mfaBackupCodes with_mfaRememberedDevices
       with_auditEvents] in *.

(** ** Test vectors *)

Example sha1_abc :
  Sha1.digest [97; 98; 99] =
  [169; 153; 62; 54; 71; 6; 129; 106; 186; 62; 37; 113; 120; 80; 194; 108; 156; 208; 216; 157].
Proof. vm_compute. reflexivity. Qed.

(** RFC 2202, test case 2. *)
Example hmac_sha1_jefe :
  Sha1.hmac (map ord (string_to_list "Jefe"))
    (map ord (string_to_list "what do ya want for nothing?")) =
  [239; 252; 223; 106; 229; 235; 47; 162; 210; 116; 22; 213; 241; 132; 223; 156; 37; 154;
   124; 121].
Proof. vm_compute. reflexivity. Qed.

(** RFC 6238, appendix B, at 59 seconds. *)
Example rfc6238_at_59 :
  generateOtp (map ord (string_to_list "12345678901234567890")) 1 8 = Ok "94287082".
Proof. vm_compute. reflexivity. Qed.

Example base32_roundtrip :
  base32Decode (base32Encode [72; 101; 108; 108; 111; 33; 222; 173; 190; 239])
  = Ok [72; 101; 108; 108; 111; 33; 222; 173; 190; 239] /\
  base32Encode [72; 101; 108; 108; 111; 33; 222; 173; 190; 239] = "JBSWY3DPEHPK3PXP".
Proof. vm_compute. split; reflexivity. Qed.

Example totp_hello :
  generateTotp "JBSWY3DPEHPK3PXP" (atTime 1854938490000) 0 = Ok "945099".
Proof. vm_compute. reflexivity. Qed.

(** ** The scenarios of the service's test suite, at the fixtures *)

Section Scenarios.
Local Existing Instance Fixtures.modules.
Local Existing Instance Fixtures.env.

(** 'refreshes a session and revokes the previous refresh token' *)
Example scenario_refresh :
  let '(r, w) := refreshSession "rt-1.s3cret" Fixtures.ctx
                   (Fixtures.world Fixtures.db_session) in
  (exists tokens, r = Ok {| rr_user := Fixtures.casey; rr_tokens := tokens |}) /\
  (rt_revokedAt <$> refreshTokens (db w) !! "rt-1") = Some (Some (Fixtures.t0 + 1)) /\
  (rt_replacedByTokenId <$> refreshTokens (db w) !! "rt-1") = Some (Some "uuid-0") /\
  (rt_revokedAt <$> refreshTokens (db w) !! "uuid-0") = Some None.
Proof. vm_compute. split; [eexists; reflexivity | repeat split]. Qed.

(** 'enables TOTP MFA and returns backup codes' *)
Example scenario_enrolment :
  let '(r, w) :=
    verifyMfaChallenge
      {| vin_challengeId := "ch-0"; vin_code := "945099"; vin_rememberDevice := None |}
      Fixtures.ctx (Fixtures.world Fixtures.db_enrolling) in
  r = Ok (setup_result
            ["AAAQ-EAYE"; "AUDA-OCAJ"; "BIFQ-YDIO"; "B4IB-CEQT"; "CQKR-MFYY";
             "DENB-WHA5"; "DYPS-AIJC"; "EMSC-KJRH"] (Fixtures.t0 + 2)) /\
  (mfa_activatedAt <$> mfaSettings (db w) !! "user-1") = Some (Some (Fixtures.t0 + 2)).
Proof. vm_compute. split; reflexivity. Qed.

(** 'requires MFA at login once enabled and supports remember device' *)
Example scenario_remembered_device :
  (exists id expires,
     fst (login Fixtures.loginInput Fixtures.ctx (Fixtures.world Fixtures.db_mfa))
     = Ok (mfa_challenge id ["totp"; "backup_code"] expires)) /\
  let '(r, w) :=
    verifyMfaChallenge
      {| vin_challengeId := "ch-1"; vin_code := "945099"; vin_rememberDevice := Some true |}
      Fixtures.ctx (Fixtures.world Fixtures.db_challenged) in
  match r with
  | Ok (login_result {| vl_rememberDevice := Some device |}) =>
      exists user tokens,
        fst (login {| in_email := "casey@example.com"; in_password := "Sup3rSecurePass!";
                      in_rememberMe := None; in_challengeId := None; in_mfaCode := None;
                      in_rememberDevice := None;
                      in_rememberedDeviceToken := Some (value device) |}
               Fixtures.ctx w)
        = Ok (authenticated user tokens false None)
  | _ => False
  end.
Proof. vm_compute. split; repeat eexists. Qed.

(** 'allows logging in with a backup code' *)
Example scenario_backup_code :
  exists result,
    fst (verifyMfaChallenge
           {| vin_challengeId := "ch-1"; vin_code := "ABCD-2345"; vin_rememberDevice := None |}
           Fixtures.ctx (Fixtures.world Fixtures.db_challenged))
    = Ok (login_result result).
Proof. vm_compute. eexists. reflexivity. Qed.

End Scenarios.

(** ** The TOTP codec *)

Lemma string_forallb_app p a b :
  string_forallb p (a +:+ b) = string_forallb p a && string_forallb p b.
Proof.
  induction a as [|c a IH]; simpl; [reflexivity|].
  rewrite IH. apply andb_assoc.
Qed.

Lemma string_length_app a b :
  String.length (a +:+ b) = (String.length a + String.length b)%nat.
Proof. induction a as [|c a IH]; simpl; [reflexivity|]. now rewrite IH. Qed.

Lemma string_repeat_length c n : String.length (string_repeat c n) = n.
Proof. induction n; simpl; congruence. Qed.

Lemma string_repeat_forallb p c n :
  p c = true -> string_forallb p (string_repeat c n) = true.
Proof. intros Hc. induction n; simpl; [reflexivity|]. now rewrite Hc. Qed.

Lemma digit_char_is_digit d : 0 <= d < 10 -> is_digit (chr (48 + d)) = true.
Proof.
  intros Hd.
  assert (d = 0 \/ d = 1 \/ d = 2 \/ d = 3 \/ d = 4 \/ d = 5 \/ d = 6 \/ d = 7 \/
          d = 8 \/ d = 9) as Hc by lia.
  repeat (destruct Hc as [-> | Hc]; [reflexivity|]). now subst.
Qed.

Lemma digits_of_forallb fuel n acc :
  0 <= n -> string_forallb is_digit acc = true ->
  string_forallb is_digit (digits_of fuel n acc) = true.
Proof.
  revert n acc. induction fuel as [|f IH]; intros n acc Hn Hacc; simpl; [assumption|].
  assert (string_forallb is_digit (String (chr (48 + n mod 10)) acc) = true) as Hacc'.
  { simpl. rewrite Hacc, digit_char_is_digit; [reflexivity|].
    apply Z.mod_pos_bound. lia. }
  destruct (n / 10 =? 0); [assumption|].
  apply IH; [apply Z.div_pos; lia | assumption].
Qed.

Lemma digits_of_length fuel n acc (k : nat) :
  0 <= n < 10 ^ Z.of_nat k -> (1 <= k)%nat ->
  (String.length (digits_of fuel n acc) <= String.length acc + k)%nat.
Proof.
  revert n acc k. induction fuel as [|f IH]; intros n acc k Hn Hk; simpl; [lia|].
  destruct (Z.eqb_spec (n / 10) 0) as [Hz|Hnz]; simpl; [lia|].
  destruct k as [|[|k]]; [lia| |].
  - exfalso. apply Hnz. apply Z.div_small. simpl in Hn. lia.
  - specialize (IH (n / 10) (String (chr (48 + n mod 10)) acc) (S k)).
    simpl String.length in IH.
    assert (0 <= n / 10 < 10 ^ Z.of_nat (S k)) as Hq.
    { split; [apply Z.div_pos; lia|].
      apply Z.div_lt_upper_bound; [lia|].
      replace (Z.of_nat (S (S k))) with (Z.succ (Z.of_nat (S k))) in Hn by lia.
      rewrite Z.pow_succ_r in Hn by lia. lia. }
    specialize (IH Hq ltac:(lia)). lia.
Qed.

Lemma padStart_six_digits n :
  0 <= n < 10 ^ 6 -> is_six_digits (padStart 6 "0"%char (toString n)) = true.
Proof.
  intros Hn. unfold is_six_digits, padStart, toString.
  set (s := digits_of _ n "").
  assert (String.length s <= 6)%nat as Hlen.
  { subst s. pose proof (digits_of_length (S (Z.to_nat (Z.log2 n))) n "" 6) as Hl.
    simpl String.length in Hl. apply Hl; [|lia]. exact Hn. }
  assert (string_forallb is_digit s = true) as Hdig.
  { subst s. apply digits_of_forallb; [lia | reflexivity]. }
  rewrite string_length_app, string_repeat_length, string_forallb_app, Hdig.
  rewrite string_repeat_forallb by reflexivity.
  replace (6 - String.length s + String.length s)%nat with 6%nat by lia.
  reflexivity.
Qed.

(** A generated code is six decimal digits whenever the counter fits the
    64-bit buffer. *)
Lemma generateOtp_six_digits secret counter :
  0 <= counter < 2 ^ 64 ->
  exists code, generateOtp secret counter 6 = Ok code /\ is_six_digits code = true.
Proof.
  intros Hc. unfold generateOtp, writeBigUInt64BE.
  replace ((0 <=? counter) && (counter <? 2 ^ 64)) with true
    by (symmetry; apply andb_true_intro; split; [apply Z.leb_le | apply Z.ltb_lt]; lia).
  eexists. split; [reflexivity|].
  apply padStart_six_digits. apply Z.mod_pos_bound. reflexivity.
Qed.

Lemma generateOtp_out_of_range secret counter digits :
  counter < 0 -> generateOtp secret counter digits = Throw RangeError.
Proof.
  intros Hc. unfold generateOtp, writeBigUInt64BE.
  replace (0 <=? counter) with false by (symmetry; apply Z.leb_gt; lia).
  reflexivity.
Qed.

Lemma base32_char_in_alphabet c : is_base32_char c = true -> alphabet_indexOf c <> -1.
Proof.
  destruct c as [[] [] [] [] [] [] [] []]; vm_compute; congruence.
Qed.

Lemma string_filter_forall p s c :
  In c (string_to_list (string_filter p s)) -> p c = true.
Proof.
  induction s as [|d s IH]; simpl; [tauto|].
  destruct (p d) eqn:Hd; simpl; [|assumption].
  intros [<- | Hin]; [assumption | auto].
Qed.

Lemma base32Decode_loop_total clean bits value bytes :
  (forall c, In c clean -> alphabet_indexOf c <> -1) ->
  exists out, base32Decode_loop clean bits value bytes = Ok out.
Proof.
  revert bits value bytes.
  induction clean as [|c clean IH]; intros bits value bytes Hall; simpl.
  - eexists; reflexivity.
  - destruct (Z.eqb_spec (alphabet_indexOf c) (-1)) as [Heq|_].
    + exfalso. apply (Hall c); [now left | assumption].
    + destruct (8 <=? bits + 5); apply IH; intros d Hd; apply Hall; now right.
Qed.

(** [base32Decode] never reaches its [throw]: the regular expression has
    already removed every character outside the alphabet. *)
Lemma base32Decode_total secret : exists bytes, base32Decode secret = Ok bytes.
Proof.
  unfold base32Decode. apply base32Decode_loop_total.
  intros c Hc. apply base32_char_in_alphabet.
  exact (string_filter_forall _ _ _ Hc).
Qed.

Lemma window_offsets_default : window_offsets 1 = [-1; 0; 1].
Proof. reflexivity. Qed.

Lemma totp_scan_three secretBuffer counter token a b c :
  generateOtp secretBuffer (counter + -1) 6 = Ok a ->
  generateOtp secretBuffer (counter + 0) 6 = Ok b ->
  generateOtp secretBuffer (counter + 1) 6 = Ok c ->
  totp_scan secretBuffer counter 6 token [-1; 0; 1]
  = Ok (String.eqb a token || String.eqb b token || String.eqb c token).
Proof.
  intros Ha Hb Hc. simpl. rewrite Ha, Hb, Hc.
  destruct (String.eqb a token), (String.eqb b token), (String.eqb c token); reflexivity.
Qed.

(** C8, as amended. With a time stamp of at least one step (30 s) and a
    counter inside the 64-bit range: generation depends on the secret and the
    counter only; verification returns, never throws, and accepts exactly the
    six-digit codes equal to the code of a counter within one step of the
    current one; input that is not six decimal digits is rejected; a code
    generated two or more steps away verifies exactly when it coincides with
    one of the three codes of the window. *)
Theorem totp_window secret token ts dateNow :
  30000 <= ts -> ts / 30000 + 1 < 2 ^ 64 ->
  exists secretBuffer,
    base32Decode secret = Ok secretBuffer /\
    (forall ts' dateNow', ts' / 30000 = ts / 30000 ->
       generateTotp secret (atTime ts') dateNow' = generateTotp secret (atTime ts) dateNow) /\
    generateTotp secret (atTime ts) dateNow = generateOtp secretBuffer (ts / 30000) 6 /\
    (exists accepted, isValidTotpToken secret token (atTime ts) dateNow = Ok accepted) /\
    (isValidTotpToken secret token (atTime ts) dateNow = Ok true <->
       is_six_digits token = true /\
       exists c, ts / 30000 - 1 <= c <= ts / 30000 + 1 /\
                 generateOtp secretBuffer c 6 = Ok token) /\
    (is_six_digits token = false ->
       isValidTotpToken secret token (atTime ts) dateNow = Ok false) /\
    (forall far, 2 <= Z.abs (far - ts / 30000) ->
       generateOtp secretBuffer far 6 = Ok token ->
       (isValidTotpToken secret token (atTime ts) dateNow = Ok true <->
          exists c, ts / 30000 - 1 <= c <= ts / 30000 + 1 /\
                    generateOtp secretBuffer c 6 = Ok token)).
Proof.
  intros Hts Hmax.
  destruct (base32Decode_total secret) as [sb Hsb].
  exists sb. split; [assumption|].
  assert (1 <= ts / 30000) as Hc1 by (apply Z.div_le_lower_bound; lia).
  set (counter := ts / 30000) in *.
  destruct (generateOtp_six_digits sb (counter + -1) ltac:(lia)) as (a & Ha & Ha6).
  destruct (generateOtp_six_digits sb (counter + 0) ltac:(lia)) as (b & Hb & Hb6).
  destruct (generateOtp_six_digits sb (counter + 1) ltac:(lia)) as (c & Hc & Hc6).
  assert (forall tok,
    isValidTotpToken secret tok (atTime ts) dateNow
    = if is_six_digits tok
      then Ok (String.eqb a tok || String.eqb b tok || String.eqb c tok)
      else Ok false) as Hvalid.
  { intros tok. unfold isValidTotpToken. cbn [atTime digits stepSeconds window timestamp nullish].
    destruct (is_six_digits tok); [|reflexivity]. cbn [negb]. rewrite Hsb.
    change (stepCounter ?t 30) with (Some (t / 30000)). cbv beta iota. fold counter. rewrite window_offsets_default.
    now apply totp_scan_three. }
  assert (isValidTotpToken secret token (atTime ts) dateNow = Ok true <->
          is_six_digits token = true /\
          exists k, counter - 1 <= k <= counter + 1 /\ generateOtp sb k 6 = Ok token)
    as Hiff.
  { rewrite Hvalid. split.
    - destruct (is_six_digits token); [|discriminate]. intros [= Hor].
      split; [reflexivity|].
      apply orb_prop in Hor as [Hor|Hcc]; [apply orb_prop in Hor as [Haa|Hbb]|].
      + apply String.eqb_eq in Haa as <-. exists (counter + -1). split; [lia|assumption].
      + apply String.eqb_eq in Hbb as <-. exists (counter + 0). split; [lia|assumption].
      + apply String.eqb_eq in Hcc as <-. exists (counter + 1). split; [lia|assumption].
    - intros (H6 & k & Hk & Hgen). rewrite H6. f_equal.
      assert (k = counter + -1 \/ k = counter + 0 \/ k = counter + 1) as [-> | [-> | ->]] by lia.
      + rewrite Ha in Hgen. injection Hgen as ->. now rewrite String.eqb_refl.
      + rewrite Hb in Hgen. injection Hgen as ->. rewrite String.eqb_refl.
        now rewrite orb_true_r.
      + rewrite Hc in Hgen. injection Hgen as ->. rewrite String.eqb_refl.
        now rewrite orb_true_r. }
  split; [|split; [|split; [|split; [|split]]]].
  - intros ts' dateNow' Hsame. unfold generateTotp.
    cbn [atTime digits stepSeconds timestamp nullish]. rewrite Hsb.
    change (stepCounter ?t 30) with (Some (t / 30000)). cbv beta iota. now rewrite Hsame.
  - unfold generateTotp. cbn [atTime digits stepSeconds timestamp nullish]. rewrite Hsb.
    change (stepCounter ?t 30) with (Some (t / 30000)). reflexivity.
  - rewrite Hvalid. destruct (is_six_digits token); eexists; reflexivity.
  - exact Hiff.
  - intros H6. rewrite Hvalid, H6. reflexivity.
  - intros far Hfar Hgen. rewrite Hiff. split; [tauto|].
    intros Hwin. split; [|assumption].
    destruct Hwin as (k & Hk & Hgen').
    assert (k = counter + -1 \/ k = counter + 0 \/ k = counter + 1) as [-> | [-> | ->]] by lia;
      congruence.
Qed.

(** At a time stamp inside the first step, verification of a six-digit code
    throws: the scan starts at counter -1, which does not fit the buffer. *)
Lemma totp_first_step_throws secret token ts dateNow :
  0 <= ts < 30000 -> is_six_digits token = true ->
  isValidTotpToken secret token (atTime ts) dateNow = Throw RangeError.
Proof.
  intros Hts H6. unfold isValidTotpToken.
  cbn [atTime digits stepSeconds window timestamp nullish]. rewrite H6. cbn [negb].
  destruct (base32Decode_total secret) as [sb ->].
  change (stepCounter ?t 30) with (Some (t / 30000)). cbv beta iota. rewrite Z.div_small by lia.
  rewrite window_offsets_default. cbn [totp_scan].
  now rewrite generateOtp_out_of_range by lia.
Qed.

(** With a step of zero seconds the counter is not a number [BigInt] takes:
    generation throws, and so does the verification of a six-digit code. *)
Lemma totp_zero_step_throws secret token ts dateNow :
  let options :=
    {| stepSeconds := Some 0; digits := None; window := None; timestamp := Some ts |} in
  generateTotp secret options dateNow = Throw RangeError /\
  (is_six_digits token = true ->
   isValidTotpToken secret token options dateNow = Throw RangeError).
Proof.
  cbv zeta. unfold generateTotp, isValidTotpToken.
  cbn [stepSeconds digits window timestamp nullish].
  destruct (base32Decode_total secret) as [sb ->]. split; [reflexivity|].
  intros ->. reflexivity.
Qed.

(** C8, the claim as stated fails: for the secret JBSWY3DPEHPK3PXP the code
    of step 61831285 is 945099, and it verifies at a time stamp of step
    61831283, two steps earlier. *)
Lemma totp_far_code_verifies :
  generateTotp "JBSWY3DPEHPK3PXP" (atTime (61831285 * 30000)) 0 = Ok "945099" /\
  isValidTotpToken "JBSWY3DPEHPK3PXP" "945099" (atTime (61831283 * 30000)) 0 = Ok true.
Proof. split; vm_compute; reflexivity. Qed.

Lemma totp_window_witness :
  30000 <= Fixtures.t0 /\ Fixtures.t0 / 30000 + 1 < 2 ^ 64 /\
  (isValidTotpToken "JBSWY3DPEHPK3PXP" "945099" (atTime Fixtures.t0) 0 = Ok true <->
   exists c, Fixtures.t0 / 30000 - 1 <= c <= Fixtures.t0 / 30000 + 1 /\
             generateOtp (map ord (string_to_list "Hello!")
                          ++ [222; 173; 190; 239]) c 6 = Ok "945099").
Proof.
  assert (30000 <= Fixtures.t0) as H1 by (vm_compute; discriminate).
  assert (Fixtures.t0 / 30000 + 1 < 2 ^ 64) as H2 by (vm_compute; reflexivity).
  split; [exact H1|]. split; [exact H2|].
  destruct (totp_window "JBSWY3DPEHPK3PXP" "945099" Fixtures.t0 0 H1 H2)
    as (sb & Hsb & _ & _ & _ & Hiff & _).
  assert (sb = map ord (string_to_list "Hello!") ++ [222; 173; 190; 239]) as ->.
  { vm_compute in Hsb. injection Hsb as <-. reflexivity. }
  rewrite Hiff. split; [tauto|]. intros Hex. split; [reflexivity | exact Hex].
Defined.

(** ** Session issuance *)

Section IssueSession.
Context `{NodeModules} `{Env}.

(** C10. Every session issuance gives the refresh token the configured TTL
    when [rememberMe] is true and the smaller of that TTL and seven days
    otherwise; and a supplied previous token id is revoked with
    [replacedByTokenId] set to the id of the token just issued. *)
Theorem issueSession_ttl_and_rotation user ctx prev rememberMe w :
  refreshTokens (db w) !! uuids w (uuidsDrawn w) = None ->
  (forall p, prev = Some p -> p <> "" -> is_Some (refreshTokens (db w) !! p)) ->
  let now := clock w (ticks w) in
  let newId := uuids w (uuidsDrawn w) in
  exists tokens w',
    issueSession user ctx prev rememberMe w = (Ok tokens, w') /\
    (Boolean rememberMe = true ->
       refreshTokenExpiresAt tokens = now + REFRESH_TOKEN_TTL_SECONDS * 1000) /\
    (Boolean rememberMe = false ->
       refreshTokenExpiresAt tokens
       = now + Z.min REFRESH_TOKEN_TTL_SECONDS (7 * 24 * 60 * 60) * 1000) /\
    (exists secret, refreshToken tokens = newId +:+ "." +:+ secret) /\
    (exists r, refreshTokens (db w') !! newId = Some r /\
               rt_userId r = user_id user /\
               rt_expiresAt r = refreshTokenExpiresAt tokens /\
               rt_revokedAt r = None) /\
    (forall p old, prev = Some p -> p <> "" ->
       refreshTokens (db w) !! p = Some old ->
       refreshTokens (db w') !! p = Some (repository.revoked now (Some newId) old)).
Proof.
  intros Hfresh Hprev. cbv zeta. unfold issueSession, argon2Hash.
  steps. unfold repository.saveRefreshToken. steps. world_simpl.
  rewrite Hfresh. steps. world_simpl.
  destruct prev as [p|].
  - destruct (String.eqb_spec p "") as [-> | Hne].
    + steps. do 2 eexists. split; [reflexivity|]. world_simpl.
      repeat split; try (intros ->; reflexivity).
      * eexists; reflexivity.
      * eexists. rewrite lookup_insert_eq. repeat split; reflexivity.
      * intros p old [= <-] Hp. congruence.
    + destruct (Hprev p eq_refl Hne) as [old Hold].
      assert (p <> uuids w (uuidsDrawn w)) by (intros ->; congruence).
      unfold repository.revokeRefreshToken. steps. world_simpl.
      rewrite lookup_insert_ne by congruence. rewrite Hold. steps. world_simpl.
      do 2 eexists. split; [reflexivity|]. world_simpl.
      repeat split; try (intros ->; reflexivity).
      * eexists; reflexivity.
      * eexists. rewrite lookup_insert_ne by congruence. rewrite lookup_insert_eq.
        repeat split; reflexivity.
      * intros p' old' [= <-] _ Hold'. rewrite lookup_insert_eq. congruence.
  - steps. do 2 eexists. split; [reflexivity|]. world_simpl.
    repeat split; try (intros ->; reflexivity).
    + eexists; reflexivity.
    + eexists. rewrite lookup_insert_eq. repeat split; reflexivity.
    + intros p old [=].
Qed.

End IssueSession.

(** ** Refresh tokens *)

Lemma split_dot_join token :
  split_dot token <> [] /\ join_dot (split_dot token) = token /\
  Forall (fun s => no_dot s = true) (split_dot token).
Proof.
  induction token as [|c r IH]; simpl.
  - repeat split; [discriminate | repeat constructor].
  - destruct IH as (Hne & Hjoin & Hall).
    destruct (split_dot r) as [|s ss] eqn:Hsplit; [contradiction|].
    destruct (Ascii.eqb_spec c "."%char) as [-> | Hc].
    + split; [discriminate|]. split; [|constructor; [reflexivity | assumption]].
      change (join_dot ("" :: s :: ss)) with ("" +:+ "." +:+ join_dot (s :: ss)).
      now rewrite Hjoin.
    + split; [discriminate|]. split.
      * destruct ss; simpl in *; now rewrite <- Hjoin.
      * inversion Hall; subst. constructor; [|assumption].
        unfold no_dot in *. simpl. apply Ascii.eqb_neq in Hc. now rewrite Hc.
Qed.

Lemma split_dot_no_dot s : no_dot s = true -> split_dot s = [s].
Proof.
  unfold no_dot. induction s as [|c r IH]; simpl; [reflexivity|].
  intros Hs. apply andb_prop in Hs as [Hc Hr].
  destruct (Ascii.eqb c "."%char); [discriminate|]. now rewrite IH.
Qed.

Lemma split_dot_app a b :
  no_dot a = true -> split_dot (a +:+ "." +:+ b) = a :: split_dot b.
Proof.
  unfold no_dot. induction a as [|c r IH]; simpl; [reflexivity|].
  intros Hs. apply andb_prop in Hs as [Hc Hr].
  destruct (Ascii.eqb c "."%char); [discriminate|]. now rewrite IH.
Qed.

Section RefreshSession.
Context `{NodeModules} `{Env}.

(** [parseCompositeToken] returns the two segments exactly when the token is
    two non-empty segments around one delimiter. *)
Lemma parseCompositeToken_spec token id secret :
  parseCompositeToken token = Some (id, secret) <-> two_segments token id secret.
Proof.
  unfold parseCompositeToken, two_segments. split.
  - destruct (split_dot_join token) as (_ & Hjoin & Hall).
    destruct (split_dot token) as [|a [|b [|c l]]]; try discriminate.
    destruct (String.eqb_spec a ""); [discriminate|].
    destruct (String.eqb_spec b ""); [discriminate|]. cbn [orb].
    intros [= <- <-]. inversion Hall as [|? ? Ha Hall']; subst.
    inversion Hall' as [|? ? Hb _]; subst. simpl. auto.
  - intros (-> & Ha & Hb & Hna & Hnb).
    rewrite split_dot_app, split_dot_no_dot by assumption.
    apply String.eqb_neq in Hna, Hnb. now rewrite Hna, Hnb.
Qed.

Lemma parseCompositeToken_None token :
  (forall id secret, ~ two_segments token id secret) -> parseCompositeToken token = None.
Proof.
  intros Hno. destruct (parseCompositeToken token) as [[id secret]|] eqn:Hp; [|reflexivity].
  apply parseCompositeToken_spec in Hp. now apply Hno in Hp.
Qed.

(** C3. [refreshSession] classifies its failures in this order, with these
    effects on the stored token: a value that is not two non-empty segments
    around the delimiter, and an unknown id, raise AUTH_INVALID_REFRESH_TOKEN
    and write nothing; a revoked token raises AUTH_REFRESH_TOKEN_REVOKED and
    the database is left as it was; an expired one is revoked and raises
    AUTH_REFRESH_TOKEN_EXPIRED; a secret the stored hash rejects revokes the
    token and raises AUTH_INVALID_REFRESH_TOKEN; a suspended owner revokes
    the token and raises AUTH_ACCOUNT_SUSPENDED. *)
Theorem refreshSession_failures token ctx w :
  let now := clock w (ticks w) in
  let revoke id r := with_refreshTokens (insert id (repository.revoked now None r)) (db w) in
  ((forall id secret, ~ two_segments token id secret) ->
   refreshSession token ctx w = (Throw (unauthorized "AUTH_INVALID_REFRESH_TOKEN"), w)) /\
  (forall id secret,
     two_segments token id secret ->
     refreshTokens (db w) !! id = None ->
     refreshSession token ctx w = (Throw (unauthorized "AUTH_INVALID_REFRESH_TOKEN"), w)) /\
  (forall id secret r u,
     two_segments token id secret ->
     refreshTokens (db w) !! id = Some r -> rt_id r = id ->
     users (db w) !! rt_userId r = Some u ->
     (is_Some (rt_revokedAt r) ->
      exists w', refreshSession token ctx w
                 = (Throw (unauthorized "AUTH_REFRESH_TOKEN_REVOKED"), w') /\
                 db w' = db w) /\
     (rt_revokedAt r = None -> rt_expiresAt r <= now ->
      exists w', refreshSession token ctx w
                 = (Throw (unauthorized "AUTH_REFRESH_TOKEN_EXPIRED"), w') /\
                 db w' = revoke id r) /\
     (rt_revokedAt r = None -> now < rt_expiresAt r ->
      argon2_verify (rt_tokenHash r) secret = Ok false ->
      exists w', refreshSession token ctx w
                 = (Throw (unauthorized "AUTH_INVALID_REFRESH_TOKEN"), w') /\
                 db w' = revoke id r) /\
     (rt_revokedAt r = None -> now < rt_expiresAt r ->
      argon2_verify (rt_tokenHash r) secret = Ok true ->
      user_status u = suspended ->
      exists w', refreshSession token ctx w
                 = (Throw (forbidden "AUTH_ACCOUNT_SUSPENDED"), w') /\
                 db w' = revoke id r)).
Proof.
  cbv zeta. unfold refreshSession, refreshSession_checks.
  split; [|split].
  - intros Hno. rewrite parseCompositeToken_None by assumption. reflexivity.
  - intros id secret Hseg Hnone. apply parseCompositeToken_spec in Hseg. rewrite Hseg.
    unfold repository.findRefreshTokenById. steps. now rewrite Hnone.
  - intros id secret r u Hseg Hr Hid Hu. apply parseCompositeToken_spec in Hseg.
    rewrite Hseg. unfold repository.findRefreshTokenById. steps. rewrite Hr, Hu.
    steps. world_simpl. split; [|split; [|split]].
    + intros [t Ht]. rewrite Ht. world_simpl. steps. eexists. split; reflexivity.
    + intros Hrev Hexp. rewrite Hrev. world_simpl.
      replace (rt_expiresAt r <=? clock w (ticks w)) with true
        by (symmetry; apply Z.leb_le; assumption).
      unfold repository.revokeRefreshToken. steps. world_simpl. rewrite Hid, Hr.
      steps. world_simpl. eexists. split; reflexivity.
    + intros Hrev Hexp Hbad. rewrite Hrev. world_simpl.
      replace (rt_expiresAt r <=? clock w (ticks w)) with false
        by (symmetry; apply Z.leb_gt; assumption).
      unfold argon2Verify. rewrite Hbad. steps. world_simpl.
      unfold repository.revokeRefreshToken. steps. world_simpl. rewrite Hid, Hr.
      steps. world_simpl. eexists. split; reflexivity.
    + intros Hrev Hexp Hgood Hsusp. rewrite Hrev. world_simpl.
      replace (rt_expiresAt r <=? clock w (ticks w)) with false
        by (symmetry; apply Z.leb_gt; assumption).
      unfold argon2Verify. rewrite Hgood. steps. world_simpl. rewrite Hsusp.
      unfold repository.revokeRefreshToken. steps. world_simpl. rewrite Hid, Hr.
      steps. world_simpl. eexists. split; reflexivity.
Qed.

End RefreshSession.

(** ** Password reset *)

Section ResetPassword.
Context `{NodeModules} `{Env}.

Lemma refreshSession_revoked token id secret ctx r u t w :
  two_segments token id secret ->
  refreshTokens (db w) !! id = Some r ->
  users (db w) !! rt_userId r = Some u ->
  rt_revokedAt r = Some t ->
  fst (refreshSession token ctx w) = Throw (unauthorized "AUTH_REFRESH_TOKEN_REVOKED").
Proof.
  intros Hseg Hr Hu Hrev. unfold refreshSession, refreshSession_checks.
  apply parseCompositeToken_spec in Hseg. rewrite Hseg.
  unfold repository.findRefreshTokenById. steps. rewrite Hr, Hu. steps.
  rewrite Hrev. reflexivity.
Qed.

(** C9. With a reset token that is stored, unconsumed and unexpired,
    [resetPassword] stores the hash of the new password and revokes every
    refresh token of the user that was not yet revoked, so that redeeming any
    refresh token the user held fails afterwards; with an unknown, consumed
    or expired reset token it raises AUTH_RESET_TOKEN_INVALID and the
    database is left as it was. *)
Theorem resetPassword_revokes_sessions token newPassword ctx w :
  let now := clock w (ticks w) in
  (forall record user oldHash,
     passwordResetTokens (db w) !! token = Some record ->
     prt_consumedAt record = None ->
     now <= prt_expiresAt record ->
     users (db w) !! prt_userId record = Some user ->
     user_id user = prt_userId record ->
     passwordCredentials (db w) !! user_id user = Some oldHash ->
     exists w' salt,
       resetPassword token newPassword ctx w = (Ok user, w') /\
       passwordCredentials (db w') !! user_id user = Some (argon2_hash salt newPassword) /\
       (forall id r,
          refreshTokens (db w) !! id = Some r -> rt_userId r = user_id user ->
          exists r',
            refreshTokens (db w') !! id = Some r' /\ is_Some (rt_revokedAt r') /\
            rt_userId r' = rt_userId r /\ rt_tokenHash r' = rt_tokenHash r /\
            (rt_revokedAt r = None -> rt_revokedAt r' = Some (clock w (S (S (ticks w))))) /\
            (is_Some (rt_revokedAt r) -> r' = r)) /\
       (forall id r,
          refreshTokens (db w) !! id = Some r -> rt_userId r <> user_id user ->
          refreshTokens (db w') !! id = Some r) /\
       (forall id r secret value ctx' w'',
          refreshTokens (db w) !! id = Some r -> rt_userId r = user_id user ->
          two_segments value id secret -> db w'' = db w' ->
          fst (refreshSession value ctx' w'')
          = Throw (unauthorized "AUTH_REFRESH_TOKEN_REVOKED"))) /\
  ((passwordResetTokens (db w) !! token = None \/
    (exists record, passwordResetTokens (db w) !! token = Some record /\
                    is_Some (prt_consumedAt record)) \/
    (exists record, passwordResetTokens (db w) !! token = Some record /\
                    prt_expiresAt record < now)) ->
   exists w', resetPassword token newPassword ctx w
              = (Throw (badRequest "AUTH_RESET_TOKEN_INVALID"), w') /\
              db w' = db w).
Proof.
  cbv zeta. unfold resetPassword. split.
  - intros record user oldHash Hrec Hfresh Hlive Huser Hid Hcred.
    steps. unfold repository.consumePasswordResetToken. steps. world_simpl.
    rewrite Hrec, Hfresh. world_simpl.
    replace (prt_expiresAt record <? clock w (ticks w)) with false
      by (symmetry; apply Z.ltb_ge; assumption).
    steps. world_simpl. unfold repository.findUserById. steps. world_simpl.
    rewrite Huser. unfold argon2Hash. steps. world_simpl.
    unfold repository.updatePasswordHash. steps. world_simpl. rewrite Hcred.
    steps. world_simpl.
    unfold repository.revokeRefreshTokensForUser, repository.createAuditEvent.
    steps. world_simpl.
    assert (Hlook : forall id r,
      refreshTokens (db w) !! id = Some r -> rt_userId r = user_id user ->
      exists r',
        ((fun r0 =>
            if (rt_userId r0 =? user_id user)%string && repository.is_none (rt_revokedAt r0)
            then {| rt_id := rt_id r0; rt_userId := rt_userId r0;
                    rt_tokenHash := rt_tokenHash r0; rt_issuedAt := rt_issuedAt r0;
                    rt_expiresAt := rt_expiresAt r0;
                    rt_revokedAt := Some (clock w (S (S (ticks w))));
                    rt_replacedByTokenId := rt_replacedByTokenId r0;
                    rt_ipAddress := rt_ipAddress r0; rt_userAgent := rt_userAgent r0 |}
            else r0) <$> refreshTokens (db w)) !! id = Some r' /\
        is_Some (rt_revokedAt r') /\ rt_userId r' = rt_userId r /\
        rt_tokenHash r' = rt_tokenHash r /\
        (rt_revokedAt r = None -> rt_revokedAt r' = Some (clock w (S (S (ticks w))))) /\
        (is_Some (rt_revokedAt r) -> r' = r)).
    { intros id r Hr Hown. rewrite lookup_fmap, Hr. cbn [fmap option_fmap option_map].
      rewrite Hown, String.eqb_refl. cbn [andb].
      destruct (rt_revokedAt r) as [t|] eqn:Hrev; cbn [repository.is_none].
      - eexists. split; [reflexivity|]. rewrite Hrev.
        repeat split; eauto; try discriminate.
      - eexists. split; [reflexivity|]. cbn.
        repeat split; eauto. intros [? [=]]. }
    do 2 eexists. split; [reflexivity|]. world_simpl.
    split; [apply lookup_insert_eq|]. split; [exact Hlook|]. split.
    + intros id r Hr Hother. rewrite lookup_fmap, Hr. cbn [fmap option_fmap option_map].
      apply String.eqb_neq in Hother. now rewrite Hother.
    + intros id r secret value ctx' w'' Hr Hown Hseg Hdb.
      destruct (Hlook id r Hr Hown) as (r' & Hr' & [t Ht] & Hu' & _).
      eapply refreshSession_revoked; [eassumption | | | eassumption].
      * rewrite Hdb. world_simpl. exact Hr'.
      * rewrite Hdb. world_simpl. rewrite Hu', Hown, Hid. exact Huser.
  - intros Hbad. steps. unfold repository.consumePasswordResetToken. steps. world_simpl.
    destruct Hbad as [Hnone | [(record & Hrec & [t Ht]) | (record & Hrec & Hexp)]].
    + rewrite Hnone. steps. eexists. split; reflexivity.
    + rewrite Hrec, Ht. world_simpl. steps. eexists. split; reflexivity.
    + rewrite Hrec.
      replace (prt_expiresAt record <? clock w (ticks w)) with true
        by (symmetry; apply Z.ltb_lt; assumption).
      destruct (repository.is_some (prt_consumedAt record)); steps;
        eexists; split; reflexivity.
Qed.

End ResetPassword.

(** ** Failed MFA attempts *)

Section FailedAttempts.
Context `{NodeModules} `{Env}.



Lemma getActiveMfaConfiguration_active userId setting w :
  mfaSettings (db w) !! userId = Some setting -> is_Some (mfa_activatedAt setting) ->
  getActiveMfaConfiguration userId w = (Ok (Some setting), w).
Proof.
  intros Hs [t Ht]. unfold getActiveMfaConfiguration, repository.getMfaConfiguration.
  steps. rewrite Hs, Ht. reflexivity.
Qed.



(** A challenge id that does not resolve. *)
Lemma verify_missing cid code rd ctx w :
  mfaChallenges (db w) !! cid = None ->
  verifyMfaChallenge
    {| vin_challengeId := cid; vin_code := code; vin_rememberDevice := rd |} ctx w
  = (Throw ChallengeInvalid, w).
Proof.
  intros Hnone. unfold verifyMfaChallenge, repository.findMfaChallengeById.
  cbn [vin_challengeId]. steps. now rewrite Hnone.
Qed.






End FailedAttempts.


(** ** Backup codes and setup challenges *)

Lemma toInt32_small v : -2147483648 <= v < 2147483648 -> toInt32 v = v.
Proof. intros Hv. unfold toInt32. rewrite Z.mod_small by lia. lia. Qed.

Lemma js_and_31_range x : 0 <= js_and x 31 < 32.
Proof.
  unfold js_and. rewrite (toInt32_small 31) by lia.
  change 31 with (Z.ones 5). rewrite Z.land_ones by lia.
  pose proof (Z.mod_pos_bound (toInt32 x) (2 ^ 5) ltac:(lia)) as Hb.
  rewrite toInt32_small; lia.
Qed.

(** Every index the encoder computes selects one character of the alphabet,
    an upper-case letter or a digit. *)
Lemma alphabet_at_char x :
  exists c, alphabet_at (js_and x 31) = String c "" /\
            is_upper_alnum c = true /\ toUpperChar c = c.
Proof.
  pose proof (js_and_31_range x) as Hr. set (i := js_and x 31) in *. clearbody i.
  assert (i = 0 \/ i = 1 \/ i = 2 \/ i = 3 \/ i = 4 \/ i = 5 \/ i = 6 \/ i = 7 \/
          i = 8 \/ i = 9 \/ i = 10 \/ i = 11 \/ i = 12 \/ i = 13 \/ i = 14 \/ i = 15 \/
          i = 16 \/ i = 17 \/ i = 18 \/ i = 19 \/ i = 20 \/ i = 21 \/ i = 22 \/ i = 23 \/
          i = 24 \/ i = 25 \/ i = 26 \/ i = 27 \/ i = 28 \/ i = 29 \/ i = 30 \/ i = 31)
    as Hc by lia.
  repeat (destruct Hc as [-> | Hc]; [eexists; repeat split; reflexivity|]).
  subst. eexists; repeat split; reflexivity.
Qed.

Lemma string_app_assoc a b c : (a +:+ b) +:+ c = a +:+ (b +:+ c).
Proof.
  induction a as [|x a IH]; [reflexivity|].
  change (String x ((a +:+ b) +:+ c) = String x (a +:+ (b +:+ c))). now rewrite IH.
Qed.

Lemma toUpperCase_app a b : toUpperCase (a +:+ b) = toUpperCase a +:+ toUpperCase b.
Proof. induction a as [|c a IH]; simpl; [reflexivity|]. now rewrite IH. Qed.

Section Base32.
Local Opaque js_and js_or js_shl js_ushr alphabet_at.

(** Shifting one byte in emits one or two characters and leaves fewer than
    five bits. *)
Lemma base32Encode_byte b rest bits value out :
  0 <= bits < 5 ->
  exists chars value',
    base32Encode_loop (b :: rest) bits value out
    = base32Encode_loop rest ((bits + 8) mod 5) value' (out +:+ chars) /\
    String.length chars = Z.to_nat ((bits + 8) / 5) /\
    string_forallb is_upper_alnum chars = true /\ toUpperCase chars = chars.
Proof.
  intros Hb.
  assert (bits = 0 \/ bits = 1 \/ bits = 2 \/ bits = 3 \/ bits = 4)
    as [-> | [-> | [-> | [-> | ->]]]] by lia; simpl.
  all: repeat match goal with
         | |- context [alphabet_at (js_and ?x 31)] =>
             let c := fresh "c" in
             destruct (alphabet_at_char x) as (c & -> & ? & ?)
         end.
  1, 2: exists (String c ""), (js_or (js_shl value 8) b);
    repeat split; simpl; rewrite ?H, ?H0; reflexivity.
  all: exists (String c (String c0 "")), (js_or (js_shl value 8) b);
    rewrite string_app_assoc; repeat split; simpl;
    rewrite ?H, ?H0, ?H1, ?H2; reflexivity.
Qed.

End Base32.

Lemma string_eight s :
  String.length s = 8%nat ->
  exists c1 c2 c3 c4 c5 c6 c7 c8,
    s = String c1 (String c2 (String c3 (String c4
          (String c5 (String c6 (String c7 (String c8 ""))))))).
Proof.
  intros Hl.
  do 8 (destruct s as [|? s]; [discriminate|]).
  destruct s; [|discriminate]. repeat eexists.
Qed.

(** Five bytes encode to eight characters of the alphabet. *)
Lemma base32Encode_five b0 b1 b2 b3 b4 :
  String.length (base32Encode [b0; b1; b2; b3; b4]) = 8%nat /\
  string_forallb is_upper_alnum (base32Encode [b0; b1; b2; b3; b4]) = true /\
  toUpperCase (base32Encode [b0; b1; b2; b3; b4]) = base32Encode [b0; b1; b2; b3; b4].
Proof.
  unfold base32Encode.
  destruct (base32Encode_byte b0 [b1; b2; b3; b4] 0 0 "" ltac:(lia))
    as (s0 & v0 & -> & Hl0 & Ha0 & Hu0).
  change ((0 + 8) mod 5) with 3.
  destruct (base32Encode_byte b1 [b2; b3; b4] 3 v0 ("" +:+ s0) ltac:(lia))
    as (s1 & v1 & -> & Hl1 & Ha1 & Hu1).
  change ((3 + 8) mod 5) with 1.
  destruct (base32Encode_byte b2 [b3; b4] 1 v1 (("" +:+ s0) +:+ s1) ltac:(lia))
    as (s2 & v2 & -> & Hl2 & Ha2 & Hu2).
  change ((1 + 8) mod 5) with 4.
  destruct (base32Encode_byte b3 [b4] 4 v2 ((("" +:+ s0) +:+ s1) +:+ s2) ltac:(lia))
    as (s3 & v3 & -> & Hl3 & Ha3 & Hu3).
  change ((4 + 8) mod 5) with 2.
  destruct (base32Encode_byte b4 [] 2 v3 (((("" +:+ s0) +:+ s1) +:+ s2) +:+ s3) ltac:(lia))
    as (s4 & v4 & -> & Hl4 & Ha4 & Hu4).
  change ((2 + 8) mod 5) with 0. cbn [base32Encode_loop Z.ltb Z.compare].
  rewrite !string_length_app, !string_forallb_app, !toUpperCase_app.
  rewrite Hl0, Hl1, Hl2, Hl3, Hl4, Ha0, Ha1, Ha2, Ha3, Ha4, Hu0, Hu1, Hu2, Hu3, Hu4.
  repeat split.
Qed.

(** A generated code has the form XXXX-XXXX and is its own upper-case form. *)
Lemma backupCodeOf_form b0 b1 b2 b3 b4 :
  BACKUP_CODE_PATTERN (backupCodeOf [b0; b1; b2; b3; b4]) = true /\
  toUpperCase (backupCodeOf [b0; b1; b2; b3; b4]) = backupCodeOf [b0; b1; b2; b3; b4].
Proof.
  destruct (base32Encode_five b0 b1 b2 b3 b4) as (Hl & Ha & Hu).
  unfold backupCodeOf. set (s := base32Encode _) in *. clearbody s.
  destruct (string_eight s Hl) as (c1 & c2 & c3 & c4 & c5 & c6 & c7 & c8 & ->).
  simpl in Ha, Hu.
  repeat (apply andb_prop in Ha as [? Ha]).
  injection Hu as ? ? ? ? ? ? ? ?.
  unfold BACKUP_CODE_PATTERN, slice. simpl.
  repeat match goal with Hc : _ = _ |- _ => rewrite Hc end.
  split; reflexivity.
Qed.

Lemma forallb_map_fst {A B} (f : A -> bool) (l : list (A * B)) :
  forallb f (map fst l) = forallb (fun x => f (fst x)) l.
Proof. induction l as [|x l IH]; simpl; congruence. Qed.

Section SetupChallenge.
Context `{NodeModules} `{Env}.

Lemma generatedCodes_S w n :
  generatedCodes w (S n)
  = backupCodeOf (map (entropy w) (seq (bytesDrawn w) 5)) :: generatedCodes (drawBytes 5 w) n.
Proof.
  unfold generatedCodes. cbn [seq map]. rewrite Nat.mul_0_r, Nat.add_0_r. f_equal.
  rewrite <- seq_shift, map_map. apply map_ext. intros i.
  cbn [drawBytes entropy bytesDrawn].
  now replace (bytesDrawn w + 5 * S i)%nat with (bytesDrawn w + 5 + 5 * i)%nat by lia.
Qed.

(** What [generateBackupCodes] returns is made of the bytes it draws. *)
Lemma generateBackupCodes_run n w :
  generateBackupCodes n w = (Ok (generatedCodes w n), drawBytes (5 * n) w).
Proof.
  revert w. induction n as [|n IH]; intros w.
  - unfold drawBytes. cbn. destruct w; cbn. now rewrite Nat.add_0_r.
  - rewrite generatedCodes_S. cbn [generateBackupCodes]. steps.
    erewrite bind_run by apply IH. steps.
    f_equal. unfold drawBytes. cbn. f_equal. lia.
Qed.

Lemma generatedCodes_form w n :
  length (generatedCodes w n) = n /\
  Forall (fun c => BACKUP_CODE_PATTERN c = true /\ toUpperCase c = c) (generatedCodes w n).
Proof.
  unfold generatedCodes. split; [now rewrite length_map, length_seq|].
  apply Forall_map, List.Forall_forall. intros i _. cbn [seq map]. apply backupCodeOf_form.
Qed.

Lemma hashBackupCodes_run codes :
  forall w,
    exists hashed w',
      hashBackupCodes codes w = (Ok hashed, w') /\ db w' = db w /\
      map fst hashed = map (uuids w) (seq (uuidsDrawn w) (length codes)) /\
      Forall2 (fun code h => exists salt, snd h = argon2_hash salt code) codes hashed /\
      bytesDrawn w' = (bytesDrawn w + 16 * length codes)%nat.
Proof.
  induction codes as [|code codes IH]; intros w.
  - exists [], w. repeat split; [constructor | cbn; lia].
  - cbn [hashBackupCodes]. unfold argon2Hash. steps.
    destruct (IH (drawBytes 16 (drawUuid w)))
      as (hashed & w' & Hrun & Hdb & Hids & Hall & Hbytes).
    erewrite bind_run by exact Hrun. steps.
    do 2 eexists. split; [reflexivity|]. split; [exact Hdb|]. split; [|split].
    + cbn [map fst length seq]. f_equal. exact Hids.
    + constructor; [|assumption]. eexists; reflexivity.
    + rewrite Hbytes. cbn [drawBytes drawUuid bytesDrawn length]. lia.
Qed.

Lemma replaceMfaBackupCodes_run userMfaId codes w :
  freshCodeIds (map fst codes) (otherCodes userMfaId (db w)) = true ->
  repository.replaceMfaBackupCodes userMfaId codes w
  = (Ok tt, set_db (with_mfaBackupCodes (fun _ =>
             otherCodes userMfaId (db w) ++ map (backupCodeRow userMfaId) codes) (db w)) w).
Proof.
  intros Hfresh. unfold repository.replaceMfaBackupCodes. steps.
  fold (otherCodes userMfaId (db w)).
  destruct codes as [|code codes].
  - steps. cbn [map]. now rewrite app_nil_r.
  - set (cs := code :: codes) in *.
    unfold freshCodeIds in Hfresh. rewrite forallb_map_fst in Hfresh.
    cbv beta in Hfresh. rewrite Hfresh. steps. reflexivity.
Qed.

Lemma upper_codes_id codes :
  Forall (fun c => BACKUP_CODE_PATTERN c = true /\ toUpperCase c = c) codes ->
  map toUpperCase codes = codes.
Proof. induction 1 as [|c l [_ Hc] _ IH]; simpl; congruence. Qed.

Lemma no_setting_with_id (m : gmap string MfaConfiguration) id :
  (forall u s, m !! u = Some s -> mfa_id s <> id) ->
  existsb (fun kv => String.eqb (mfa_id (snd kv)) id) (map_to_list m) = false.
Proof.
  intros Hno. destruct (existsb _ _) eqn:Hex; [|reflexivity].
  apply existsb_exists in Hex as ([u s] & Hin & Heq).
  apply list_elem_of_In, elem_of_map_to_list in Hin.
  apply String.eqb_eq in Heq. now apply Hno in Hin.
Qed.

Lemma codesOf_otherCodes sid d :
  List.filter (fun r => String.eqb (bc_userMfaId r) sid) (otherCodes sid d) = [].
Proof.
  unfold otherCodes. induction (mfaBackupCodes d) as [|r l IH]; simpl; [reflexivity|].
  destruct (String.eqb (bc_userMfaId r) sid) eqn:Hr; simpl; [assumption|].
  now rewrite Hr.
Qed.

Lemma codesOf_rows sid hashed :
  List.filter (fun r => String.eqb (bc_userMfaId r) sid) (map (backupCodeRow sid) hashed)
  = map (backupCodeRow sid) hashed.
Proof.
  induction hashed as [|h l IH]; simpl; [reflexivity|].
  now rewrite String.eqb_refl, IH.
Qed.

Lemma verify_consumed cid code rd ctx w ch :
  mfaChallenges (db w) !! cid = Some ch -> is_Some (ch_consumedAt ch) ->
  clock w (ticks w) <= ch_expiresAt ch ->
  verifyMfaChallenge
    {| vin_challengeId := cid; vin_code := code; vin_rememberDevice := rd |} ctx w
  = (Throw ChallengeInvalid, tick w).
Proof.
  intros Hch [t Ht] Hlive. unfold verifyMfaChallenge, repository.findMfaChallengeById.
  cbn [vin_challengeId]. steps. rewrite Hch. steps.
  replace (ch_expiresAt ch <? clock w (ticks w)) with false
    by (symmetry; apply Z.ltb_ge; assumption).
  now rewrite Ht.
Qed.

(** C6. A setup challenge whose code passes the TOTP check against the
    decrypted pending secret activates the MFA setting at the current time,
    replaces the stored backup codes of that setting by the hashes of eight
    new codes of the form XXXX-XXXX, marks the challenge consumed and returns
    those eight codes. The codes are new in that each is made of five random
    bytes drawn during the call, forty in all, drawn before the sixteen of
    each salt. The database keeps the codes as argon2 hashes only, nothing
    else is written but the audit event, and the consumed challenge does not
    verify again, so no later call returns them. *)
Theorem setup_challenge_success cid code rd ctx w ch encrypted secret :
  mfaChallenges (db w) !! cid = Some ch -> ch_id ch = cid ->
  ch_type ch = Setup -> ch_consumedAt ch = None ->
  clock w (ticks w) <= ch_expiresAt ch ->
  ch_secretEncrypted ch = Some encrypted -> encrypted <> "" ->
  decryptSecret encrypted MFA_ENCRYPTION_KEY = Ok secret ->
  isValidTotpToken secret code noOptions (clock w (S (ticks w))) = Ok true ->
  (mfaSettings (db w) !! ch_userId ch = None ->
   forall u s, mfaSettings (db w) !! u = Some s -> mfa_id s <> uuids w (uuidsDrawn w)) ->
  freshCodeIds (backupCodeIds w (ch_userId ch))
    (otherCodes (settingIdFor w (ch_userId ch)) (db w)) = true ->
  let activatedAt := clock w (S (S (ticks w))) in
  let sid := settingIdFor w (ch_userId ch) in
  let codes := generatedCodes w 8 in
  exists hashed w',
    verifyMfaChallenge
      {| vin_challengeId := cid; vin_code := code; vin_rememberDevice := rd |} ctx w
    = (Ok (setup_result codes activatedAt), w') /\
    codes = map (fun i => backupCodeOf (map (entropy w) (seq (bytesDrawn w + 5 * i) 5)))
              (seq 0 8) /\
    bytesDrawn w' = (bytesDrawn w + 8 * 5 + 8 * 16)%nat /\
    length codes = 8%nat /\
    Forall (fun c => BACKUP_CODE_PATTERN c = true) codes /\
    mfaSettings (db w')
    = <[ch_userId ch := {| mfa_id := sid; mfa_secretEncrypted := encrypted;
                           mfa_deviceName := ch_deviceName ch;
                           mfa_activatedAt := Some activatedAt |}]> (mfaSettings (db w)) /\
    mfaBackupCodes (db w') = otherCodes sid (db w) ++ map (backupCodeRow sid) hashed /\
    codesOf sid (db w') = map (backupCodeRow sid) hashed /\
    map fst hashed = backupCodeIds w (ch_userId ch) /\
    Forall2 (fun c h => exists salt, snd h = argon2_hash salt c) codes hashed /\
    mfaChallenges (db w')
    = <[cid := repository.with_consumedAt activatedAt ch]> (mfaChallenges (db w)) /\
    auditEvents (db w')
    = auditEvents (db w) ++ [event "auth.mfa.setup.completed" (ch_userId ch) ctx []] /\
    users (db w') = users (db w) /\
    passwordCredentials (db w') = passwordCredentials (db w) /\
    refreshTokens (db w') = refreshTokens (db w) /\
    passwordResetTokens (db w') = passwordResetTokens (db w) /\
    mfaRememberedDevices (db w') = mfaRememberedDevices (db w) /\
    (forall code' rd' ctx' w'',
       db w'' = db w' -> clock w'' (ticks w'') <= ch_expiresAt ch ->
       fst (verifyMfaChallenge
              {| vin_challengeId := cid; vin_code := code'; vin_rememberDevice := rd' |}
              ctx' w'') = Throw ChallengeInvalid).
Proof.
  intros Hch Hid Hty Hcons Hlive Henc Hne Hdec Hvalid Hfreshset Hfreshids. cbv zeta.
  unfold verifyMfaChallenge at 1. unfold repository.findMfaChallengeById.
  cbn [vin_challengeId vin_code vin_rememberDevice].
  steps. rewrite Hch. steps.
  replace (ch_expiresAt ch <? clock w (ticks w)) with false
    by (symmetry; apply Z.ltb_ge; assumption).
  rewrite Hcons, Hty. world_simpl.
  unfold completeSetupChallenge. rewrite Henc. cbn [truthy nullish].
  apply String.eqb_neq in Hne. rewrite Hne. cbn [negb].
  rewrite Hdec. steps. unfold isValidTotpTokenNow. steps. world_simpl.
  rewrite Hvalid. steps. cbn [negb]. steps. world_simpl.
  unfold repository.upsertMfaSetting. steps. world_simpl.
  unfold settingIdFor, backupCodeIds in *.
  destruct (mfaSettings (db w) !! ch_userId ch) as [existing|] eqn:Hex.
  2: steps; world_simpl; rewrite (no_setting_with_id _ _ (Hfreshset eq_refl)).
  all: steps; world_simpl.
  all: match goal with
       | |- context [bind (generateBackupCodes ?n) _ ?W] =>
           erewrite bind_run by apply generateBackupCodes_run;
           change (generatedCodes W n) with (generatedCodes w 8);
           destruct (generatedCodes_form w 8) as [Hlen Hall]
       end.
  all: steps.
  all: rewrite (upper_codes_id _ Hall).
  all: match goal with
       | |- context [bind (hashBackupCodes ?cs) _ ?W] =>
           destruct (hashBackupCodes_run cs W) as (hashed & w2 & Hhash & Hdb2 & Hids & Hsalt & Hbytes);
           erewrite bind_run by exact Hhash
       end.
  all: rewrite Hlen in Hids, Hbytes; world_simpl.
  all: steps.
  all: erewrite bind_run
         by (apply replaceMfaBackupCodes_run; rewrite Hids, Hdb2; exact Hfreshids).
  all: unfold repository.consumeMfaChallenge, repository.createAuditEvent; steps; world_simpl.
  all: rewrite Hdb2; world_simpl; rewrite Hid, Hch; steps; world_simpl.
  all: exists hashed; eexists; split; [reflexivity|]; world_simpl.
  all: split; [reflexivity|].
  all: split; [rewrite Hbytes; world_simpl; unfold BACKUP_CODE_COUNT; lia|].
  all: split; [exact Hlen|].
  all: split; [eapply Forall_impl; [exact Hall | intros c Hc; apply Hc]|].
  all: split; [reflexivity|].
  all: split; [reflexivity|].
  all: split; [unfold codesOf; world_simpl; rewrite List.filter_app;
               change (List.filter _ (otherCodes ?sid (with_mfaSettings ?f (db w))))
                 with (List.filter (fun r => String.eqb (bc_userMfaId r) sid)
                         (otherCodes sid (db w)));
               now rewrite codesOf_otherCodes, codesOf_rows|].
  all: split; [exact Hids|].
  all: split; [exact Hsalt|].
  all: do 7 (split; [reflexivity|]).
  all: intros code' rd' ctx' w'' Hdb' Hlive'.
  all: erewrite verify_consumed; [reflexivity | rewrite Hdb'; world_simpl;
         apply lookup_insert_eq | eexists; reflexivity | exact Hlive'].
Qed.

End SetupChallenge.

(** ** Backup codes and remembered devices at login *)

Section BackupCodes.
Context `{NodeModules} `{Env}.





Lemma issueSession_fresh user ctx rememberMe w :
  refreshTokens (db w) !! uuids w (uuidsDrawn w) = None ->
  exists tokens record,
    issueSession user ctx None rememberMe w
    = (Ok tokens,
       set_db (with_refreshTokens (insert (uuids w (uuidsDrawn w)) record) (db w))
         (drawBytes 16 (drawUuid (drawBytes 48 (tick w))))).
Proof.
  intros Hfresh. unfold issueSession, argon2Hash.
  steps. unfold repository.saveRefreshToken. steps. world_simpl.
  rewrite Hfresh. steps. world_simpl. do 2 eexists. reflexivity.
Qed.

(** The second half of [completeLoginChallenge]: the challenge is consumed, a
    session issued, and a device remembered exactly when that was asked for
    and no backup code was the factor. *)
Lemma completeLoginChallenge_finish_run rememberDevice ctx accepted w ch0 user :
  mfaChallenges (db w) !! ch_id (acc_challenge accepted) = Some ch0 ->
  users (db w) !! ch_userId (acc_challenge accepted) = Some user ->
  user_id user = ch_userId (acc_challenge accepted) ->
  refreshTokens (db w) !! uuids w (uuidsDrawn w) = None ->
  (rememberDevice && negb (acc_usingBackupCode accepted) = true ->
   existsb (fun r => String.eqb (rd_id r) (uuids w (S (uuidsDrawn w))))
     (mfaRememberedDevices (db w)) = false) ->
  exists result w',
    completeLoginChallenge_finish rememberDevice ctx accepted w = (Ok result, w') /\
    vl_user result = user /\
    mfaBackupCodes (db w') = mfaBackupCodes (db w) /\
    (if rememberDevice && negb (acc_usingBackupCode accepted)
     then exists device salt,
         mfaRememberedDevices (db w') = mfaRememberedDevices (db w) ++ [device] /\
         vl_rememberDevice result
         = Some {| value := base64url (map (entropy w) (seq (bytesDrawn w + 48 + 16) 32));
                   expiresAt := rd_expiresAt device |} /\
         rd_userMfaId device = mfa_id (acc_setting accepted) /\
         rd_tokenHash device
         = argon2_hash salt (base64url (map (entropy w) (seq (bytesDrawn w + 48 + 16) 32))) /\
         rd_expiresAt device
         = clock w (S (ticks w)) + MFA_REMEMBER_DEVICE_DAYS * 24 * 60 * 60 * 1000
     else vl_rememberDevice result = None /\
          mfaRememberedDevices (db w') = mfaRememberedDevices (db w)).
Proof.
  intros Hch Huser Hid Hfresh Hdevice. unfold completeLoginChallenge_finish.
  unfold repository.consumeMfaChallenge, repository.findUserById. steps.
  rewrite Hch. steps. world_simpl. rewrite Huser.
  match goal with
  | |- context [bind (issueSession ?u ?c None ?rm) _ ?W] =>
      destruct (issueSession_fresh u c rm W) as (tokens & record & Hrun);
      [world_simpl; exact Hfresh|]; erewrite bind_run by exact Hrun
  end.
  world_simpl. steps.
  destruct (rememberDevice && negb (acc_usingBackupCode accepted)).
  - unfold createRememberedDevice, argon2Hash, repository.createRememberedDevice.
    steps. world_simpl. rewrite (Hdevice eq_refl). steps. world_simpl.
    unfold repository.updateLastLogin, repository.createAuditEvent. steps. world_simpl.
    rewrite Hid, Huser. steps. world_simpl.
    do 2 eexists. split; [reflexivity|]. world_simpl.
    split; [reflexivity|]. split; [reflexivity|].
    do 2 eexists. split; [reflexivity|]. split; [reflexivity|]. world_simpl.
    repeat split.
  - steps. unfold repository.updateLastLogin, repository.createAuditEvent. steps. world_simpl.
    rewrite Hid, Huser. steps. world_simpl.
    do 2 eexists. split; [reflexivity|]. world_simpl. repeat split.
Qed.



Lemma completeLoginChallenge_verify_totp cid code ctx w ch setting secret :
  mfaChallenges (db w) !! cid = Some ch ->
  clock w (ticks w) <= ch_expiresAt ch ->
  mfaSettings (db w) !! ch_userId ch = Some setting ->
  is_Some (mfa_activatedAt setting) ->
  decryptSecret (mfa_secretEncrypted setting) MFA_ENCRYPTION_KEY = Ok secret ->
  is_six_digits code = true ->
  isValidTotpToken secret code noOptions (clock w (S (ticks w))) = Ok true ->
  completeLoginChallenge_verify cid code ctx w
  = (Ok {| acc_challenge := ch; acc_setting := setting; acc_now := clock w (ticks w);
           acc_usingBackupCode := false |},
     tick (tick w)).
Proof.
  intros Hch Hlive Hset Hact Hdec H6 Hvalid.
  unfold completeLoginChallenge_verify, repository.findMfaChallengeById.
  steps. rewrite Hch. steps.
  replace (ch_expiresAt ch <? clock w (ticks w)) with false
    by (symmetry; apply Z.ltb_ge; assumption).
  steps.
  erewrite bind_run by (apply getActiveMfaConfiguration_active; world_simpl; eassumption).
  world_simpl. rewrite Hdec. steps. rewrite H6.
  unfold isValidTotpTokenNow. steps. world_simpl. rewrite Hvalid. steps.
  cbn [negb]. steps. reflexivity.
Qed.



End BackupCodes.


(** ** Where the code departs from the specification *)

Section Departures.
Context `{NodeModules} `{Env}.

(** [verifyMfaChallenge] refuses a consumed, unexpired challenge. *)
Lemma verifyMfaChallenge_refuses_consumed cid code rd ctx w ch :
  mfaChallenges (db w) !! cid = Some ch -> is_Some (ch_consumedAt ch) ->
  clock w (ticks w) <= ch_expiresAt ch ->
  fst (verifyMfaChallenge
         {| vin_challengeId := cid; vin_code := code; vin_rememberDevice := rd |} ctx w)
  = Throw ChallengeInvalid.
Proof. intros Hch Hc Hl. now rewrite (verify_consumed cid code rd ctx w ch). Qed.

(** [login] with [challengeId] and [mfaCode] never looks at [consumedAt]:
    whatever it holds, a valid TOTP code is answered with a session. *)
Lemma login_ignores_consumedAt input ctx w cid code ch setting secret user :
  in_challengeId input = Some cid -> cid <> "" ->
  in_mfaCode input = Some code -> is_six_digits code = true ->
  in_rememberDevice input = None ->
  mfaChallenges (db w) !! cid = Some ch -> ch_id ch = cid ->
  clock w (ticks w) <= ch_expiresAt ch ->
  mfaSettings (db w) !! ch_userId ch = Some setting ->
  is_Some (mfa_activatedAt setting) ->
  decryptSecret (mfa_secretEncrypted setting) MFA_ENCRYPTION_KEY = Ok secret ->
  isValidTotpToken secret code noOptions (clock w (S (ticks w))) = Ok true ->
  users (db w) !! ch_userId ch = Some user -> user_id user = ch_userId ch ->
  refreshTokens (db w) !! uuids w (uuidsDrawn w) = None ->
  exists tokens w',
    login input ctx w
    = (Ok (authenticated user tokens (repository.is_some (user_emailVerifiedAt user)) None),
       w').
Proof.
  intros Hcid Hne Hcode H6 Hrd Hch Hid Hlive Hset Hact Hdec Hvalid Huser Huid Hfresh.
  unfold login. rewrite Hcid, Hcode, Hrd. cbn [truthy nullish Boolean].
  apply String.eqb_neq in Hne. rewrite Hne.
  assert (String.eqb code "" = false) as ->
    by (destruct code; [discriminate | reflexivity]).
  cbn [negb andb]. unfold completeLoginChallenge. rewrite bind_bind.
  erewrite bind_run
    by (eapply completeLoginChallenge_verify_totp; eassumption).
  match goal with
  | |- context [bind (completeLoginChallenge_finish ?r ?c ?a) _ ?W] =>
      destruct (completeLoginChallenge_finish_run r c a W ch user)
        as (result & w' & Hrun & Hu & _ & Hdev)
  end; world_simpl; try assumption; try (now rewrite Hid); [discriminate|].
  destruct Hdev as [Hnone _].
  erewrite bind_run by exact Hrun. steps.
  rewrite Hu, Hnone. do 2 eexists. reflexivity.
Qed.

(** The two storage updates are unconditional. *)
Lemma consumeMfaChallenge_unconditional id when w ch :
  mfaChallenges (db w) !! id = Some ch ->
  repository.consumeMfaChallenge id when w
  = (Ok (Some (repository.with_consumedAt when ch)),
     set_db (with_mfaChallenges (insert id (repository.with_consumedAt when ch)) (db w)) w).
Proof.
  intros Hch. unfold repository.consumeMfaChallenge. steps. rewrite Hch. steps. reflexivity.
Qed.

Lemma revokeRefreshToken_unconditional id when replacedBy w r :
  refreshTokens (db w) !! id = Some r ->
  repository.revokeRefreshToken id when replacedBy w
  = (Ok tt,
     set_db (with_refreshTokens (insert id (repository.revoked when replacedBy r)) (db w)) w).
Proof.
  intros Hr. unfold repository.revokeRefreshToken. steps. rewrite Hr. reflexivity.
Qed.

Lemma findUserByEmail_reads email w : snd (repository.findUserByEmail email w) = w.
Proof.
  unfold repository.findUserByEmail. rewrite bind_getDb.
  destruct (List.find _ _) as [[k u]|]; [|reflexivity].
  destruct (passwordCredentials (db w) !! user_id u); reflexivity.
Qed.

(** C5. [login] does not guard [argon2.verify]: when the library rejects the
    stored hash, the rejection leaves [login] as it is, with nothing written;
    it is not turned into AUTH_INVALID_CREDENTIALS. *)
Theorem login_propagates_verify_rejection input ctx w user passwordHash e :
  truthy (in_challengeId input) && truthy (in_mfaCode input) = false ->
  fst (repository.findUserByEmail (normalizeEmail (in_email input)) w)
  = Ok (Some (user, passwordHash)) ->
  argon2_verify passwordHash (in_password input) = Throw e ->
  login input ctx w = (Throw e, w).
Proof.
  intros Hno Hfind Hreject. unfold login. rewrite Hno.
  pose proof (findUserByEmail_reads (normalizeEmail (in_email input)) w) as Hsame.
  destruct (repository.findUserByEmail (normalizeEmail (in_email input)) w)
    as [found w0] eqn:Hrun.
  cbn [fst snd] in Hfind, Hsame. subst found w0.
  erewrite bind_run by exact Hrun. unfold argon2Verify. now rewrite Hreject.
Qed.

(** The remembered-device scan, by contrast, turns a rejection into [false]. *)
Lemma validateRememberedDevice_scan_catches device token now ctx w e :
  now <= rd_expiresAt device ->
  argon2_verify (rd_tokenHash device) token = Throw e ->
  validateRememberedDevice_scan [device] token now ctx w = (Ok None, w).
Proof.
  intros Hlive Hreject. cbn [validateRememberedDevice_scan].
  replace (rd_expiresAt device <? now) with false by (symmetry; apply Z.ltb_ge; lia).
  unfold catch_with, argon2Verify, lift, bind. now rewrite Hreject.
Qed.

End Departures.

(** C1. A login challenge that is already consumed and not yet expired:
    [verifyMfaChallenge] answers AUTH_MFA_CHALLENGE_INVALID, but [login]
    carrying the same challenge id and a valid code issues session tokens. *)
Theorem login_accepts_consumed_challenge :
  ch_consumedAt Fixtures.consumedChallenge = Some (Fixtures.t0 - 1000) /\
  fst (@verifyMfaChallenge Fixtures.modules Fixtures.env
         {| vin_challengeId := "ch-1"; vin_code := "945099"; vin_rememberDevice := None |}
         Fixtures.ctx (Fixtures.world Fixtures.db_consumed))
  = Throw ChallengeInvalid /\
  fst (@login Fixtures.modules Fixtures.env (Fixtures.challengeInput "945099")
         Fixtures.ctx (Fixtures.world Fixtures.db_consumed))
  = Ok (authenticated Fixtures.casey
          {| accessToken := "jwt.user-1";
             accessTokenExpiresAt := Fixtures.t0 + 2 + 900000;
             refreshToken := "uuid-0.abcdefghijklmnopqrstuvwxyzabcdefghijklmnopqrstuv";
             refreshTokenExpiresAt := Fixtures.t0 + 2 + 604800000 |}
          false None).
Proof. vm_compute. repeat split. Qed.

(** C2. Neither update is conditional: consuming a consumed challenge and
    revoking a revoked token both succeed and overwrite the row. So when two
    callers redeem the same refresh token, or verify the same challenge,
    concurrently, both are served, each with a token pair of its own. *)
Theorem concurrent_redemption_serves_both :
  fst (repository.consumeMfaChallenge "ch-1" Fixtures.t0
         (Fixtures.world Fixtures.db_consumed))
  = Ok (Some (repository.with_consumedAt Fixtures.t0 Fixtures.consumedChallenge)) /\
  refreshTokens
    (db (snd (repository.revokeRefreshToken "rt-1" Fixtures.t0 (Some "rt-3")
                (Fixtures.world Fixtures.db_rotated)))) !! "rt-1"
  = Some (repository.revoked Fixtures.t0 (Some "rt-3") Fixtures.refreshToken1) /\
  (exists first second,
     interleaved (@refreshSession_checks Fixtures.modules "rt-1.s3cret")
       (@refreshSession_rotate Fixtures.modules Fixtures.env Fixtures.ctx)
       (Fixtures.world Fixtures.db_session)
     = (Ok first, Ok second) /\
     refreshToken (rr_tokens first)
     = "uuid-0.abcdefghijklmnopqrstuvwxyzabcdefghijklmnopqrstuv" /\
     refreshToken (rr_tokens second)
     = "uuid-1.mnopqrstuvwxyzabcdefghijklmnopqrstuvwxyzabcdefgh") /\
  (exists first second,
     interleaved
       (@completeLoginChallenge_verify Fixtures.modules Fixtures.env "ch-1" "945099"
          Fixtures.ctx)
       (@completeLoginChallenge_finish Fixtures.modules Fixtures.env false Fixtures.ctx)
       (Fixtures.world Fixtures.db_challenged)
     = (Ok first, Ok second) /\
     refreshToken (vl_tokens first)
     = "uuid-0.abcdefghijklmnopqrstuvwxyzabcdefghijklmnopqrstuv" /\
     refreshToken (vl_tokens second)
     = "uuid-1.mnopqrstuvwxyzabcdefghijklmnopqrstuvwxyzabcdefgh").
Proof.
  split; [vm_compute; reflexivity|]. split; [vm_compute; reflexivity|].
  split; do 2 eexists; vm_compute; repeat split.
Qed.

(** ** The statements at the fixtures *)

Section AtTheFixtures.
Local Existing Instance Fixtures.modules.
Local Existing Instance Fixtures.env.

Lemma issueSession_ttl_and_rotation_witness :
  refreshTokens (db (Fixtures.world Fixtures.db_session)) !! "uuid-0" = None /\
  is_Some (refreshTokens (db (Fixtures.world Fixtures.db_session)) !! "rt-1") /\
  exists tokens w',
    issueSession Fixtures.casey Fixtures.ctx (Some "rt-1") None
      (Fixtures.world Fixtures.db_session) = (Ok tokens, w') /\
    refreshTokenExpiresAt tokens = Fixtures.t0 + 604800000 /\
    refreshTokens (db w') !! "rt-1"
    = Some (repository.revoked Fixtures.t0 (Some "uuid-0") Fixtures.refreshToken1).
Proof.
  assert (refreshTokens (db (Fixtures.world Fixtures.db_session)) !! "uuid-0" = None) as H1
    by (vm_compute; reflexivity).
  assert (is_Some (refreshTokens (db (Fixtures.world Fixtures.db_session)) !! "rt-1")) as H2
    by (eexists; vm_compute; reflexivity).
  split; [exact H1|]. split; [exact H2|].
  destruct (issueSession_ttl_and_rotation Fixtures.casey
              Fixtures.ctx (Some "rt-1") None (Fixtures.world Fixtures.db_session))
    as (tokens & w' & Hrun & _ & Hcap & _ & _ & Hprev).
  - exact H1.
  - intros p [= <-] _. exact H2.
  - exists tokens, w'. split; [exact Hrun|]. split.
    + rewrite Hcap by reflexivity. vm_compute. reflexivity.
    + rewrite (Hprev "rt-1" Fixtures.refreshToken1 eq_refl);
        [vm_compute; reflexivity | discriminate | vm_compute; reflexivity].
Defined.

Lemma refreshSession_failures_witness :
  two_segments "rt-1.wrong" "rt-1" "wrong" /\
  argon2_verify (rt_tokenHash Fixtures.refreshToken1) "wrong" = Ok false /\
  exists w',
    refreshSession "rt-1.wrong" Fixtures.ctx (Fixtures.world Fixtures.db_session)
    = (Throw (unauthorized "AUTH_INVALID_REFRESH_TOKEN"), w') /\
    refreshTokens (db w') !! "rt-1"
    = Some (repository.revoked Fixtures.t0 None Fixtures.refreshToken1).
Proof.
  assert (two_segments "rt-1.wrong" "rt-1" "wrong") as Hseg
    by (repeat split; discriminate).
  assert (argon2_verify (rt_tokenHash Fixtures.refreshToken1) "wrong" = Ok false) as Hbad
    by (vm_compute; reflexivity).
  split; [exact Hseg|]. split; [exact Hbad|].
  destruct (refreshSession_failures "rt-1.wrong" Fixtures.ctx
              (Fixtures.world Fixtures.db_session)) as (_ & _ & Hfound).
  destruct (Hfound "rt-1" "wrong" Fixtures.refreshToken1 Fixtures.casey Hseg)
    as (_ & _ & Hmismatch & _).
  - vm_compute. reflexivity.
  - reflexivity.
  - vm_compute. reflexivity.
  - destruct Hmismatch as (w' & Hrun & Hdb).
    + reflexivity.
    + vm_compute. reflexivity.
    + exact Hbad.
    + exists w'. split; [exact Hrun|]. rewrite Hdb. vm_compute. reflexivity.
Defined.

Lemma resetPassword_revokes_sessions_witness :
  passwordResetTokens (db (Fixtures.world Fixtures.db_reset_requested)) !! "reset-1"
  = Some Fixtures.resetToken1 /\
  exists w',
    resetPassword "reset-1" "Diff3rentPass!" Fixtures.ctx
      (Fixtures.world Fixtures.db_reset_requested) = (Ok Fixtures.casey, w') /\
    fst (refreshSession "rt-1.s3cret" Fixtures.ctx w')
    = Throw (unauthorized "AUTH_REFRESH_TOKEN_REVOKED").
Proof.
  assert (passwordResetTokens (db (Fixtures.world Fixtures.db_reset_requested)) !! "reset-1"
          = Some Fixtures.resetToken1) as Hrec by (vm_compute; reflexivity).
  split; [exact Hrec|].
  destruct (resetPassword_revokes_sessions "reset-1"
              "Diff3rentPass!" Fixtures.ctx (Fixtures.world Fixtures.db_reset_requested))
    as (Hvalid & _).
  destruct (Hvalid Fixtures.resetToken1 Fixtures.casey
              (Fixtures.phc +:+ "Sup3rSecurePass!") Hrec)
    as (w' & salt & Hrun & _ & _ & _ & Hafter).
  - reflexivity.
  - vm_compute. discriminate.
  - vm_compute. reflexivity.
  - reflexivity.
  - vm_compute. reflexivity.
  - exists w'. split; [exact Hrun|].
    apply (Hafter "rt-1" Fixtures.refreshToken1 "s3cret").
    + vm_compute. reflexivity.
    + reflexivity.
    + repeat split; discriminate.
    + reflexivity.
Defined.


Lemma login_propagates_verify_rejection_witness :
  argon2_verify "not-a-hash" "Sup3rSecurePass!" = Throw (NodeError "TypeError") /\
  fst (repository.findUserByEmail "casey@example.com"
         (Fixtures.world Fixtures.db_malformed_hash))
  = Ok (Some (Fixtures.casey, "not-a-hash")) /\
  fst (login Fixtures.loginInput Fixtures.ctx (Fixtures.world Fixtures.db_malformed_hash))
  = Throw (NodeError "TypeError").
Proof.
  assert (argon2_verify "not-a-hash" "Sup3rSecurePass!" = Throw (NodeError "TypeError"))
    as Hreject by (vm_compute; reflexivity).
  assert (fst (repository.findUserByEmail "casey@example.com"
                 (Fixtures.world Fixtures.db_malformed_hash))
          = Ok (Some (Fixtures.casey, "not-a-hash"))) as Hfind
    by (vm_compute; reflexivity).
  split; [exact Hreject|]. split; [exact Hfind|].
  rewrite (login_propagates_verify_rejection Fixtures.loginInput Fixtures.ctx
             (Fixtures.world Fixtures.db_malformed_hash) Fixtures.casey "not-a-hash"
             (NodeError "TypeError") eq_refl Hfind Hreject).
  reflexivity.
Defined.

Lemma setup_challenge_success_witness :
  mfaChallenges (db (Fixtures.world Fixtures.db_enrolling)) !! "ch-0"
  = Some Fixtures.setupChallenge /\
  decryptSecret Fixtures.secretEncrypted MFA_ENCRYPTION_KEY = Ok "JBSWY3DPEHPK3PXP" /\
  isValidTotpToken "JBSWY3DPEHPK3PXP" "945099" noOptions (Fixtures.t0 + 1) = Ok true /\
  exists w',
    verifyMfaChallenge
      {| vin_challengeId := "ch-0"; vin_code := "945099"; vin_rememberDevice := None |}
      Fixtures.ctx (Fixtures.world Fixtures.db_enrolling)
    = (Ok (setup_result
             ["AAAQ-EAYE"; "AUDA-OCAJ"; "BIFQ-YDIO"; "B4IB-CEQT"; "CQKR-MFYY";
              "DENB-WHA5"; "DYPS-AIJC"; "EMSC-KJRH"] (Fixtures.t0 + 2)), w') /\
    bytesDrawn w' = 168%nat /\
    length (codesOf "uuid-0" (db w')) = 8%nat.
Proof.
  assert (mfaChallenges (db (Fixtures.world Fixtures.db_enrolling)) !! "ch-0"
          = Some Fixtures.setupChallenge) as Hch by (vm_compute; reflexivity).
  assert (decryptSecret Fixtures.secretEncrypted MFA_ENCRYPTION_KEY = Ok "JBSWY3DPEHPK3PXP")
    as Hdec by (vm_compute; reflexivity).
  assert (isValidTotpToken "JBSWY3DPEHPK3PXP" "945099" noOptions (Fixtures.t0 + 1) = Ok true)
    as Hvalid by (vm_compute; reflexivity).
  split; [exact Hch|]. split; [exact Hdec|]. split; [exact Hvalid|].
  destruct (setup_challenge_success "ch-0" "945099" None Fixtures.ctx
              (Fixtures.world Fixtures.db_enrolling) Fixtures.setupChallenge
              Fixtures.secretEncrypted "JBSWY3DPEHPK3PXP" Hch)
    as (hashed & w' & Hrun & _ & Hbytes & _ & _ & _ & _ & Hstored & Hids & _).
  - reflexivity.
  - reflexivity.
  - reflexivity.
  - vm_compute. discriminate.
  - reflexivity.
  - discriminate.
  - exact Hdec.
  - exact Hvalid.
  - intros _ u s Hs. vm_compute in Hs. discriminate.
  - vm_compute. reflexivity.
  - exists w'. split; [exact Hrun|]. split; [exact Hbytes|].
    change (settingIdFor (Fixtures.world Fixtures.db_enrolling)
              (ch_userId Fixtures.setupChallenge)) with "uuid-0" in Hstored.
    rewrite Hstored, length_map, <- (length_map fst), Hids. reflexivity.
Defined.


End AtTheFixtures.

(** ** Logging in with a password *)

Section PasswordLogin.
Context `{NodeModules} `{Env}.

Lemma findUserByEmail_run email w found :
  fst (repository.findUserByEmail email w) = Ok found ->
  repository.findUserByEmail email w = (Ok found, w).
Proof.
  intros Hfind. pose proof (findUserByEmail_reads email w) as Hsame.
  destruct (repository.findUserByEmail email w) as [r w0].
  cbn [fst snd] in *. now subst.
Qed.

Lemma getActiveMfaConfiguration_reads userId w :
  snd (getActiveMfaConfiguration userId w) = w.
Proof.
  unfold getActiveMfaConfiguration, repository.getMfaConfiguration. steps.
  destruct (mfaSettings (db w) !! userId) as [c|]; [|reflexivity].
  destruct (mfa_activatedAt c); reflexivity.
Qed.

Lemma getActiveMfaConfiguration_inactive userId w :
  (forall c, mfaSettings (db w) !! userId = Some c -> mfa_activatedAt c = None) ->
  getActiveMfaConfiguration userId w = (Ok None, w).
Proof.
  intros Hnone. unfold getActiveMfaConfiguration, repository.getMfaConfiguration. steps.
  destruct (mfaSettings (db w) !! userId) as [c|] eqn:Hc; [|reflexivity].
  now rewrite (Hnone c eq_refl).
Qed.

(** What [issueSession] stores and returns when no previous token is given. *)
Lemma issueSession_first user ctx rememberMe w :
  refreshTokens (db w) !! uuids w (uuidsDrawn w) = None ->
  let now := clock w (ticks w) in
  let secret := base64url (map (entropy w) (seq (bytesDrawn w) 48)) in
  let ttl := if Boolean rememberMe then REFRESH_TOKEN_TTL_SECONDS
             else Z.min REFRESH_TOKEN_TTL_SECONDS (7 * 24 * 60 * 60) in
  let record :=
    {| rt_id := uuids w (uuidsDrawn w); rt_userId := user_id user;
       rt_tokenHash := argon2_hash (map (entropy w) (seq (bytesDrawn w + 48) 16)) secret;
       rt_issuedAt := now; rt_expiresAt := now + ttl * 1000; rt_revokedAt := None;
       rt_replacedByTokenId := None; rt_ipAddress := ipAddress ctx;
       rt_userAgent := userAgent ctx |} in
  exists access,
    issueSession user ctx None rememberMe w
    = (Ok {| accessToken := access;
             accessTokenExpiresAt := now + ACCESS_TOKEN_TTL_SECONDS * 1000;
             refreshToken := uuids w (uuidsDrawn w) +:+ "." +:+ secret;
             refreshTokenExpiresAt := now + ttl * 1000 |},
       set_db (with_refreshTokens (insert (uuids w (uuidsDrawn w)) record) (db w))
         (drawBytes 16 (drawUuid (drawBytes 48 (tick w))))).
Proof.
  intros Hfresh. cbv zeta. unfold issueSession, argon2Hash.
  steps. unfold repository.saveRefreshToken. steps. world_simpl.
  rewrite Hfresh. steps. world_simpl. eexists. reflexivity.
Qed.

(** X1. A password login that fails leaves no trace and does not say why: an
    unknown e-mail address and a wrong password raise the same
    AUTH_INVALID_CREDENTIALS, a suspended account is only disclosed
    (AUTH_ACCOUNT_SUSPENDED) to a caller who has the right password, and in
    all three cases nothing is written: no session, no audit event. *)
Theorem login_rejections input ctx w :
  truthy (in_challengeId input) && truthy (in_mfaCode input) = false ->
  let found := fst (repository.findUserByEmail (normalizeEmail (in_email input)) w) in
  (found = Ok None ->
   login input ctx w = (Throw (unauthorized "AUTH_INVALID_CREDENTIALS"), w)) /\
  (forall user passwordHash,
     found = Ok (Some (user, passwordHash)) ->
     (argon2_verify passwordHash (in_password input) = Ok false ->
      login input ctx w = (Throw (unauthorized "AUTH_INVALID_CREDENTIALS"), w)) /\
     (argon2_verify passwordHash (in_password input) = Ok true ->
      user_status user = suspended ->
      login input ctx w = (Throw (forbidden "AUTH_ACCOUNT_SUSPENDED"), w))).
Proof.
  intros Hno. cbv zeta. unfold login. rewrite Hno. split.
  - intros Hfind. erewrite bind_run by (apply findUserByEmail_run; exact Hfind).
    reflexivity.
  - intros user passwordHash Hfind.
    erewrite bind_run by (apply findUserByEmail_run; exact Hfind).
    unfold argon2Verify. split.
    + intros ->. reflexivity.
    + intros -> ->. reflexivity.
Qed.

(** X2. A password login of a user without an active MFA configuration (none
    stored, or one that was never activated) returns [authenticated] with a
    session whose refresh token row is stored unrevoked under a new id, sets
    [lastLoginAt] of the stored user to the time read after the session was
    issued, appends one [auth.login] audit event and creates no challenge.
    The user object it returns is the one read before the update. *)
Theorem login_without_mfa input ctx w user passwordHash :
  truthy (in_challengeId input) && truthy (in_mfaCode input) = false ->
  fst (repository.findUserByEmail (normalizeEmail (in_email input)) w)
  = Ok (Some (user, passwordHash)) ->
  argon2_verify passwordHash (in_password input) = Ok true ->
  user_status user <> suspended ->
  users (db w) !! user_id user = Some user ->
  (forall c, mfaSettings (db w) !! user_id user = Some c -> mfa_activatedAt c = None) ->
  refreshTokens (db w) !! uuids w (uuidsDrawn w) = None ->
  exists tokens record secret w',
    login input ctx w
    = (Ok (authenticated user tokens (repository.is_some (user_emailVerifiedAt user)) None),
       w') /\
    refreshToken tokens = uuids w (uuidsDrawn w) +:+ "." +:+ secret /\
    refreshTokens (db w') = <[uuids w (uuidsDrawn w) := record]> (refreshTokens (db w)) /\
    rt_userId record = user_id user /\ rt_revokedAt record = None /\
    rt_expiresAt record = refreshTokenExpiresAt tokens /\
    (exists salt, rt_tokenHash record = argon2_hash salt secret) /\
    (exists stored,
       users (db w') = <[user_id user := stored]> (users (db w)) /\
       user_lastLoginAt stored = Some (clock w (S (ticks w))) /\
       user_email stored = user_email user /\ user_status stored = user_status user /\
       user_roles stored = user_roles user) /\
    auditEvents (db w')
    = auditEvents (db w)
      ++ [event "auth.login" (user_id user) ctx
            [("rememberMe", MBool (Boolean (in_rememberMe input)))]] /\
    mfaChallenges (db w') = mfaChallenges (db w) /\
    passwordCredentials (db w') = passwordCredentials (db w).
Proof.
  intros Hno Hfind Hvalid Hstatus Huser Hmfa Hfresh. unfold login. rewrite Hno.
  erewrite bind_run by (apply findUserByEmail_run; exact Hfind).
  unfold argon2Verify. rewrite Hvalid. steps. cbn [negb].
  replace (match user_status user with suspended => true | _ => false end) with false
    by (destruct (user_status user); congruence).
  erewrite bind_run by (apply getActiveMfaConfiguration_inactive; exact Hmfa).
  destruct (issueSession_first user ctx (in_rememberMe input) w Hfresh) as (access & Hrun).
  erewrite bind_run by exact Hrun.
  unfold repository.updateLastLogin, repository.createAuditEvent. steps. world_simpl.
  rewrite Huser. steps. world_simpl.
  do 4 eexists. split; [reflexivity|]. world_simpl.
  split; [reflexivity|]. split; [reflexivity|].
  split; [reflexivity|]. split; [reflexivity|]. split; [reflexivity|].
  split; [eexists; reflexivity|].
  split; [eexists; split; [reflexivity|]; repeat split|].
  repeat split.
Qed.

End PasswordLogin.

(** ** Remembered devices *)

Section RememberedDevices.
Context `{NodeModules} `{Env}.

Lemma updateRememberedDevice_run id now ctx w :
  existsb (fun r => String.eqb (rd_id r) id) (mfaRememberedDevices (db w)) = true ->
  repository.updateRememberedDevice id now (ipAddress ctx) (userAgent ctx) w
  = (Ok tt, set_db (with_mfaRememberedDevices (markDeviceUsed id now ctx) (db w)) w).
Proof.
  intros Hin. unfold repository.updateRememberedDevice. steps. now rewrite Hin.
Qed.

Lemma validateRememberedDevice_scan_find devices token now ctx w :
  (forall r, In r devices -> In r (mfaRememberedDevices (db w))) ->
  validateRememberedDevice_scan devices token now ctx w
  = (Ok (rd_id <$> List.find (deviceAccepts token now) devices),
     match List.find (deviceAccepts token now) devices with
     | Some device =>
         set_db (with_mfaRememberedDevices (markDeviceUsed (rd_id device) now ctx) (db w)) w
     | None => w
     end).
Proof.
  induction devices as [|device rest IH]; intros Hsub; [reflexivity|].
  cbn [validateRememberedDevice_scan List.find]. unfold deviceAccepts at 1 3.
  destruct (rd_expiresAt device <? now); cbn [negb andb].
  { apply IH. intros r Hr. apply Hsub. now right. }
  assert (bind (catch_with (argon2Verify (rd_tokenHash device) token) false)
            (fun valid =>
               if valid
               then bind (repository.updateRememberedDevice (rd_id device) now
                            (ipAddress ctx) (userAgent ctx))
                      (fun _ => ret (Some (rd_id device)))
               else validateRememberedDevice_scan rest token now ctx) w
          = (if match argon2_verify (rd_tokenHash device) token with
                | Ok true => true
                | _ => false
                end
             then bind (repository.updateRememberedDevice (rd_id device) now
                          (ipAddress ctx) (userAgent ctx))
                    (fun _ => ret (Some (rd_id device)))
             else validateRememberedDevice_scan rest token now ctx) w) as ->.
  { unfold bind at 1, catch_with, argon2Verify, lift.
    destruct (argon2_verify (rd_tokenHash device) token) as [[|]|e]; reflexivity. }
  destruct (match argon2_verify (rd_tokenHash device) token with
            | Ok true => true
            | _ => false
            end).
  - erewrite bind_run; [reflexivity|]. apply updateRememberedDevice_run.
    apply existsb_exists. exists device. split; [apply Hsub; now left|].
    apply String.eqb_refl.
  - apply IH. intros r Hr. apply Hsub. now right.
Qed.

Lemma validateRememberedDevice_run setting token ctx w :
  let now := clock w (ticks w) in
  let found := matchedDevice setting token now (db w) in
  validateRememberedDevice setting token ctx w
  = (Ok (rd_id <$> found),
     if truthy token
     then set_db (with_mfaRememberedDevices
                    (fun l => withoutExpired (mfa_id setting) now
                                (match found with
                                 | Some device => markDeviceUsed (rd_id device) now ctx l
                                 | None => l
                                 end)) (db w)) (tick w)
     else w).
Proof.
  cbv zeta. unfold validateRememberedDevice, matchedDevice.
  destruct (truthy token) eqn:Htoken; cbn [negb]; [|reflexivity].
  unfold repository.listRememberedDevices, repository.deleteExpiredRememberedDevices.
  steps. world_simpl. fold (devicesOf (mfa_id setting) (db w)).
  erewrite bind_run.
  2:{ apply validateRememberedDevice_scan_find. intros r Hr. world_simpl.
      unfold devicesOf in Hr. apply filter_In in Hr. tauto. }
  world_simpl.
  destruct (List.find _ (devicesOf (mfa_id setting) (db w))) as [device|] eqn:Hfound;
    steps; world_simpl; reflexivity.
Qed.

Lemma matchedDevice_Some setting token now d device :
  matchedDevice setting token now d = Some device ->
  truthy token = true /\
  In device (mfaRememberedDevices d) /\
  rd_userMfaId device = mfa_id setting /\ now <= rd_expiresAt device /\
  argon2_verify (rd_tokenHash device) (nullish token "") = Ok true.
Proof.
  unfold matchedDevice. destruct (truthy token); [|discriminate].
  intros Hfound. split; [reflexivity|].
  apply find_some in Hfound as [Hin Hacc].
  unfold devicesOf in Hin. apply filter_In in Hin as [Hin Hsetting].
  apply String.eqb_eq in Hsetting. unfold deviceAccepts in Hacc.
  apply andb_prop in Hacc as [Hlive Hhash].
  apply negb_true_iff, Z.ltb_ge in Hlive.
  destruct (argon2_verify (rd_tokenHash device) (nullish token "")) as [[|]|e];
    try discriminate.
  auto.
Qed.

(** X3. [validateRememberedDevice] answers with the id of the first stored
    device of the setting that has not expired and whose hash accepts the
    token (a hash the library rejects counts as a mismatch), marks that
    device as used, and then deletes the expired devices of the setting; an
    expired device is never matched, whatever token is presented. Without a
    token, or with an empty one, it answers [null] and touches nothing. *)
Theorem validateRememberedDevice_first_match setting token ctx w :
  let now := clock w (ticks w) in
  let found := matchedDevice setting token now (db w) in
  exists w',
    validateRememberedDevice setting token ctx w = (Ok (rd_id <$> found), w') /\
    (truthy token = false -> found = None /\ w' = w) /\
    (truthy token = true ->
     db w'
     = with_mfaRememberedDevices
         (fun l => withoutExpired (mfa_id setting) now
                     (match found with
                      | Some device => markDeviceUsed (rd_id device) now ctx l
                      | None => l
                      end)) (db w)) /\
    (forall device, found = Some device ->
       In device (mfaRememberedDevices (db w)) /\
       rd_userMfaId device = mfa_id setting /\ now <= rd_expiresAt device /\
       argon2_verify (rd_tokenHash device) (nullish token "") = Ok true) /\
    (forall device,
       In device (mfaRememberedDevices (db w)) -> rd_userMfaId device = mfa_id setting ->
       rd_expiresAt device < now ->
       found <> Some device /\ ~ In device (mfaRememberedDevices (db w')) \/
       truthy token = false).
Proof.
  cbv zeta. eexists. split; [apply validateRememberedDevice_run|].
  split; [|split; [|split]].
  - intros Htoken. rewrite Htoken. split; [|reflexivity].
    unfold matchedDevice. now rewrite Htoken.
  - intros ->. reflexivity.
  - intros device Hfound. apply matchedDevice_Some in Hfound. tauto.
  - intros device Hin Hsetting Hexpired.
    destruct (truthy token) eqn:Htoken; [left | now right]. split.
    + intros Hfound. apply matchedDevice_Some in Hfound. lia.
    + world_simpl. unfold withoutExpired. intros Hstill.
      apply filter_In in Hstill as [_ Hkeep].
      rewrite Hsetting, String.eqb_refl in Hkeep.
      apply Z.ltb_lt in Hexpired. now rewrite Hexpired in Hkeep.
Qed.

End RememberedDevices.


Section RememberedDeviceRoundTrip.
Context `{NodeModules} `{Env}.

Lemma find_accepting {A} (p : A -> bool) (l : list A) x :
  In x l -> p x = true -> exists y, List.find p l = Some y.
Proof.
  intros Hin Hp. destruct (List.find p l) as [y|] eqn:Hfind; [eauto|].
  pose proof (find_none _ _ Hfind x Hin). congruence.
Qed.

(** X4. A remembered device is honoured until it expires and not after.
    [createRememberedDevice] stores a device for the setting that expires
    MFA_REMEMBER_DEVICE_DAYS after the time it reads and returns its token;
    as long as that device is stored and the clock has not passed its
    expiry, [validateRememberedDevice] matches the token to a device, given
    a hash library that accepts what it hashed. Once the clock has passed the
    expiry, the validation does not match the device and removes it. *)
Theorem remembered_device_round_trip setting ctx w :
  let value := base64url (map (entropy w) (seq (bytesDrawn w) 32)) in
  let salt := map (entropy w) (seq (bytesDrawn w + 32) 16) in
  let expires := clock w (ticks w) + MFA_REMEMBER_DEVICE_DAYS * 24 * 60 * 60 * 1000 in
  let device :=
    {| rd_id := uuids w (uuidsDrawn w); rd_userMfaId := mfa_id setting;
       rd_tokenHash := argon2_hash salt value; rd_expiresAt := expires;
       rd_lastUsedAt := None; rd_ipAddress := ipAddress ctx;
       rd_userAgent := userAgent ctx |} in
  value <> "" ->
  argon2_verify (argon2_hash salt value) value = Ok true ->
  existsb (fun r => String.eqb (rd_id r) (uuids w (uuidsDrawn w)))
    (mfaRememberedDevices (db w)) = false ->
  exists w',
    createRememberedDevice (mfa_id setting) ctx w
    = (Ok {| value := value; expiresAt := expires |}, w') /\
    mfaRememberedDevices (db w') = mfaRememberedDevices (db w) ++ [device] /\
    forall ctx2 w2,
      In device (mfaRememberedDevices (db w2)) ->
      (clock w2 (ticks w2) <= expires ->
       exists matched,
         fst (validateRememberedDevice setting (Some value) ctx2 w2)
         = Ok (Some (rd_id matched)) /\
         In matched (mfaRememberedDevices (db w2)) /\
         rd_userMfaId matched = mfa_id setting /\
         argon2_verify (rd_tokenHash matched) value = Ok true) /\
      (expires < clock w2 (ticks w2) ->
       matchedDevice setting (Some value) (clock w2 (ticks w2)) (db w2) <> Some device /\
       ~ In device
           (mfaRememberedDevices (db (snd (validateRememberedDevice setting (Some value)
                                             ctx2 w2))))).
Proof.
  cbv zeta. intros Hvalue Hargon Hfresh.
  assert (truthy (Some (base64url (map (entropy w) (seq (bytesDrawn w) 32)))) = true)
    as Htruthy.
  { cbn [truthy]. apply String.eqb_neq in Hvalue. now rewrite Hvalue. }
  unfold createRememberedDevice, argon2Hash, repository.createRememberedDevice.
  steps. world_simpl. rewrite Hfresh. steps. world_simpl.
  eexists. split; [reflexivity|]. world_simpl. split; [reflexivity|].
  intros ctx2 w2 Hstored. split.
  - intros Hlive.
    edestruct (find_accepting
                 (deviceAccepts (base64url (map (entropy w) (seq (bytesDrawn w) 32)))
                    (clock w2 (ticks w2)))
                 (devicesOf (mfa_id setting) (db w2))) as (matched & Hfound).
    { unfold devicesOf. apply filter_In. split; [exact Hstored|]. cbn.
      apply String.eqb_refl. }
    { unfold deviceAccepts. cbn [rd_expiresAt rd_tokenHash]. rewrite Hargon.
      replace (_ <? clock w2 (ticks w2)) with false by (symmetry; apply Z.ltb_ge; lia).
      reflexivity. }
    assert (matchedDevice setting
              (Some (base64url (map (entropy w) (seq (bytesDrawn w) 32))))
              (clock w2 (ticks w2)) (db w2) = Some matched) as Hmatch.
    { unfold matchedDevice. rewrite Htruthy. exact Hfound. }
    exists matched. rewrite validateRememberedDevice_run. cbv zeta. rewrite Hmatch.
    split; [reflexivity|].
    apply matchedDevice_Some in Hmatch as (_ & Hin & Hset & _ & Hacc). auto.
  - intros Hexpired. split.
    + intros Hmatch. apply matchedDevice_Some in Hmatch as (_ & _ & _ & Hlive & _).
      cbn [rd_expiresAt] in Hlive. lia.
    + rewrite validateRememberedDevice_run. cbv zeta. rewrite Htruthy. cbn [snd].
      world_simpl. unfold withoutExpired. intros Hstill.
      apply filter_In in Hstill as [_ Hkeep]. cbn [rd_userMfaId rd_expiresAt] in Hkeep.
      rewrite String.eqb_refl in Hkeep. apply Z.ltb_lt in Hexpired.
      now rewrite Hexpired in Hkeep.
Qed.

End RememberedDeviceRoundTrip.

(** ** Logging in with a password when MFA is active *)

Section MfaLogin.
Context `{NodeModules} `{Env}.

(** X5. With an active MFA configuration, the right password alone yields no
    session: unless the presented remembered-device token is matched to a
    device, [login] stores a new login challenge that expires
    MFA_CHALLENGE_TTL_SECONDS after the time it reads, records the
    [rememberMe] choice in it, appends an [auth.login.challenge] audit event
    and returns [mfa_challenge]; the refresh tokens and the users are left as
    they were. *)
Theorem login_with_mfa_challenges input ctx w user passwordHash setting :
  truthy (in_challengeId input) && truthy (in_mfaCode input) = false ->
  fst (repository.findUserByEmail (normalizeEmail (in_email input)) w)
  = Ok (Some (user, passwordHash)) ->
  argon2_verify passwordHash (in_password input) = Ok true ->
  user_status user <> suspended ->
  mfaSettings (db w) !! user_id user = Some setting ->
  is_Some (mfa_activatedAt setting) ->
  matchedDevice setting (in_rememberedDeviceToken input) (clock w (ticks w)) (db w) = None ->
  mfaChallenges (db w) !! uuids w (uuidsDrawn w) = None ->
  let id := uuids w (uuidsDrawn w) in
  let dateNow :=
    clock w (if truthy (in_rememberedDeviceToken input) then S (ticks w) else ticks w) in
  exists w',
    login input ctx w
    = (Ok (mfa_challenge id ["totp"; "backup_code"]
             (dateNow + MFA_CHALLENGE_TTL_SECONDS * 1000)), w') /\
    mfaChallenges (db w')
    = <[id := {| ch_id := id; ch_userId := user_id user;
                 ch_userMfaId := Some (mfa_id setting); ch_type := Login;
                 ch_secretEncrypted := None; ch_deviceName := None;
                 ch_context := Some (Boolean (in_rememberMe input));
                 ch_expiresAt := dateNow + MFA_CHALLENGE_TTL_SECONDS * 1000;
                 ch_consumedAt := None; ch_attempts := 0 |}]> (mfaChallenges (db w)) /\
    refreshTokens (db w') = refreshTokens (db w) /\
    users (db w') = users (db w) /\
    auditEvents (db w')
    = auditEvents (db w)
      ++ [event "auth.login.challenge" (user_id user) ctx [("challengeId", MString id)]].
Proof.
  intros Hno Hfind Hvalid Hstatus Hsetting Hactive Hnomatch Hfresh. cbv zeta.
  unfold login. rewrite Hno.
  erewrite bind_run by (apply findUserByEmail_run; exact Hfind).
  unfold argon2Verify. rewrite Hvalid. steps. cbn [negb].
  replace (match user_status user with suspended => true | _ => false end) with false
    by (destruct (user_status user); congruence).
  erewrite bind_run by (apply getActiveMfaConfiguration_active; eassumption).
  cbv beta iota.
  erewrite bind_run by apply validateRememberedDevice_run.
  rewrite Hnomatch. cbn [fmap option_fmap option_map].
  unfold repository.createMfaChallenge, repository.createAuditEvent. steps.
  destruct (truthy (in_rememberedDeviceToken input)); world_simpl;
    rewrite Hfresh; steps; world_simpl;
    (eexists; split; [reflexivity|]; world_simpl; repeat split).
Qed.

(** X6. With an active MFA configuration and a remembered-device token that
    is matched to a device, the right password yields a session at once:
    [login] returns [authenticated], stores the refresh token row, creates no
    challenge, and records the id of the device in the [auth.login] audit
    event. *)
Theorem login_with_remembered_device input ctx w user passwordHash setting device :
  truthy (in_challengeId input) && truthy (in_mfaCode input) = false ->
  fst (repository.findUserByEmail (normalizeEmail (in_email input)) w)
  = Ok (Some (user, passwordHash)) ->
  argon2_verify passwordHash (in_password input) = Ok true ->
  user_status user <> suspended ->
  users (db w) !! user_id user = Some user ->
  mfaSettings (db w) !! user_id user = Some setting ->
  is_Some (mfa_activatedAt setting) ->
  matchedDevice setting (in_rememberedDeviceToken input) (clock w (ticks w)) (db w)
  = Some device ->
  refreshTokens (db w) !! uuids w (uuidsDrawn w) = None ->
  exists tokens record w',
    login input ctx w
    = (Ok (authenticated user tokens (repository.is_some (user_emailVerifiedAt user)) None),
       w') /\
    refreshTokens (db w') = <[uuids w (uuidsDrawn w) := record]> (refreshTokens (db w)) /\
    rt_userId record = user_id user /\ rt_revokedAt record = None /\
    mfaChallenges (db w') = mfaChallenges (db w) /\
    auditEvents (db w')
    = auditEvents (db w)
      ++ [event "auth.login" (user_id user) ctx
            [("rememberMe", MBool (Boolean (in_rememberMe input)));
             ("rememberedDeviceId", MString (rd_id device))]] /\
    mfaRememberedDevices (db w')
    = withoutExpired (mfa_id setting) (clock w (ticks w))
        (markDeviceUsed (rd_id device) (clock w (ticks w)) ctx (mfaRememberedDevices (db w))).
Proof.
  intros Hno Hfind Hvalid Hstatus Huser Hsetting Hactive Hmatch Hfresh.
  unfold login. rewrite Hno.
  erewrite bind_run by (apply findUserByEmail_run; exact Hfind).
  unfold argon2Verify. rewrite Hvalid. steps. cbn [negb].
  replace (match user_status user with suspended => true | _ => false end) with false
    by (destruct (user_status user); congruence).
  erewrite bind_run by (apply getActiveMfaConfiguration_active; eassumption).
  cbv beta iota.
  erewrite bind_run by apply validateRememberedDevice_run.
  rewrite Hmatch. cbn [fmap option_fmap option_map].
  destruct (matchedDevice_Some _ _ _ _ _ Hmatch) as (Htoken & _). rewrite Htoken.
  match goal with
  | |- context [bind (issueSession ?u ?c None ?rm) _ ?W] =>
      destruct (issueSession_first u c rm W) as (access & Hrun);
      [world_simpl; exact Hfresh|]; erewrite bind_run by exact Hrun
  end.
  unfold repository.updateLastLogin, repository.createAuditEvent. steps. world_simpl.
  rewrite Huser. steps. world_simpl.
  do 3 eexists. split; [reflexivity|]. world_simpl. repeat split.
Qed.

End MfaLogin.

(** ** Rotation of refresh tokens *)

Section Rotation.
Context `{NodeModules} `{Env}.

(** What [issueSession] stores and returns when it replaces a stored token. *)
Lemma issueSession_replacing user ctx prev old w :
  refreshTokens (db w) !! uuids w (uuidsDrawn w) = None ->
  refreshTokens (db w) !! prev = Some old -> prev <> "" ->
  let now := clock w (ticks w) in
  let newId := uuids w (uuidsDrawn w) in
  let secret := base64url (map (entropy w) (seq (bytesDrawn w) 48)) in
  let ttl := Z.min REFRESH_TOKEN_TTL_SECONDS (7 * 24 * 60 * 60) in
  let record :=
    {| rt_id := newId; rt_userId := user_id user;
       rt_tokenHash := argon2_hash (map (entropy w) (seq (bytesDrawn w + 48) 16)) secret;
       rt_issuedAt := now; rt_expiresAt := now + ttl * 1000; rt_revokedAt := None;
       rt_replacedByTokenId := None; rt_ipAddress := ipAddress ctx;
       rt_userAgent := userAgent ctx |} in
  exists access,
    issueSession user ctx (Some prev) None w
    = (Ok {| accessToken := access;
             accessTokenExpiresAt := now + ACCESS_TOKEN_TTL_SECONDS * 1000;
             refreshToken := newId +:+ "." +:+ secret;
             refreshTokenExpiresAt := now + ttl * 1000 |},
       set_db (with_refreshTokens
                 (fun m => <[prev := repository.revoked now (Some newId) old]>
                             (<[newId := record]> m)) (db w))
         (drawBytes 16 (drawUuid (drawBytes 48 (tick w))))).
Proof.
  intros Hfresh Hold Hne. cbv zeta. unfold issueSession, argon2Hash.
  steps. unfold repository.saveRefreshToken. steps. world_simpl.
  rewrite Hfresh. steps. world_simpl.
  apply String.eqb_neq in Hne. rewrite Hne.
  assert (prev <> uuids w (uuidsDrawn w)) by (intros ->; congruence).
  unfold repository.revokeRefreshToken. steps. world_simpl.
  rewrite lookup_insert_ne by congruence. rewrite Hold. steps. world_simpl.
  eexists. reflexivity.
Qed.

Lemma refreshSession_checks_pass token id secret r u w :
  two_segments token id secret ->
  refreshTokens (db w) !! id = Some r ->
  users (db w) !! rt_userId r = Some u ->
  rt_revokedAt r = None ->
  clock w (ticks w) < rt_expiresAt r ->
  argon2_verify (rt_tokenHash r) secret = Ok true ->
  user_status u <> suspended ->
  refreshSession_checks token w = (Ok (id, r, u), tick w).
Proof.
  intros Hseg Hr Hu Hrev Hlive Hgood Hstatus. unfold refreshSession_checks.
  apply parseCompositeToken_spec in Hseg. rewrite Hseg.
  unfold repository.findRefreshTokenById. steps. rewrite Hr, Hu. steps. world_simpl.
  rewrite Hrev. world_simpl.
  replace (rt_expiresAt r <=? clock w (ticks w)) with false
    by (symmetry; apply Z.leb_gt; assumption).
  unfold argon2Verify. rewrite Hgood. steps. world_simpl.
  replace (match user_status u with suspended => true | _ => false end) with false
    by (destruct (user_status u); congruence).
  reflexivity.
Qed.

(** X7. Redeeming a live refresh token rotates it: [refreshSession] returns
    the owner and a new token pair, stores the new token unrevoked under a
    new id, and revokes the presented one with [replacedByTokenId] pointing
    at the new id. The new token lives for the smaller of the configured TTL
    and seven days, whatever the lifetime of the presented one was. Presenting
    the old token again afterwards raises AUTH_REFRESH_TOKEN_REVOKED. *)
Theorem refreshSession_rotates token id secret ctx w r u :
  two_segments token id secret ->
  refreshTokens (db w) !! id = Some r -> rt_id r = id ->
  users (db w) !! rt_userId r = Some u ->
  rt_revokedAt r = None ->
  clock w (ticks w) < rt_expiresAt r ->
  argon2_verify (rt_tokenHash r) secret = Ok true ->
  user_status u <> suspended ->
  refreshTokens (db w) !! uuids w (uuidsDrawn w) = None ->
  let issuedAt := clock w (S (ticks w)) in
  let newId := uuids w (uuidsDrawn w) in
  exists tokens newSecret record w',
    refreshSession token ctx w = (Ok {| rr_user := u; rr_tokens := tokens |}, w') /\
    refreshToken tokens = newId +:+ "." +:+ newSecret /\
    refreshTokenExpiresAt tokens
    = issuedAt + Z.min REFRESH_TOKEN_TTL_SECONDS (7 * 24 * 60 * 60) * 1000 /\
    refreshTokens (db w')
    = <[id := repository.revoked issuedAt (Some newId) r]>
        (<[newId := record]> (refreshTokens (db w))) /\
    rt_userId record = user_id u /\ rt_revokedAt record = None /\
    rt_expiresAt record = refreshTokenExpiresAt tokens /\
    (exists salt, rt_tokenHash record = argon2_hash salt newSecret) /\
    auditEvents (db w')
    = auditEvents (db w)
      ++ [event "auth.refresh" (user_id u) ctx [("refreshTokenId", MString id)]] /\
    users (db w') = users (db w) /\
    (forall ctx' w'',
       db w'' = db w' ->
       exists w3, refreshSession token ctx' w''
                  = (Throw (unauthorized "AUTH_REFRESH_TOKEN_REVOKED"), w3) /\
                  db w3 = db w'').
Proof.
  intros Hseg Hr Hid Hu Hrev Hlive Hgood Hstatus Hfresh. cbv zeta.
  unfold refreshSession.
  erewrite bind_run by (eapply refreshSession_checks_pass; eassumption).
  unfold refreshSession_rotate.
  assert (id <> "") as Hne by (destruct Hseg as (_ & _ & _ & Hne & _); exact Hne).
  destruct (issueSession_replacing u ctx (rt_id r) r (tick w)) as (access & Hrun);
    [world_simpl; exact Hfresh | world_simpl; rewrite Hid; exact Hr | congruence |].
  world_simpl. erewrite bind_run by exact Hrun.
  unfold repository.createAuditEvent. steps. world_simpl. rewrite Hid.
  do 4 eexists. split; [reflexivity|]. world_simpl.
  split; [reflexivity|]. split; [reflexivity|]. split; [reflexivity|].
  split; [reflexivity|]. split; [reflexivity|]. split; [reflexivity|].
  split; [eexists; reflexivity|]. split; [reflexivity|]. split; [reflexivity|].
  intros ctx' w'' Hdb. unfold refreshSession_checks.
  apply parseCompositeToken_spec in Hseg. rewrite Hseg.
  unfold repository.findRefreshTokenById. steps. rewrite Hdb. world_simpl.
  rewrite lookup_insert_eq. world_simpl. rewrite Hu. steps. world_simpl.
  eexists. split; [reflexivity|]. world_simpl. now rewrite Hdb.
Qed.

(** X8. A refresh token handed out by [issueSession] can be redeemed: with a
    hash library that accepts what it hashed, ids and secrets that are
    non-empty and free of the delimiter, an owner who is stored and not
    suspended, and a clock that has not reached the expiry, [refreshSession]
    on the returned value yields the owner and the next token pair. *)
Theorem issued_refresh_token_redeems user stored ctx rememberMe ctx' w :
  let id := uuids w (uuidsDrawn w) in
  let secret := base64url (map (entropy w) (seq (bytesDrawn w) 48)) in
  let salt := map (entropy w) (seq (bytesDrawn w + 48) 16) in
  let ttl := if Boolean rememberMe then REFRESH_TOKEN_TTL_SECONDS
             else Z.min REFRESH_TOKEN_TTL_SECONDS (7 * 24 * 60 * 60) in
  refreshTokens (db w) !! id = None ->
  refreshTokens (db w) !! uuids w (S (uuidsDrawn w)) = None ->
  uuids w (S (uuidsDrawn w)) <> id ->
  no_dot id = true -> id <> "" -> no_dot secret = true -> secret <> "" ->
  argon2_verify (argon2_hash salt secret) secret = Ok true ->
  users (db w) !! user_id user = Some stored -> user_status stored <> suspended ->
  clock w (S (ticks w)) < clock w (ticks w) + ttl * 1000 ->
  exists tokens w1 next w2,
    issueSession user ctx None rememberMe w = (Ok tokens, w1) /\
    refreshSession (refreshToken tokens) ctx' w1
    = (Ok {| rr_user := stored; rr_tokens := next |}, w2) /\
    (exists r, refreshTokens (db w2) !! id = Some r /\
               rt_revokedAt r = Some (clock w (S (S (ticks w)))) /\
               rt_replacedByTokenId r = Some (uuids w (S (uuidsDrawn w)))) /\
    (exists r, refreshTokens (db w2) !! uuids w (S (uuidsDrawn w)) = Some r /\
               rt_revokedAt r = None /\ rt_userId r = user_id stored).
Proof.
  cbv zeta. intros Hfresh Hnext Hdiff Hid Hidne Hsec Hsecne Hargon Hstored Hstatus Hclock.
  destruct (issueSession_first user ctx rememberMe w Hfresh) as (access & Hrun).
  cbv zeta in Hrun.
  set (record := {| rt_id := uuids w (uuidsDrawn w) |}) in Hrun.
  unfold refreshSession.
  do 2 eexists. 
  assert (two_segments
            (uuids w (uuidsDrawn w) +:+ "." +:+
             base64url (map (entropy w) (seq (bytesDrawn w) 48)))
            (uuids w (uuidsDrawn w))
            (base64url (map (entropy w) (seq (bytesDrawn w) 48)))) as Hseg
    by (repeat split; assumption).
  match type of Hrun with
  | _ = (_, ?W1) =>
      assert (refreshSession_checks
                (uuids w (uuidsDrawn w) +:+ "." +:+
                 base64url (map (entropy w) (seq (bytesDrawn w) 48))) W1
              = (Ok (uuids w (uuidsDrawn w), record, stored), tick W1)) as Hchecks
  end.
  { eapply (refreshSession_checks_pass _ _ _ record stored).
    - exact Hseg.
    - world_simpl. apply lookup_insert_eq.
    - world_simpl. exact Hstored.
    - reflexivity.
    - world_simpl. exact Hclock.
    - exact Hargon.
    - exact Hstatus. }
  match type of Hchecks with
  | _ = (_, ?W2) =>
      destruct (issueSession_replacing stored ctx' (uuids w (uuidsDrawn w)) record W2)
        as (access' & Hrun')
  end.
  { world_simpl. rewrite lookup_insert_ne by congruence. exact Hnext. }
  { world_simpl. apply lookup_insert_eq. }
  { exact Hidne. }
  do 2 eexists. split; [exact Hrun|]. cbn [refreshToken].
  erewrite bind_run by exact Hchecks. unfold refreshSession_rotate.
  change (rt_id record) with (uuids w (uuidsDrawn w)).
  erewrite bind_run by exact Hrun'.
  unfold repository.createAuditEvent. steps. world_simpl.
  split; [reflexivity|]. world_simpl. split.
  - eexists. rewrite lookup_insert_eq. split; [reflexivity|]. split; reflexivity.
  - eexists. rewrite lookup_insert_ne by congruence. rewrite lookup_insert_eq.
    split; [reflexivity|]. split; reflexivity.
Qed.

End Rotation.

(** ** Challenges that cannot be answered *)

Section DeadChallenges.
Context `{NodeModules} `{Env}.

Lemma deleteMfaChallenge_run id ch w :
  mfaChallenges (db w) !! id = Some ch ->
  repository.deleteMfaChallenge id w
  = (Ok tt, set_db (with_mfaChallenges (delete id) (db w)) w).
Proof.
  intros Hch. unfold repository.deleteMfaChallenge. steps. now rewrite Hch.
Qed.

(** X9. An expired challenge is deleted on the first attempt after its
    expiry, which raises AUTH_MFA_CHALLENGE_EXPIRED whatever the code and
    whether or not the challenge was consumed, through [verifyMfaChallenge]
    and through [login] alike; no attempt is counted and nothing else is
    written. Every later attempt finds no challenge and raises
    AUTH_MFA_CHALLENGE_INVALID. *)
Theorem expired_challenge_is_deleted cid code rd input ctx w ch :
  mfaChallenges (db w) !! cid = Some ch -> ch_id ch = cid ->
  ch_expiresAt ch < clock w (ticks w) ->
  let after := set_db (with_mfaChallenges (delete cid) (db w)) (tick w) in
  verifyMfaChallenge
    {| vin_challengeId := cid; vin_code := code; vin_rememberDevice := rd |} ctx w
  = (Throw ChallengeExpired, after) /\
  (in_challengeId input = Some cid -> in_mfaCode input = Some code ->
   cid <> "" -> code <> "" ->
   login input ctx w = (Throw ChallengeExpired, after)) /\
  (forall code' rd' ctx' w',
     db w' = db after ->
     verifyMfaChallenge
       {| vin_challengeId := cid; vin_code := code'; vin_rememberDevice := rd' |} ctx' w'
     = (Throw ChallengeInvalid, w')).
Proof.
  intros Hch Hid Hexpired. cbv zeta.
  apply Z.ltb_lt in Hexpired. split; [|split].
  - unfold verifyMfaChallenge, repository.findMfaChallengeById. cbn [vin_challengeId].
    steps. rewrite Hch. steps. rewrite Hexpired.
    erewrite bind_run by (apply (deleteMfaChallenge_run _ ch); world_simpl; rewrite Hid; exact Hch).
    rewrite Hid. reflexivity.
  - intros Hcid Hcode Hne Hcne. unfold login. rewrite Hcid, Hcode.
    cbn [truthy nullish]. apply String.eqb_neq in Hne, Hcne. rewrite Hne, Hcne.
    cbn [negb andb].
    unfold completeLoginChallenge, completeLoginChallenge_verify,
      repository.findMfaChallengeById.
    steps. rewrite Hch. steps. rewrite Hexpired. steps.
    erewrite bind_run by (apply (deleteMfaChallenge_run _ ch); world_simpl; rewrite Hid; exact Hch).
    rewrite Hid. reflexivity.
  - intros code' rd' ctx' w' Hdb. apply verify_missing. rewrite Hdb. world_simpl.
    apply lookup_delete_eq.
Qed.

(** X10. A login challenge of a user whose MFA configuration is no longer
    active (deleted, or never activated) cannot be completed: the attempt
    deletes the challenge and raises AUTH_MFA_CHALLENGE_INVALID, before the
    code is looked at and without issuing a session. *)
Theorem login_challenge_without_active_mfa cid code rememberDevice ctx w ch :
  mfaChallenges (db w) !! cid = Some ch -> ch_id ch = cid ->
  clock w (ticks w) <= ch_expiresAt ch ->
  (forall c, mfaSettings (db w) !! ch_userId ch = Some c -> mfa_activatedAt c = None) ->
  completeLoginChallenge cid code rememberDevice ctx w
  = (Throw ChallengeInvalid,
     set_db (with_mfaChallenges (delete cid) (db w)) (tick w)).
Proof.
  intros Hch Hid Hlive Hinactive.
  unfold completeLoginChallenge, completeLoginChallenge_verify,
    repository.findMfaChallengeById.
  steps. rewrite Hch. steps.
  replace (ch_expiresAt ch <? clock w (ticks w)) with false
    by (symmetry; apply Z.ltb_ge; assumption).
  steps.
  erewrite bind_run
    by (apply getActiveMfaConfiguration_inactive; world_simpl; exact Hinactive).
  cbv beta iota. steps.
  erewrite bind_run by (apply (deleteMfaChallenge_run _ ch); world_simpl; rewrite Hid; exact Hch).
  rewrite Hid. reflexivity.
Qed.

(** X11. Challenges [verifyMfaChallenge] has no answer for leave the
    database as it was: a challenge of a type other than setup and login, and
    a setup challenge without a secret payload, raise
    AUTH_MFA_CHALLENGE_INVALID; a setup challenge whose payload does not
    decrypt raises the error of the decryption. In none of these cases is an
    attempt counted or the challenge removed. *)
Theorem unanswerable_challenge_writes_nothing cid code rd ctx w ch :
  mfaChallenges (db w) !! cid = Some ch ->
  ch_consumedAt ch = None ->
  clock w (ticks w) <= ch_expiresAt ch ->
  let run :=
    verifyMfaChallenge
      {| vin_challengeId := cid; vin_code := code; vin_rememberDevice := rd |} ctx w in
  (ch_type ch = Recovery -> run = (Throw ChallengeInvalid, tick w)) /\
  (ch_type ch = Setup -> truthy (ch_secretEncrypted ch) = false ->
   run = (Throw ChallengeInvalid, tick w)) /\
  (forall payload e,
     ch_type ch = Setup -> ch_secretEncrypted ch = Some payload -> payload <> "" ->
     decryptSecret payload MFA_ENCRYPTION_KEY = Throw e ->
     run = (Throw e, tick w)).
Proof.
  intros Hch Hfresh Hlive. cbv zeta.
  unfold verifyMfaChallenge, repository.findMfaChallengeById. cbn [vin_challengeId vin_code].
  steps. rewrite Hch. steps.
  replace (ch_expiresAt ch <? clock w (ticks w)) with false
    by (symmetry; apply Z.ltb_ge; assumption).
  rewrite Hfresh. cbn [repository.is_some repository.is_none negb].
  split; [|split].
  - intros ->. reflexivity.
  - intros -> Hnone. unfold completeSetupChallenge. now rewrite Hnone.
  - intros payload e -> Hpayload Hne Hdec. unfold completeSetupChallenge.
    rewrite Hpayload. cbn [truthy nullish]. apply String.eqb_neq in Hne. rewrite Hne.
    cbn [negb]. rewrite Hdec. reflexivity.
Qed.

End DeadChallenges.

(** ** Requesting and redeeming a password reset *)

Section PasswordReset.
Context `{NodeModules} `{Env} `{NodeCipher} `{EnvRest} `{EmailService}.

Lemma findUserByEmail_found email w user passwordHash :
  fst (repository.findUserByEmail email w) = Ok (Some (user, passwordHash)) ->
  passwordCredentials (db w) !! user_id user = Some passwordHash.
Proof.
  unfold repository.findUserByEmail. rewrite bind_getDb.
  destruct (List.find _ _) as [[k u]|]; [|discriminate].
  destruct (passwordCredentials (db w) !! user_id u) as [h|] eqn:Hh; [|discriminate].
  cbn. intros [= <- <-]. exact Hh.
Qed.

(** [findUserByEmail] reads the users and the password credentials only. *)
Lemma findUserByEmail_depends email w w' :
  users (db w') = users (db w) ->
  passwordCredentials (db w') = passwordCredentials (db w) ->
  fst (repository.findUserByEmail email w') = fst (repository.findUserByEmail email w).
Proof.
  intros Hu Hc. unfold repository.findUserByEmail. rewrite !bind_getDb, Hu, Hc.
  destruct (List.find _ _) as [[k u]|]; [|reflexivity].
  destruct (passwordCredentials (db w) !! user_id u); reflexivity.
Qed.

Lemma findUserByEmail_new_hash email w w' user oldHash newHash :
  fst (repository.findUserByEmail email w) = Ok (Some (user, oldHash)) ->
  users (db w') = users (db w) ->
  passwordCredentials (db w') = <[user_id user := newHash]> (passwordCredentials (db w)) ->
  fst (repository.findUserByEmail email w') = Ok (Some (user, newHash)).
Proof.
  intros Hfind Hu Hc. revert Hfind. unfold repository.findUserByEmail.
  rewrite !bind_getDb, Hu, Hc.
  destruct (List.find _ _) as [[k u]|]; [|discriminate].
  destruct (passwordCredentials (db w) !! user_id u) as [h|]; [|discriminate].
  cbn. intros [= <- <-]. now rewrite lookup_insert_eq.
Qed.

(** The database a successful [resetPassword] leaves behind. *)
Lemma resetPassword_run token newPassword ctx w record user oldHash :
  passwordResetTokens (db w) !! token = Some record ->
  prt_consumedAt record = None ->
  clock w (ticks w) <= prt_expiresAt record ->
  users (db w) !! prt_userId record = Some user ->
  passwordCredentials (db w) !! user_id user = Some oldHash ->
  let consumed :=
    {| prt_id := prt_id record; prt_userId := prt_userId record;
       prt_token := prt_token record; prt_expiresAt := prt_expiresAt record;
       prt_consumedAt := Some (clock w (ticks w)) |} in
  let newHash := argon2_hash (map (entropy w) (seq (bytesDrawn w) 16)) newPassword in
  exists w',
    resetPassword token newPassword ctx w = (Ok user, w') /\
    passwordResetTokens (db w') = <[token := consumed]> (passwordResetTokens (db w)) /\
    passwordCredentials (db w') = <[user_id user := newHash]> (passwordCredentials (db w)) /\
    users (db w') = users (db w) /\
    mfaSettings (db w') = mfaSettings (db w) /\
    auditEvents (db w')
    = auditEvents (db w) ++ [event "auth.password.reset" (user_id user) ctx []].
Proof.
  intros Hrec Hfresh Hlive Huser Hcred. cbv zeta. unfold resetPassword.
  steps. unfold repository.consumePasswordResetToken. steps. world_simpl.
  rewrite Hrec, Hfresh. world_simpl.
  replace (prt_expiresAt record <? clock w (ticks w)) with false
    by (symmetry; apply Z.ltb_ge; assumption).
  steps. world_simpl. unfold repository.findUserById. steps. world_simpl.
  rewrite Huser. unfold argon2Hash. steps. world_simpl.
  unfold repository.updatePasswordHash. steps. world_simpl. rewrite Hcred.
  steps. world_simpl.
  unfold repository.revokeRefreshTokensForUser, repository.createAuditEvent.
  steps. world_simpl.
  eexists. split; [reflexivity|]. world_simpl. repeat split.
Qed.

Lemma resetPassword_consumed token newPassword ctx w record :
  passwordResetTokens (db w) !! token = Some record ->
  is_Some (prt_consumedAt record) ->
  resetPassword token newPassword ctx w
  = (Throw (badRequest "AUTH_RESET_TOKEN_INVALID"), tick w).
Proof.
  intros Hrec [t Ht]. unfold resetPassword.
  steps. unfold repository.consumePasswordResetToken. steps. world_simpl.
  rewrite Hrec, Ht. reflexivity.
Qed.

(** [requestPasswordReset] for an address no account with a password
    has answers [requested: false] and does nothing else: no token is
    stored, no mail is sent, no audit event is written. *)
Lemma requestPasswordReset_unknown_address email ctx w :
  fst (repository.findUserByEmail (normalizeEmail email) w) = Ok None ->
  requestPasswordReset email ctx w = (Ok false, w).
Proof.
  intros Hfind. unfold requestPasswordReset.
  erewrite bind_run by (apply findUserByEmail_run; exact Hfind). reflexivity.
Qed.

(** X12. The password reset flow composes. For a known address,
    [requestPasswordReset] stores an unconsumed token of 40 random bytes
    that expires PASSWORD_RESET_TOKEN_TTL_MINUTES after the request, hands it
    to the mailer and answers [requested: true], leaving users, passwords
    and sessions as they were. Until it expires, [resetPassword] with that
    token stores the hash of the new password for that user; after that the
    token is used up, and presenting it again raises
    AUTH_RESET_TOKEN_INVALID. *)
Theorem password_reset_flow email ctx w user oldHash :
  let token := base64url (map (entropy w) (seq (bytesDrawn w) 40)) in
  let expiresAt := clock w (ticks w) + PASSWORD_RESET_TOKEN_TTL_MINUTES * 60 * 1000 in
  let id := uuids w (uuidsDrawn w) in
  fst (repository.findUserByEmail (normalizeEmail email) w) = Ok (Some (user, oldHash)) ->
  users (db w) !! user_id user = Some user ->
  passwordResetTokens (db w) !! token = None ->
  (forall t r, passwordResetTokens (db w) !! t = Some r -> prt_id r <> id) ->
  (forall w1, sendPasswordResetEmail user token expiresAt w1 = (Ok tt, w1)) ->
  exists w',
    requestPasswordReset email ctx w = (Ok true, w') /\
    passwordResetTokens (db w')
    = <[token := {| prt_id := id; prt_userId := user_id user; prt_token := token;
                    prt_expiresAt := expiresAt; prt_consumedAt := None |}]>
        (passwordResetTokens (db w)) /\
    users (db w') = users (db w) /\
    passwordCredentials (db w') = passwordCredentials (db w) /\
    refreshTokens (db w') = refreshTokens (db w) /\
    auditEvents (db w')
    = auditEvents (db w) ++ [event "auth.password.reset-request" (user_id user) ctx []] /\
    (forall newPassword ctx1 w1,
       db w1 = db w' -> clock w1 (ticks w1) <= expiresAt ->
       exists salt w2,
         resetPassword token newPassword ctx1 w1 = (Ok user, w2) /\
         passwordCredentials (db w2) !! user_id user
         = Some (argon2_hash salt newPassword) /\
         (forall otherPassword ctx2 w3,
            db w3 = db w2 ->
            fst (resetPassword token otherPassword ctx2 w3)
            = Throw (badRequest "AUTH_RESET_TOKEN_INVALID"))).
Proof.
  cbv zeta. intros Hfind Huser Hnew Hid Hmail.
  pose proof (findUserByEmail_found _ _ _ _ Hfind) as Hcred.
  unfold requestPasswordReset.
  erewrite bind_run by (apply findUserByEmail_run; exact Hfind).
  unfold generatePasswordResetToken, createPasswordResetToken. steps. world_simpl.
  rewrite Hnew. cbn [repository.is_some repository.is_none negb orb].
  replace (existsb _ (map_to_list (passwordResetTokens (db w)))) with false.
  2:{ symmetry. apply not_true_is_false. intros Hex. apply existsb_exists in Hex.
      destruct Hex as ([t r] & Hin & Heq). apply list_elem_of_In, elem_of_map_to_list in Hin.
      apply String.eqb_eq in Heq. exact (Hid t r Hin Heq). }
  steps. world_simpl. erewrite bind_run by apply Hmail.
  unfold repository.createAuditEvent. steps. world_simpl.
  eexists. split; [reflexivity|]. world_simpl.
  split; [reflexivity|]. split; [reflexivity|]. split; [reflexivity|].
  split; [reflexivity|]. split; [reflexivity|].
  intros newPassword ctx1 w1 Hdb Hlive.
  edestruct (resetPassword_run (base64url (map (entropy w) (seq (bytesDrawn w) 40)))
               newPassword ctx1 w1) as (w2 & Hrun & Htok & Hpw & _);
    [rewrite Hdb; world_simpl; apply lookup_insert_eq | reflexivity | exact Hlive
    | rewrite Hdb; world_simpl; exact Huser | rewrite Hdb; world_simpl; exact Hcred |].
  do 2 eexists. split; [exact Hrun|]. split.
  - rewrite Hpw. apply lookup_insert_eq.
  - intros otherPassword ctx2 w3 Hdb3.
    erewrite resetPassword_consumed;
      [reflexivity | rewrite Hdb3, Htok; apply lookup_insert_eq | eexists; reflexivity].
Qed.

(** X13. [resetPassword] changes what [login] accepts. After a successful
    reset, a login by password is checked against the hash of the new
    password: a password that hash rejects, the old one included, raises
    AUTH_INVALID_CREDENTIALS, and the new password, when the library accepts
    what it hashed, signs the user in. *)
Theorem resetPassword_changes_login token newPassword ctx w record user oldHash input :
  let newHash := argon2_hash (map (entropy w) (seq (bytesDrawn w) 16)) newPassword in
  passwordResetTokens (db w) !! token = Some record ->
  prt_consumedAt record = None ->
  clock w (ticks w) <= prt_expiresAt record ->
  prt_userId record = user_id user ->
  users (db w) !! user_id user = Some user ->
  truthy (in_challengeId input) && truthy (in_mfaCode input) = false ->
  fst (repository.findUserByEmail (normalizeEmail (in_email input)) w)
  = Ok (Some (user, oldHash)) ->
  exists w',
    resetPassword token newPassword ctx w = (Ok user, w') /\
    forall ctx1 w1,
      db w1 = db w' ->
      (argon2_verify newHash (in_password input) = Ok false ->
       login input ctx1 w1 = (Throw (unauthorized "AUTH_INVALID_CREDENTIALS"), w1)) /\
      (argon2_verify newHash (in_password input) = Ok true ->
       user_status user <> suspended ->
       (forall c, mfaSettings (db w) !! user_id user = Some c -> mfa_activatedAt c = None) ->
       refreshTokens (db w1) !! uuids w1 (uuidsDrawn w1) = None ->
       exists tokens w2,
         login input ctx1 w1
         = (Ok (authenticated user tokens
                  (repository.is_some (user_emailVerifiedAt user)) None), w2)).
Proof.
  cbv zeta. intros Hrec Hfresh Hlive Hown Huser Hno Hfind.
  pose proof (findUserByEmail_found _ _ _ _ Hfind) as Hcred.
  destruct (resetPassword_run token newPassword ctx w record user oldHash)
    as (w' & Hrun & _ & Hpw & Husers & Hmfa & _); try assumption.
  { rewrite Hown. exact Huser. }
  exists w'. split; [exact Hrun|]. intros ctx1 w1 Hdb.
  assert (fst (repository.findUserByEmail (normalizeEmail (in_email input)) w1)
          = Ok (Some (user,
                      argon2_hash (map (entropy w) (seq (bytesDrawn w) 16)) newPassword)))
    as Hfind1.
  { eapply findUserByEmail_new_hash; [exact Hfind | |]; rewrite Hdb; assumption. }
  unfold login. rewrite Hno.
  erewrite bind_run by (apply findUserByEmail_run; exact Hfind1).
  unfold argon2Verify. split.
  - intros ->. reflexivity.
  - intros -> Hstatus Hnomfa Hnewid. steps. cbn [negb].
    replace (match user_status user with suspended => true | _ => false end) with false
      by (destruct (user_status user); congruence).
    erewrite bind_run
      by (apply getActiveMfaConfiguration_inactive; rewrite Hdb, Hmfa; exact Hnomfa).
    destruct (issueSession_first user ctx1 (in_rememberMe input) w1 Hnewid)
      as (access & Hissue).
    erewrite bind_run by exact Hissue.
    unfold repository.updateLastLogin, repository.createAuditEvent. steps. world_simpl.
    rewrite Hdb, Husers, Huser. steps. world_simpl.
    do 2 eexists. reflexivity.
Qed.

End PasswordReset.

(** ** The base32 codec *)

Lemma toUint32_toInt32 x : toUint32 (toInt32 x) = x mod 4294967296.
Proof. unfold toUint32, toInt32. Z.div_mod_to_equations. lia. Qed.

Lemma lor_low_bits a c k :
  0 <= k -> a mod 2 ^ k = 0 -> 0 <= c < 2 ^ k -> Z.lor a c = a + c.
Proof.
  intros Hk Ha Hc.
  assert (Z.land a c = 0) as Hland.
  { apply Z.bits_inj'. intros n Hn. rewrite Z.land_spec, Z.bits_0.
    destruct (Z.ltb_spec n k) as [Hlt|Hge].
    - rewrite <- (Z.mod_pow2_bits_low a k n) by lia. rewrite Ha, Z.bits_0. reflexivity.
    - rewrite <- (Z.mod_small c (2 ^ k)) by lia.
      rewrite Z.mod_pow2_bits_high by lia. apply andb_false_r. }
  rewrite <- Z.lxor_lor, <- Z.add_nocarry_lxor by assumption. reflexivity.
Qed.

(** [(value << 8) | byte] and [(value << 5) | index], modulo 2^32. *)
Lemma shift_in_byte v b :
  0 <= b < 256 -> toUint32 (js_or (js_shl v 8) b) = (v * 256 + b) mod 4294967296.
Proof.
  intros Hb. unfold js_or, js_shl. change (8 mod 32) with 8.
  rewrite Z.shiftl_mul_pow2 by lia. change (2 ^ 8) with 256.
  rewrite (toInt32_small b) by lia.
  rewrite (lor_low_bits (toInt32 (toInt32 (v * 256))) b 8) by
    (try lia; unfold toInt32; change (2 ^ 8) with 256; Z.div_mod_to_equations; lia).
  rewrite toUint32_toInt32. unfold toInt32. Z.div_mod_to_equations. lia.
Qed.

Lemma shift_in_index v i :
  0 <= i < 32 -> toUint32 (js_or (js_shl v 5) i) = (v * 32 + i) mod 4294967296.
Proof.
  intros Hi. unfold js_or, js_shl. change (5 mod 32) with 5.
  rewrite Z.shiftl_mul_pow2 by lia. change (2 ^ 5) with 32.
  rewrite (toInt32_small i) by lia.
  rewrite (lor_low_bits (toInt32 (toInt32 (v * 32))) i 5) by
    (try lia; unfold toInt32; change (2 ^ 5) with 32; Z.div_mod_to_equations; lia).
  rewrite toUint32_toInt32. unfold toInt32. Z.div_mod_to_equations. lia.
Qed.

(** [(x >>> s) & (2^n - 1)] reads [n] bits of [x] from bit [s] on. *)
Lemma read_bits x s n :
  0 <= s < 32 -> 0 <= n < 32 ->
  js_and (js_ushr x s) (2 ^ n - 1) = (toUint32 x / 2 ^ s) mod 2 ^ n.
Proof.
  intros Hs Hn. unfold js_and, js_ushr. rewrite (Z.mod_small s 32) by lia.
  rewrite Z.shiftr_div_pow2 by lia.
  assert (0 < 2 ^ n <= 2 ^ 31) as Hpow.
  { split; [apply Z.pow_pos_nonneg; lia | apply Z.pow_le_mono_r; lia]. }
  change (2 ^ 31) with 2147483648 in Hpow.
  rewrite (toInt32_small (2 ^ n - 1)) by lia.
  replace (2 ^ n - 1) with (Z.ones n) by (rewrite Z.ones_equiv; lia).
  rewrite Z.land_ones by lia.
  set (y := toUint32 x / 2 ^ s).
  assert (toInt32 y mod 2 ^ n = y mod 2 ^ n) as ->.
  { unfold toInt32.
    replace ((y + 2147483648) mod 4294967296 - 2147483648)
      with (y + (- ((y + 2147483648) / 4294967296) * 2 ^ (32 - n)) * 2 ^ n).
    - apply Z_mod_plus_full.
    - rewrite <- Z.mul_assoc, <- Z.pow_add_r by lia.
      replace (32 - n + n) with 32 by lia. change (2 ^ 32) with 4294967296.
      pose proof (Z.div_mod (y + 2147483648) 4294967296 ltac:(lia)). lia. }
  apply toInt32_small.
  pose proof (Z.mod_pos_bound y (2 ^ n) ltac:(lia)). lia.
Qed.

Lemma read_five x s :
  0 <= s < 32 -> js_and (js_ushr x s) 31 = (toUint32 x / 2 ^ s) mod 32.
Proof. intros Hs. exact (read_bits x s 5 Hs ltac:(lia)). Qed.

Lemma read_eight x s :
  0 <= s < 32 -> js_and (js_ushr x s) 255 = (toUint32 x / 2 ^ s) mod 256.
Proof. intros Hs. exact (read_bits x s 8 Hs ltac:(lia)). Qed.

(** The last, padded group: [(value << k) & 31]. *)
Lemma read_padded v k :
  0 <= k < 32 -> js_and (js_shl v k) 31 = (v * 2 ^ k) mod 32.
Proof.
  intros Hk. unfold js_and, js_shl. rewrite (Z.mod_small k 32) by lia.
  rewrite Z.shiftl_mul_pow2 by lia. rewrite (toInt32_small 31) by lia.
  change 31 with (Z.ones 5). rewrite Z.land_ones by lia. change (2 ^ 5) with 32.
  set (y := v * 2 ^ k).
  assert (toInt32 (toInt32 y) mod 32 = y mod 32) as ->
    by (unfold toInt32; Z.div_mod_to_equations; lia).
  apply toInt32_small. Z.div_mod_to_equations. lia.
Qed.

(** Each index selects a character of the alphabet, which the decoder keeps
    and maps back to the index. *)
Lemma alphabet_at_index i :
  0 <= i < 32 ->
  exists c, alphabet_at i = String c "" /\ is_base32_char c = true /\
            toUpperChar c = c /\ alphabet_indexOf c = i.
Proof.
  intros Hi.
  assert (i = 0 \/ i = 1 \/ i = 2 \/ i = 3 \/ i = 4 \/ i = 5 \/ i = 6 \/ i = 7 \/
          i = 8 \/ i = 9 \/ i = 10 \/ i = 11 \/ i = 12 \/ i = 13 \/ i = 14 \/ i = 15 \/
          i = 16 \/ i = 17 \/ i = 18 \/ i = 19 \/ i = 20 \/ i = 21 \/ i = 22 \/ i = 23 \/
          i = 24 \/ i = 25 \/ i = 26 \/ i = 27 \/ i = 28 \/ i = 29 \/ i = 30 \/ i = 31)
    as Hc by lia.
  repeat (destruct Hc as [-> | Hc]; [eexists; repeat split; reflexivity|]).
  subst. eexists; repeat split; reflexivity.
Qed.

Lemma string_to_list_app a b :
  string_to_list (a +:+ b) = string_to_list a ++ string_to_list b.
Proof. induction a as [|c a IH]; simpl; [reflexivity|]. now rewrite IH. Qed.

Lemma string_filter_app p a b :
  string_filter p (a +:+ b) = string_filter p a +:+ string_filter p b.
Proof.
  induction a as [|c a IH]; simpl; [reflexivity|].
  rewrite IH. destruct (p c); reflexivity.
Qed.

(** One step of the decoder on the character of index [i]. *)
Lemma base32Decode_char c i rest bits value bytes :
  alphabet_indexOf c = i -> 0 <= i < 32 ->
  base32Decode_loop (c :: rest) bits value bytes
  = if 8 <=? bits + 5
    then base32Decode_loop rest (bits + 5 - 8) (js_or (js_shl value 5) i)
           (bytes ++ [js_and (js_ushr (js_or (js_shl value 5) i) (bits + 5 - 8)) 255])
    else base32Decode_loop rest (bits + 5) (js_or (js_shl value 5) i) bytes.
Proof.
  intros Hc Hi. cbn [base32Decode_loop]. rewrite Hc.
  replace (i =? -1) with false by (symmetry; apply Z.eqb_neq; lia). reflexivity.
Qed.


Section Base32RoundTrip.
Local Opaque js_and js_or js_shl js_ushr alphabet_at alphabet_indexOf.

Ltac norm_closed e :=
  let r := eval vm_compute in e in
  change e with r in *.

Ltac norm_consts :=
  repeat match goal with
    | |- context [Z.add (Zpos ?a) (Zpos ?b)] => norm_closed (Z.add (Zpos a) (Zpos b))
    | |- context [Z.add Z0 (Zpos ?b)] => norm_closed (Z.add Z0 (Zpos b))
    | |- context [Z.sub (Zpos ?a) (Zpos ?b)] => norm_closed (Z.sub (Zpos a) (Zpos b))
    | |- context [Z.leb (Zpos ?a) (Zpos ?b)] => norm_closed (Z.leb (Zpos a) (Zpos b))
    | |- context [Z.pow (Zpos ?a) (Zpos ?b)] => norm_closed (Z.pow (Zpos a) (Zpos b))
    | |- context [Z.pow (Zpos ?a) Z0] => norm_closed (Z.pow (Zpos a) Z0)
    | H : context [Z.add (Zpos ?a) (Zpos ?b)] |- _ => norm_closed (Z.add (Zpos a) (Zpos b))
    | H : context [Z.add Z0 (Zpos ?b)] |- _ => norm_closed (Z.add Z0 (Zpos b))
    | H : context [Z.sub (Zpos ?a) (Zpos ?b)] |- _ => norm_closed (Z.sub (Zpos a) (Zpos b))
    | H : context [Z.pow (Zpos ?a) (Zpos ?b)] |- _ => norm_closed (Z.pow (Zpos a) (Zpos b))
    | H : context [Z.pow (Zpos ?a) Z0] |- _ => norm_closed (Z.pow (Zpos a) Z0)
    end.

Ltac side := first [lia | apply Z.mod_pos_bound; lia | Z.div_mod_to_equations; lia].

Ltac to_arith :=
  repeat first
    [ rewrite read_five by lia
    | rewrite read_eight by lia
    | rewrite read_padded by lia
    | rewrite shift_in_byte by side
    | rewrite shift_in_index by side ];
  norm_consts;
  repeat match goal with
    | |- context [js_or (js_shl ?x 5) ?c] =>
        let Hw := fresh "Hw" in
        pose proof (shift_in_index x c ltac:(side)) as Hw;
        let w := fresh "w" in
        set (w := js_or (js_shl x 5) c) in *; clearbody w
    | |- context [js_or (js_shl ?x 8) ?c] =>
        let Hw := fresh "Hw" in
        pose proof (shift_in_byte x c ltac:(side)) as Hw;
        let w := fresh "w" in
        set (w := js_or (js_shl x 8) c) in *; clearbody w
    end.

(** The index of the first group emitted after [byte] is shifted in. *)
Lemma first_index_range v b s :
  0 <= s < 32 -> 0 <= js_and (js_ushr (js_or (js_shl v 8) b) s) 31 < 32.
Proof. intros Hs. rewrite read_five by lia. apply Z.mod_pos_bound. lia. Qed.

Lemma padded_index_range v k : 0 <= k < 32 -> 0 <= js_and (js_shl v k) 31 < 32.
Proof. intros Hk. rewrite read_padded by lia. apply Z.mod_pos_bound. lia. Qed.

(** Shifting one byte in emits one group when fewer than two bits were
    pending, and two groups otherwise. *)
Lemma base32Encode_step b rest p v out :
  0 <= p < 5 ->
  base32Encode_loop (b :: rest) p v out
  = let v1 := js_or (js_shl v 8) b in
    let first := alphabet_at (js_and (js_ushr v1 (p + 3)) 31) in
    if p <? 2 then base32Encode_loop rest (p + 3) v1 (out +:+ first)
    else base32Encode_loop rest (p - 2) v1
           ((out +:+ first) +:+ alphabet_at (js_and (js_ushr v1 (p - 2)) 31)).
Proof.
  intros Hp.
  assert (p = 0 \/ p = 1 \/ p = 2 \/ p = 3 \/ p = 4) as [-> | [-> | [-> | [-> | ->]]]]
    by lia; reflexivity.
Qed.

Lemma base32_codec rest :
  Forall (fun b => 0 <= b < 256) rest ->
  forall done p v out q vd bs,
    0 <= p < 5 ->
    (forall more,
       base32Decode_loop (string_to_list out ++ more) 0 0 []
       = base32Decode_loop more q vd bs) ->
    string_forallb is_base32_char out = true -> toUpperCase out = out ->
    5 * Z.of_nat (String.length out) + p = 8 * Z.of_nat (length done) ->
    (p = 0 /\ q = 0 /\ bs = done \/
     0 < p /\ q = 8 - p /\
     exists init last,
       done = init ++ [last] /\ 0 <= last < 256 /\ bs = init /\
       toUint32 vd mod 2 ^ q = last / 2 ^ p /\ toUint32 v mod 2 ^ p = last mod 2 ^ p) ->
    let '(p', v', out') := base32Encode_loop rest p v out in
    let encoded :=
      if 0 <? p' then out' +:+ alphabet_at (js_and (js_shl v' (5 - p')) 31) else out' in
    base32Decode_loop (string_to_list encoded) 0 0 [] = Ok (done ++ rest) /\
    string_forallb is_base32_char encoded = true /\ toUpperCase encoded = encoded /\
    Z.of_nat (String.length encoded) = (8 * Z.of_nat (length (done ++ rest)) + 4) / 5.
Proof.
  induction 1 as [|b rest Hb Hrest IH]; intros done p v out q vd bs Hp Hdec Hchars Hupper Hlen Hrel.
  - cbn [base32Encode_loop]. rewrite app_nil_r.
    destruct Hrel as [(-> & -> & ->) | (Hpos & -> & init & last & -> & Hlast & -> & Hvd & Hv)].
    + cbn [Z.ltb Z.compare]. split; [|split; [|split]]; try assumption.
      * specialize (Hdec []). rewrite app_nil_r in Hdec. exact Hdec.
      * Z.div_mod_to_equations. lia.
    + replace (0 <? p) with true by (symmetry; apply Z.ltb_lt; lia).
      destruct (alphabet_at_index (js_and (js_shl v (5 - p)) 31))
        as (c & Hc & Hc32 & Hcup & Hcidx); [apply padded_index_range; lia|].
      rewrite Hc. split; [|split; [|split]].
      * rewrite string_to_list_app. cbn [string_to_list]. rewrite Hdec.
        rewrite (base32Decode_char c _ [] _ _ _ Hcidx) by (apply padded_index_range; lia).
        replace (8 <=? 8 - p + 5) with true by (symmetry; apply Z.leb_le; lia).
        cbn [base32Decode_loop]. do 3 f_equal.
        assert (p = 1 \/ p = 2 \/ p = 3 \/ p = 4) as [-> | [-> | [-> | ->]]] by lia;
          to_arith; unfold toUint32 in *; Z.div_mod_to_equations; lia.
      * rewrite string_forallb_app, Hchars. cbn. now rewrite Hc32.
      * rewrite toUpperCase_app, Hupper. cbn. now rewrite Hcup.
      * rewrite string_length_app. cbn [String.length].
        rewrite length_app in *. cbn [length] in *. Z.div_mod_to_equations. lia.
  - rewrite base32Encode_step by lia. cbv zeta.
    replace (done ++ b :: rest) with ((done ++ [b]) ++ rest) by (now rewrite <- app_assoc).
    destruct (alphabet_at_index (js_and (js_ushr (js_or (js_shl v 8) b) (p + 3)) 31))
      as (c1 & Hc1 & Hc1a & Hc1u & Hc1i); [apply first_index_range; lia|].
    rewrite Hc1.
    assert (0 <= js_and (js_ushr (js_or (js_shl v 8) b) (p + 3)) 31 < 32) as Hi1
      by (apply first_index_range; lia).
    assert (p = 0 \/ p = 1 \/ p = 2 \/ p = 3 \/ p = 4) as Hcases by lia.
    destruct Hcases as [-> | [-> | Hcases]].
    + (* no pending bits: one group, five bits left with the decoder *)
      destruct Hrel as [(_ & -> & ->) | (Hpos & _)]; [|lia].
      norm_consts. eapply IH; clear IH.
      * lia.
      * intros more. rewrite string_to_list_app. cbn [string_to_list].
        rewrite <- app_assoc. cbn [app]. rewrite Hdec.
        rewrite (base32Decode_char c1 _ more _ _ _ Hc1i) by exact Hi1.
        norm_consts. reflexivity.
      * rewrite string_forallb_app, Hchars. cbn. now rewrite Hc1a.
      * rewrite toUpperCase_app, Hupper. cbn. now rewrite Hc1u.
      * rewrite string_length_app, length_app. cbn [String.length length]. lia.
      * right. split; [lia|]. split; [reflexivity|]. exists done, b.
        split; [reflexivity|]. split; [assumption|]. split; [reflexivity|].
        to_arith. unfold toUint32 in *. split; Z.div_mod_to_equations; lia.
    + (* one pending bit: one group, which completes the pending byte *)
      destruct Hrel as [(Hp0 & _) | (_ & -> & init & last & -> & Hlast & -> & Hvd & Hv)];
        [lia|].
      norm_consts. eapply IH; clear IH.
      * lia.
      * intros more. rewrite string_to_list_app. cbn [string_to_list].
        rewrite <- app_assoc. cbn [app]. rewrite Hdec.
        rewrite (base32Decode_char c1 _ more _ _ _ Hc1i) by exact Hi1.
        norm_consts. reflexivity.
      * rewrite string_forallb_app, Hchars. cbn. now rewrite Hc1a.
      * rewrite toUpperCase_app, Hupper. cbn. now rewrite Hc1u.
      * rewrite string_length_app, !length_app in *. cbn [String.length length] in *. lia.
      * right. split; [lia|]. split; [reflexivity|]. exists (init ++ [last]), b.
        split; [reflexivity|]. split; [assumption|].
        to_arith. unfold toUint32 in *.
        split; [do 2 f_equal|split]; Z.div_mod_to_equations; lia.
    + (* two to four pending bits: two groups *)
      replace (p <? 2) with false by (symmetry; apply Z.ltb_ge; lia).
      destruct (alphabet_at_index (js_and (js_ushr (js_or (js_shl v 8) b) (p - 2)) 31))
        as (c2 & Hc2 & Hc2a & Hc2u & Hc2i); [apply first_index_range; lia|].
      rewrite Hc2.
      assert (0 <= js_and (js_ushr (js_or (js_shl v 8) b) (p - 2)) 31 < 32) as Hi2
        by (apply first_index_range; lia).
      destruct Hrel as [(Hp0 & _) | (_ & -> & init & last & -> & Hlast & -> & Hvd & Hv)];
        [lia|].
      destruct Hcases as [-> | [-> | ->]]; norm_consts.
      all: eapply IH; clear IH;
        [ lia
        | intros more; rewrite !string_to_list_app; cbn [string_to_list];
          rewrite <- !app_assoc; cbn [app]; rewrite Hdec;
          rewrite (base32Decode_char c1 _ _ _ _ _ Hc1i) by exact Hi1; norm_consts;
          rewrite (base32Decode_char c2 _ _ _ _ _ Hc2i) by exact Hi2; norm_consts;
          reflexivity
        | rewrite !string_forallb_app, Hchars; cbn; now rewrite Hc1a, Hc2a
        | rewrite !toUpperCase_app, Hupper; cbn; now rewrite Hc1u, Hc2u
        | rewrite !string_length_app, !length_app in *; cbn [String.length length] in *; lia
        | ].
      * (* two pending bits: both bytes complete *)
        left. split; [reflexivity|]. split; [reflexivity|].
        rewrite <- !app_assoc. cbn [app]. do 2 f_equal; [|f_equal].
        all: to_arith; unfold toUint32 in *; Z.div_mod_to_equations; lia.
      * right. split; [lia|]. split; [reflexivity|]. exists (init ++ [last]), b.
        split; [reflexivity|]. split; [assumption|].
        to_arith. unfold toUint32 in *.
        split; [do 2 f_equal|split]; Z.div_mod_to_equations; lia.
      * right. split; [lia|]. split; [reflexivity|]. exists (init ++ [last]), b.
        split; [reflexivity|]. split; [assumption|].
        to_arith. unfold toUint32 in *.
        split; [do 2 f_equal|split]; Z.div_mod_to_equations; lia.
Qed.



End Base32RoundTrip.


Lemma string_filter_all p s : string_forallb p s = true -> string_filter p s = s.
Proof.
  induction s as [|c s IH]; simpl; [reflexivity|].
  intros Hs. apply andb_prop in Hs as [Hc Hs]. now rewrite Hc, IH.
Qed.

Lemma base32_codec_whole bytes :
  Forall (fun b => 0 <= b < 256) bytes ->
  base32Decode (base32Encode bytes) = Ok bytes /\
  string_forallb is_base32_char (base32Encode bytes) = true /\
  toUpperCase (base32Encode bytes) = base32Encode bytes /\
  Z.of_nat (String.length (base32Encode bytes)) = (8 * Z.of_nat (length bytes) + 4) / 5.
Proof.
  intros Hbytes.
  pose proof (base32_codec bytes Hbytes [] 0 0 "" 0 0 []) as Hcodec.
  unfold base32Decode, base32Encode.
  destruct (base32Encode_loop bytes 0 0 "") as [[p v] out].
  cbv zeta in Hcodec. cbn [app] in Hcodec.
  destruct Hcodec as (Hdec & Hchars & Hupper & Hlen);
    [lia | reflexivity | reflexivity | reflexivity | reflexivity | left; auto |].
  rewrite Hupper, string_filter_all by exact Hchars. auto.
Qed.

(** X14. The base32 codec round-trips: decoding the encoding of any buffer
    gives the buffer back. The encoding of [n] bytes has ceil(8n/5)
    characters, all of them from the alphabet A-Z, 2-7. *)
Theorem base32_round_trip bytes :
  Forall (fun b => 0 <= b < 256) bytes ->
  base32Decode (base32Encode bytes) = Ok bytes /\
  Z.of_nat (String.length (base32Encode bytes)) = (8 * Z.of_nat (length bytes) + 4) / 5 /\
  string_forallb is_base32_char (base32Encode bytes) = true.
Proof.
  intros Hbytes. destruct (base32_codec_whole bytes Hbytes) as (Hdec & Hchars & _ & Hlen).
  auto.
Qed.

Lemma base32_round_trip_witness :
  Forall (fun b => 0 <= b < 256) [72; 101; 108; 108; 111; 33; 222; 173; 190; 239] /\
  base32Encode [72; 101; 108; 108; 111; 33; 222; 173; 190; 239] = "JBSWY3DPEHPK3PXP" /\
  base32Decode "JBSWY3DPEHPK3PXP" = Ok [72; 101; 108; 108; 111; 33; 222; 173; 190; 239].
Proof.
  assert (Forall (fun b => 0 <= b < 256) [72; 101; 108; 108; 111; 33; 222; 173; 190; 239])
    as Hbytes by (repeat constructor; lia).
  split; [exact Hbytes|]. split; [reflexivity|].
  exact (proj1 (base32_round_trip _ Hbytes)).
Defined.

(** X15. [createTotpSecret] draws max(10, size) bytes, twenty when no size is
    given, and returns them with their base32 encoding: a secret of
    ceil(8n/5) characters (32 by default) that decodes back to the buffer. *)
Theorem createTotpSecret_decodes size w :
  (forall n, 0 <= entropy w n < 256) ->
  let n := Z.max 10 (nullish size 20) in
  exists secret buffer,
    createTotpSecret size w = (Ok (secret, buffer), drawBytes (Z.to_nat n) w) /\
    buffer = map (entropy w) (seq (bytesDrawn w) (Z.to_nat n)) /\
    base32Decode secret = Ok buffer /\
    Z.of_nat (String.length secret) = (8 * n + 4) / 5 /\
    (size = None -> String.length secret = 32%nat) /\
    string_forallb is_base32_char secret = true.
Proof.
  intros Hentropy. cbv zeta. unfold createTotpSecret. steps.
  set (n := Z.max 10 (nullish size 20)).
  set (buffer := map (entropy w) (seq (bytesDrawn w) (Z.to_nat n))).
  assert (Forall (fun b => 0 <= b < 256) buffer) as Hbytes.
  { apply List.Forall_forall. intros b Hin. apply in_map_iff in Hin as (i & <- & _).
    apply Hentropy. }
  destruct (base32_codec_whole buffer Hbytes) as (Hdec & Hchars & _ & Hlen).
  assert (Z.of_nat (length buffer) = n) as Hn
    by (unfold buffer; rewrite length_map, length_seq; lia).
  rewrite Hn in Hlen.
  do 2 eexists. split; [reflexivity|]. split; [reflexivity|]. split; [exact Hdec|].
  split; [exact Hlen|]. split; [|exact Hchars].
  intros Hsize. subst n size. change ((8 * Z.max 10 (nullish None 20) + 4) / 5) with 32 in Hlen.
  lia.
Qed.

(** ** Sealing and opening the TOTP secret *)

Section SealingRoundTrip.
Context `{NodeModules} `{NodeCipher}.

Lemma utf8_round_trip s : utf8_toString (utf8_bytes s) = s.
Proof.
  unfold utf8_bytes. induction s as [|c s IH]; [reflexivity|].
  cbn [string_to_list map utf8_toString fold_right]. fold (utf8_toString (map ord (string_to_list s))).
  rewrite IH. f_equal. unfold chr, ord. rewrite N2Z.id. apply ascii_N_embedding.
Qed.

Lemma decodeKey_ok keyBase64 :
  length (base64_decode keyBase64) = 32%nat ->
  decodeKey keyBase64 = Ok (base64_decode keyBase64).
Proof. intros Hkey. unfold decodeKey. now rewrite Hkey. Qed.

(** What [encryptSecret] returns: the printed nonce, tag and ciphertext. *)
Lemma encryptSecret_run plainText keyBase64 w :
  length (base64_decode keyBase64) = 32%nat ->
  let key := base64_decode keyBase64 in
  let iv := map (entropy w) (seq (bytesDrawn w) IV_LENGTH) in
  let sealed := aes_256_gcm_cipher key iv (utf8_bytes plainText) in
  encryptSecret plainText keyBase64 w
  = (Ok (base64_encode (iv ++ snd sealed ++ fst sealed)), drawBytes IV_LENGTH w).
Proof.
  intros Hkey. cbv zeta. unfold encryptSecret. rewrite decodeKey_ok by assumption.
  steps. destruct (aes_256_gcm_cipher _ _ _) as [encrypted authTag]. reflexivity.
Qed.

(** The framing of [decryptSecret] takes a payload apart the way
    [encryptSecret] put it together. *)
Lemma decryptSecret_frames keyBase64 iv authTag ciphertext payload :
  length (base64_decode keyBase64) = 32%nat ->
  length iv = IV_LENGTH -> length authTag = AUTH_TAG_LENGTH ->
  base64_decode payload = iv ++ authTag ++ ciphertext ->
  decryptSecret payload keyBase64
  = match aes_256_gcm_decipher (base64_decode keyBase64) iv authTag ciphertext with
    | Throw e => Throw e
    | Ok decrypted => Ok (utf8_toString decrypted)
    end.
Proof.
  intros Hkey Hiv Htag Hpayload. unfold decryptSecret.
  rewrite decodeKey_ok by assumption. rewrite Hpayload.
  replace (length (iv ++ authTag ++ ciphertext) <? IV_LENGTH + AUTH_TAG_LENGTH)%nat
    with false by (symmetry; apply Nat.ltb_ge; rewrite !length_app; lia).
  rewrite <- Hiv, <- Htag.
  rewrite take_app_length, drop_app_length, take_app_length.
  rewrite <- drop_drop, !drop_app_length. reflexivity.
Qed.

(** X16. What [encryptSecret] seals, [decryptSecret] opens: with a key of 32
    bytes, a cipher whose tag has 16 bytes and whose decipher undoes it, and
    a base64 printer that [Buffer.from] reads back, the payload is the
    printed 12-byte nonce, tag and ciphertext, and decrypting it under the
    same key returns the plaintext. A key of another length makes both fail
    with the same error, before any nonce is drawn; a payload of fewer than
    28 bytes is refused before the decipher sees it. *)
Theorem encryptSecret_decryptSecret plainText keyBase64 w :
  let key := base64_decode keyBase64 in
  let iv := map (entropy w) (seq (bytesDrawn w) IV_LENGTH) in
  let sealed := aes_256_gcm_cipher key iv (utf8_bytes plainText) in
  (length key = 32%nat ->
   length (snd sealed) = AUTH_TAG_LENGTH ->
   base64_decode (base64_encode (iv ++ snd sealed ++ fst sealed))
   = iv ++ snd sealed ++ fst sealed ->
   aes_256_gcm_decipher key iv (snd sealed) (fst sealed) = Ok (utf8_bytes plainText) ->
   exists payload,
     encryptSecret plainText keyBase64 w = (Ok payload, drawBytes IV_LENGTH w) /\
     decryptSecret payload keyBase64 = Ok plainText) /\
  (length key <> 32%nat ->
   encryptSecret plainText keyBase64 w
   = (Throw (NodeError "MFA_ENCRYPTION_KEY must decode to 32 bytes"), w) /\
   forall payload,
     decryptSecret payload keyBase64
     = Throw (NodeError "MFA_ENCRYPTION_KEY must decode to 32 bytes")) /\
  (forall payload,
     length key = 32%nat ->
     (length (base64_decode payload) < IV_LENGTH + AUTH_TAG_LENGTH)%nat ->
     decryptSecret payload keyBase64 = Throw (NodeError "Encrypted payload is too short")).
Proof.
  cbv zeta. split; [|split].
  - intros Hkey Htag Hprint Hopen. eexists. split; [now apply encryptSecret_run|].
    cbv zeta. erewrite decryptSecret_frames; try eassumption.
    + rewrite Hopen. now rewrite utf8_round_trip.
    + now rewrite length_map, length_seq.
  - intros Hkey. apply Nat.eqb_neq in Hkey.
    unfold encryptSecret, decryptSecret, decodeKey. rewrite Hkey. split; reflexivity.
  - intros payload Hkey Hshort. unfold decryptSecret.
    rewrite decodeKey_ok by assumption. apply Nat.ltb_lt in Hshort. now rewrite Hshort.
Qed.

End SealingRoundTrip.

(** ** Starting an MFA enrolment *)

Section Enrolment.
Context `{NodeModules} `{Env} `{NodeCipher} `{EnvRest} `{EmailService}.


End Enrolment.

(** ** Normalised e-mail addresses *)

Lemma toLowerChar_idempotent c : toLowerChar (toLowerChar c) = toLowerChar c.
Proof. destruct c as [[] [] [] [] [] [] [] []]; reflexivity. Qed.

Lemma is_space_toLowerChar c : is_space (toLowerChar c) = is_space c.
Proof. destruct c as [[] [] [] [] [] [] [] []]; reflexivity. Qed.

Lemma toLowerCase_idempotent s : toLowerCase (toLowerCase s) = toLowerCase s.
Proof.
  induction s as [|c s IH]; [reflexivity|].
  cbn [toLowerCase]. now rewrite toLowerChar_idempotent, IH.
Qed.

Lemma trimStart_toLowerCase s : trimStart (toLowerCase s) = toLowerCase (trimStart s).
Proof.
  induction s as [|c s IH]; [reflexivity|].
  cbn [toLowerCase trimStart]. rewrite is_space_toLowerChar.
  destruct (is_space c); [exact IH | reflexivity].
Qed.

Lemma trimEnd_toLowerCase s : trimEnd (toLowerCase s) = toLowerCase (trimEnd s).
Proof.
  induction s as [|c s IH]; [reflexivity|].
  cbn [toLowerCase trimEnd]. rewrite IH, is_space_toLowerChar.
  destruct (trimEnd s) as [|d r]; cbn [toLowerCase]; [|reflexivity].
  destruct (is_space c); reflexivity.
Qed.

Lemma trimEnd_idempotent s : trimEnd (trimEnd s) = trimEnd s.
Proof.
  induction s as [|c s IH]; [reflexivity|].
  cbn [trimEnd]. destruct (trimEnd s) as [|d r] eqn:Hs.
  - destruct (is_space c) eqn:Hc; [reflexivity|]. cbn [trimEnd]. now rewrite Hc.
  - change (trimEnd (String c (String d r)))
      with (match trimEnd (String d r) with
            | EmptyString => if is_space c then "" else String c ""
            | String a b => String c (String a b)
            end).
    now rewrite IH.
Qed.

(** A trimmed string does not start with white space. *)
Lemma trimStart_trimEnd_trimStart s : trimStart (trimEnd (trimStart s)) = trimEnd (trimStart s).
Proof.
  induction s as [|c s IH]; [reflexivity|].
  cbn [trimStart]. destruct (is_space c) eqn:Hc; [exact IH|].
  cbn [trimEnd]. destruct (trimEnd s) as [|d r]; rewrite ?Hc; cbn [trimStart];
    now rewrite Hc.
Qed.

Lemma trim_idempotent s : trim (trim s) = trim s.
Proof. unfold trim. now rewrite trimStart_trimEnd_trimStart, trimEnd_idempotent. Qed.

Lemma normalizeEmail_idempotent s : normalizeEmail (normalizeEmail s) = normalizeEmail s.
Proof.
  unfold normalizeEmail, trim.
  now rewrite trimStart_toLowerCase, trimEnd_toLowerCase, toLowerCase_idempotent,
    trimStart_trimEnd_trimStart, trimEnd_idempotent.
Qed.

Lemma ascii_only_toLowerCase s : ascii_only (toLowerCase s) = ascii_only s.
Proof.
  unfold ascii_only. induction s as [|c s IH]; [reflexivity|].
  cbn [toLowerCase string_forallb]. rewrite IH. f_equal.
  destruct c as [[] [] [] [] [] [] [] []]; reflexivity.
Qed.

Lemma ascii_only_trimStart s : ascii_only s = true -> ascii_only (trimStart s) = true.
Proof.
  unfold ascii_only. induction s as [|c s IH]; [reflexivity|].
  cbn [trimStart string_forallb]. intros Hs.
  destruct (is_space c); [|exact Hs]. apply andb_prop in Hs as [_ Hs]. now apply IH.
Qed.

Lemma ascii_only_trimEnd s : ascii_only s = true -> ascii_only (trimEnd s) = true.
Proof.
  unfold ascii_only. induction s as [|c s IH]; [reflexivity|].
  cbn [trimEnd string_forallb]. intros Hs. apply andb_prop in Hs as [Hc Hs].
  specialize (IH Hs). destruct (trimEnd s) as [|d r].
  - destruct (is_space c); [reflexivity|]. cbn [string_forallb]. now rewrite Hc.
  - cbn [string_forallb] in *. now rewrite Hc, IH.
Qed.

(** Normalising an address of ASCII characters gives one. *)
Lemma ascii_only_normalizeEmail s :
  ascii_only s = true -> ascii_only (normalizeEmail s) = true.
Proof.
  intros Hs. unfold normalizeEmail, trim. rewrite ascii_only_toLowerCase.
  now apply ascii_only_trimEnd, ascii_only_trimStart.
Qed.

Section NormalisedLogin.
Context `{NodeModules} `{Env} `{NodeCipher} `{EnvRest} `{EmailService}.

(** X18. E-mail addresses of ASCII characters are matched in normalised
    form. The normal form of such an address is again made of ASCII
    characters, normalising it again changes nothing, it has no upper-case
    letter and no white space at either end, and [login] and
    [requestPasswordReset] answer an address and its normal form in the same
    way, with the same effects: upper case and surrounding white space in
    the address make no difference. *)
Theorem email_is_normalised input email ctx w :
  ascii_only email = true -> ascii_only (in_email input) = true ->
  ascii_only (normalizeEmail email) = true /\
  ascii_only (normalizeEmail (in_email input)) = true /\
  normalizeEmail (normalizeEmail email) = normalizeEmail email /\
  string_forallb (fun c => negb (is_upper c)) (normalizeEmail email) = true /\
  trim (normalizeEmail email) = normalizeEmail email /\
  login input ctx w
  = login {| in_email := normalizeEmail (in_email input); in_password := in_password input;
             in_rememberMe := in_rememberMe input; in_challengeId := in_challengeId input;
             in_mfaCode := in_mfaCode input; in_rememberDevice := in_rememberDevice input;
             in_rememberedDeviceToken := in_rememberedDeviceToken input |} ctx w /\
  requestPasswordReset email ctx w = requestPasswordReset (normalizeEmail email) ctx w.
Proof.
  intros Hemail Hinput.
  split; [now apply ascii_only_normalizeEmail|].
  split; [now apply ascii_only_normalizeEmail|].
  split; [apply normalizeEmail_idempotent|]. split; [|split; [|split]].
  - unfold normalizeEmail. generalize (trim email). intros s.
    induction s as [|c s IH]; [reflexivity|]. cbn [toLowerCase string_forallb].
    rewrite IH. destruct c as [[] [] [] [] [] [] [] []]; reflexivity.
  - unfold normalizeEmail, trim.
    now rewrite trimStart_toLowerCase, trimEnd_toLowerCase, trimStart_trimEnd_trimStart,
      trimEnd_idempotent.
  - unfold login. cbn [in_email in_password in_rememberMe in_challengeId in_mfaCode
                       in_rememberDevice in_rememberedDeviceToken].
    now rewrite normalizeEmail_idempotent.
  - unfold requestPasswordReset. now rewrite normalizeEmail_idempotent.
Qed.

End NormalisedLogin.

(** ** The enrolment markup *)

Lemma replaceAll_app c by_ a b :
  replaceAll c by_ (a +:+ b) = replaceAll c by_ a +:+ replaceAll c by_ b.
Proof.
  induction a as [|d a IH]; [reflexivity|].
  cbn [replaceAll]. change (String d a +:+ b) with (String d (a +:+ b)).
  cbn [replaceAll]. rewrite IH. symmetry. apply string_app_assoc.
Qed.

(** X19. [generateQrCodeSvg] escapes its data once, character by character:
    the three replacements in a row turn every ampersand into [&amp;], every
    [<] into [&lt;] and every [>] into [&gt;] and leave the other characters
    alone, so that the escaped text holds no angle bracket and the ampersands
    the later replacements write are not escaped again. The document is a
    fixed head, the escaped text, and a fixed tail. *)
Theorem generateQrCodeSvg_escapes data :
  let escape c :=
    if Ascii.eqb c "&" then "&amp;"
    else if Ascii.eqb c "<" then "&lt;"
    else if Ascii.eqb c ">" then "&gt;"
    else String c "" in
  let escaped := replaceAll ">" "&gt;" (replaceAll "<" "&lt;" (replaceAll "&" "&amp;" data)) in
  escaped = fold_right (fun c rest => escape c +:+ rest) "" (string_to_list data) /\
  string_forallb (fun c => negb (Ascii.eqb c "<" || Ascii.eqb c ">")) escaped = true /\
  exists head,
    generateQrCodeSvg data = head +:+ escaped +:+ "</text></svg>" /\
    generateQrCodeSvg "" = head +:+ "</text></svg>".
Proof.
  cbv zeta. split; [|split].
  - induction data as [|c data IH]; [reflexivity|].
    cbn [string_to_list fold_right].
    change (String c data) with (String c "" +:+ data).
    rewrite !replaceAll_app, IH.
    destruct c as [[] [] [] [] [] [] [] []]; reflexivity.
  - induction data as [|c data IH]; [reflexivity|].
    change (String c data) with (String c "" +:+ data).
    rewrite !replaceAll_app, string_forallb_app, IH.
    destruct c as [[] [] [] [] [] [] [] []]; reflexivity.
  - unfold generateQrCodeSvg. eexists. split.
    + rewrite <- !string_app_assoc. reflexivity.
    + cbn [replaceAll]. rewrite <- !string_app_assoc. reflexivity.
Qed.

(** ** What no request undoes *)

Section KeepsLaws.
Context (R : Db -> Db -> Prop) (preorder : PreOrder R).

Lemma keeps_ret {A} (a : A) : keeps R (ret a).
Proof. intros w. reflexivity. Qed.

Lemma keeps_throw {A} e : keeps R (@throw A e).
Proof. intros w. reflexivity. Qed.

Lemma keeps_lift {A} (r : Result A) : keeps R (lift r).
Proof. intros w. reflexivity. Qed.

Lemma keeps_getDb : keeps R getDb.
Proof. intros w. reflexivity. Qed.

Lemma keeps_newDate : keeps R newDate.
Proof. intros w. reflexivity. Qed.

Lemma keeps_randomUUID : keeps R randomUUID.
Proof. intros w. reflexivity. Qed.

Lemma keeps_randomBytes n : keeps R (randomBytes n).
Proof. intros w. reflexivity. Qed.

Lemma keeps_bind {A B} (m : M A) (k : A -> M B) :
  keeps R m -> (forall a, keeps R (k a)) -> keeps R (bind m k).
Proof.
  intros Hm Hk w. unfold bind. specialize (Hm w).
  destruct (m w) as [[a|e] w1]; cbn [snd] in *; [|exact Hm].
  etransitivity; [exact Hm | apply Hk].
Qed.

Lemma keeps_catch_with {A} (m : M A) (value : A) : keeps R m -> keeps R (catch_with m value).
Proof.
  intros Hm w. unfold catch_with. specialize (Hm w).
  destruct (m w) as [[a|e] w1]; exact Hm.
Qed.

(** A method that only reads. *)
Lemma keeps_reads {A} (m : M A) : (forall w, db (snd (m w)) = db w) -> keeps R m.
Proof. intros Hm w. rewrite Hm. reflexivity. Qed.

End KeepsLaws.

Ltac keeps_step :=
  match goal with
  | |- keeps _ (bind _ _) => apply keeps_bind; [typeclasses eauto| |intros ?]
  | |- keeps _ (ret _) => apply keeps_ret; typeclasses eauto
  | |- keeps _ (throw _) => apply keeps_throw; typeclasses eauto
  | |- keeps _ (lift _) => apply keeps_lift; typeclasses eauto
  | |- keeps _ getDb => apply keeps_getDb; typeclasses eauto
  | |- keeps _ newDate => apply keeps_newDate; typeclasses eauto
  | |- keeps _ randomUUID => apply keeps_randomUUID; typeclasses eauto
  | |- keeps _ (randomBytes _) => apply keeps_randomBytes; typeclasses eauto
  | |- keeps _ (catch_with _ _) => apply keeps_catch_with
  | |- keeps _ (let '(_, _) := ?x in _) => destruct x
  | |- keeps _ (match ?x with _ => _ end) => destruct x
  | |- keeps _ (if ?b then _ else _) => destruct b
  | |- keeps _ _ => solve [auto]
  end.

Ltac keeps_steps := repeat keeps_step.

(** Every method of the service keeps a relation that the writes of the
    repository and the mailer keep. *)
Section Preservation.
Context `{NodeModules} `{Env} `{NodeCipher} `{EnvRest} `{EmailService}.
Context (R : Db -> Db -> Prop) `{!PreOrder R}.

Hypothesis keeps_saveRefreshToken : forall input, keeps R (repository.saveRefreshToken input).
Hypothesis keeps_revokeRefreshToken :
  forall id at_ by_, keeps R (repository.revokeRefreshToken id at_ by_).
Hypothesis keeps_revokeRefreshTokensForUser :
  forall userId at_, keeps R (repository.revokeRefreshTokensForUser userId at_).
Hypothesis keeps_consumePasswordResetToken :
  forall token at_, keeps R (repository.consumePasswordResetToken token at_).
Hypothesis keeps_createPasswordResetToken :
  forall userId token expiresAt, keeps R (createPasswordResetToken userId token expiresAt).
Hypothesis keeps_updatePasswordHash :
  forall userId hash at_, keeps R (repository.updatePasswordHash userId hash at_).
Hypothesis keeps_updateLastLogin :
  forall userId at_, keeps R (repository.updateLastLogin userId at_).
Hypothesis keeps_createAuditEvent : forall e, keeps R (repository.createAuditEvent e).
Hypothesis keeps_upsertMfaSetting :
  forall input, is_Some (repository.ums_activatedAt input) ->
    keeps R (repository.upsertMfaSetting input).
Hypothesis keeps_replaceMfaBackupCodes :
  forall userMfaId codes, keeps R (repository.replaceMfaBackupCodes userMfaId codes).
Hypothesis keeps_markBackupCodeUsed :
  forall id at_, keeps R (repository.markBackupCodeUsed id at_).
Hypothesis keeps_createMfaChallenge :
  forall input, keeps R (repository.createMfaChallenge input).
Hypothesis keeps_incrementMfaChallengeAttempts :
  forall id n, keeps R (repository.incrementMfaChallengeAttempts id n).
Hypothesis keeps_consumeMfaChallenge :
  forall id at_, keeps R (repository.consumeMfaChallenge id at_).
Hypothesis keeps_deleteMfaChallenge : forall id, keeps R (repository.deleteMfaChallenge id).
Hypothesis keeps_createRememberedDevice :
  forall input, keeps R (repository.createRememberedDevice input).
Hypothesis keeps_updateRememberedDevice :
  forall id at_ ip ua, keeps R (repository.updateRememberedDevice id at_ ip ua).
Hypothesis keeps_deleteExpiredRememberedDevices :
  forall userMfaId now, keeps R (repository.deleteExpiredRememberedDevices userMfaId now).
Hypothesis keeps_sendPasswordResetEmail :
  forall user token expiresAt, keeps R (sendPasswordResetEmail user token expiresAt).

Lemma keeps_findUserByEmail email : keeps R (repository.findUserByEmail email).
Proof. apply keeps_reads; [typeclasses eauto|]. intros w. now rewrite findUserByEmail_reads. Qed.

Lemma keeps_findUserById id : keeps R (repository.findUserById id).
Proof. unfold repository.findUserById. keeps_steps. Qed.

Lemma keeps_findRefreshTokenById id : keeps R (repository.findRefreshTokenById id).
Proof. unfold repository.findRefreshTokenById. keeps_steps. Qed.

Lemma keeps_findMfaChallengeById id : keeps R (repository.findMfaChallengeById id).
Proof. unfold repository.findMfaChallengeById. keeps_steps. Qed.

Lemma keeps_listMfaBackupCodes id : keeps R (repository.listMfaBackupCodes id).
Proof. unfold repository.listMfaBackupCodes. keeps_steps. Qed.

Lemma keeps_listRememberedDevices id : keeps R (repository.listRememberedDevices id).
Proof. unfold repository.listRememberedDevices. keeps_steps. Qed.

Lemma keeps_getActiveMfaConfiguration userId : keeps R (getActiveMfaConfiguration userId).
Proof.
  apply keeps_reads; [typeclasses eauto|]. intros w. now rewrite getActiveMfaConfiguration_reads.
Qed.

Lemma keeps_argon2Hash plain : keeps R (argon2Hash plain).
Proof. unfold argon2Hash. keeps_steps. Qed.

Lemma keeps_argon2Verify digest plain : keeps R (argon2Verify digest plain).
Proof. unfold argon2Verify. keeps_steps. Qed.

Lemma keeps_isValidTotpTokenNow secret code : keeps R (isValidTotpTokenNow secret code).
Proof. unfold isValidTotpTokenNow. keeps_steps. Qed.

Local Hint Resolve keeps_findUserByEmail keeps_findUserById keeps_findRefreshTokenById
  keeps_findMfaChallengeById keeps_listMfaBackupCodes keeps_listRememberedDevices
  keeps_getActiveMfaConfiguration keeps_argon2Hash keeps_argon2Verify
  keeps_isValidTotpTokenNow : core.

Lemma keeps_issueSession user ctx prev rememberMe :
  keeps R (issueSession user ctx prev rememberMe).
Proof. unfold issueSession. keeps_steps. Qed.

Local Hint Resolve keeps_issueSession : core.

Lemma keeps_refreshSession token ctx : keeps R (refreshSession token ctx).
Proof.
  unfold refreshSession, refreshSession_checks, refreshSession_rotate. keeps_steps.
Qed.

Lemma keeps_resetPassword token newPassword ctx : keeps R (resetPassword token newPassword ctx).
Proof. unfold resetPassword. keeps_steps. Qed.

Lemma keeps_registerFailedMfaAttempt ch ctx : keeps R (registerFailedMfaAttempt ch ctx).
Proof. unfold registerFailedMfaAttempt. keeps_steps. Qed.

Lemma keeps_generateBackupCodes n : keeps R (generateBackupCodes n).
Proof. induction n; cbn [generateBackupCodes]; keeps_steps. Qed.

Lemma keeps_hashBackupCodes codes : keeps R (hashBackupCodes codes).
Proof. induction codes; cbn [hashBackupCodes]; keeps_steps. Qed.

Local Hint Resolve keeps_registerFailedMfaAttempt keeps_generateBackupCodes
  keeps_hashBackupCodes : core.

Lemma keeps_completeSetupChallenge ch code ctx : keeps R (completeSetupChallenge ch code ctx).
Proof.
  unfold completeSetupChallenge. keeps_steps.
Qed.

Lemma keeps_consumeBackupCode_scan codes userMfaId userId code ctx :
  keeps R (consumeBackupCode_scan codes userMfaId userId code ctx).
Proof. induction codes; cbn [consumeBackupCode_scan]; keeps_steps. Qed.

Local Hint Resolve keeps_consumeBackupCode_scan : core.

Lemma keeps_completeLoginChallenge cid code rememberDevice ctx :
  keeps R (completeLoginChallenge cid code rememberDevice ctx).
Proof.
  unfold completeLoginChallenge, completeLoginChallenge_verify,
    completeLoginChallenge_finish, consumeBackupCode, createRememberedDevice.
  keeps_steps.
Qed.

Local Hint Resolve keeps_completeSetupChallenge keeps_completeLoginChallenge : core.

Lemma keeps_verifyMfaChallenge input ctx : keeps R (verifyMfaChallenge input ctx).
Proof. unfold verifyMfaChallenge. keeps_steps. Qed.

Lemma keeps_validateRememberedDevice_scan devices token now ctx :
  keeps R (validateRememberedDevice_scan devices token now ctx).
Proof. induction devices; cbn [validateRememberedDevice_scan]; keeps_steps. Qed.

Local Hint Resolve keeps_validateRememberedDevice_scan : core.

Lemma keeps_login input ctx : keeps R (login input ctx).
Proof. unfold login, validateRememberedDevice. keeps_steps. Qed.

Lemma keeps_requestPasswordReset email ctx : keeps R (requestPasswordReset email ctx).
Proof. unfold requestPasswordReset, generatePasswordResetToken. keeps_steps. Qed.

Lemma keeps_startMfaEnrollment user deviceName ctx :
  keeps R (startMfaEnrollment user deviceName ctx).
Proof.
  unfold startMfaEnrollment, createTotpSecret, encryptSecret. keeps_steps.
Qed.

End Preservation.


(** A write to the other tables. *)
Lemma grows_frame d d' :
  auditEvents d' = auditEvents d -> users d' = users d ->
  refreshTokens d' = refreshTokens d -> passwordResetTokens d' = passwordResetTokens d ->
  mfaSettings d' = mfaSettings d -> grows d d'.
Proof.
  intros Ha Hu Hr Hp Hm. split.
  - exists []. now rewrite app_nil_r.
  - intros id. now rewrite Hu.
  - intros id r Hin. rewrite Hr. eauto 10.
  - intros t r Hin. rewrite Hp. eauto 10.
  - intros uid s Hin. rewrite Hm. eauto 10.
Qed.

#[local] Instance grows_preorder : PreOrder grows.
Proof.
  split.
  - intros d. apply grows_frame; reflexivity.
  - intros d1 d2 d3 [Ha Hu Hr Hp Hm] [Ha' Hu' Hr' Hp' Hm']. split.
    + destruct Ha as [l Hl], Ha' as [l' Hl']. exists (l ++ l').
      rewrite Hl', Hl. now rewrite <- app_assoc.
    + intros id. now rewrite Hu', Hu.
    + intros id r Hin. destruct (Hr id r Hin) as (r1 & Hin1 & Hu1 & Hh1 & He1 & Hv1).
      destruct (Hr' id r1 Hin1) as (r2 & Hin2 & Hu2 & Hh2 & He2 & Hv2).
      exists r2. repeat split; try congruence. auto.
    + intros t r Hin. destruct (Hp t r Hin) as (r1 & Hin1 & Hu1 & He1 & Hc1).
      destruct (Hp' t r1 Hin1) as (r2 & Hin2 & Hu2 & He2 & Hc2).
      exists r2. repeat split; try congruence. auto.
    + intros uid s Hin. destruct (Hm uid s Hin) as (s1 & Hin1 & Hi1 & Ha1).
      destruct (Hm' uid s1 Hin1) as (s2 & Hin2 & Hi2 & Ha2).
      exists s2. repeat split; try congruence. auto.
Qed.

Ltac run_write :=
  let w := fresh "w" in
  intros w;
  repeat (steps; world_simpl;
          try match goal with
            | |- context [match ?x with _ => _ end] => destruct x eqn:?
            end);
  unfold ret, throw, modifyDb; cbn [snd]; world_simpl; try reflexivity.

Ltac framed := apply grows_frame; reflexivity.

Ltac grows_split :=
  split; world_simpl;
  try solve [ exists []; now rewrite app_nil_r
            | eexists; reflexivity
            | intros; reflexivity
            | intros; eauto 10 ].

Section GrowsWrites.
Context `{NodeModules} `{Env} `{NodeCipher} `{EnvRest} `{EmailService}.

Lemma grows_saveRefreshToken input : keeps grows (repository.saveRefreshToken input).
Proof.
  unfold repository.saveRefreshToken. run_write. grows_split.
  intros id r Hin. exists r. rewrite lookup_insert_ne by congruence. auto.
Qed.

Lemma grows_revokeRefreshToken id at_ by_ :
  keeps grows (repository.revokeRefreshToken id at_ by_).
Proof.
  unfold repository.revokeRefreshToken. run_write. grows_split.
  intros id' r' Hin. destruct (decide (id' = id)) as [->|Hne].
  - rewrite lookup_insert_eq. eexists. split; [reflexivity|].
    assert (r' = r) as -> by congruence. cbn. eauto.
  - rewrite lookup_insert_ne by congruence. eauto 10.
Qed.

Lemma grows_revokeRefreshTokensForUser userId at_ :
  keeps grows (repository.revokeRefreshTokensForUser userId at_).
Proof.
  unfold repository.revokeRefreshTokensForUser. run_write. grows_split.
  intros id r Hin. rewrite lookup_fmap, Hin. cbn.
  destruct (_ && _); eexists; (split; [reflexivity|]); cbn; eauto.
Qed.

Lemma grows_consumePasswordResetToken token at_ :
  keeps grows (repository.consumePasswordResetToken token at_).
Proof.
  unfold repository.consumePasswordResetToken. run_write. grows_split.
  intros t r Hin. destruct (decide (t = token)) as [->|Hne].
  - rewrite lookup_insert_eq. eexists. split; [reflexivity|]. cbn.
    assert (r = p) as -> by congruence. eauto.
  - rewrite lookup_insert_ne by congruence. eauto 10.
Qed.

Lemma grows_createPasswordResetToken userId token expiresAt :
  keeps grows (createPasswordResetToken userId token expiresAt).
Proof.
  unfold createPasswordResetToken. run_write. grows_split.
  intros t r Hin.
  destruct (passwordResetTokens (db w) !! token) as [r0|] eqn:Hr0; [discriminate|].
  rewrite lookup_insert_ne by congruence. eauto 10.
Qed.

Lemma grows_updatePasswordHash userId hash at_ :
  keeps grows (repository.updatePasswordHash userId hash at_).
Proof. unfold repository.updatePasswordHash. run_write. framed. Qed.

Lemma grows_updateLastLogin userId at_ : keeps grows (repository.updateLastLogin userId at_).
Proof.
  unfold repository.updateLastLogin. run_write. grows_split.
  intros id. destruct (decide (id = userId)) as [->|Hne].
  - rewrite lookup_insert_eq.
    match goal with Hu : users _ !! _ = Some _ |- _ => rewrite Hu end. reflexivity.
  - now rewrite lookup_insert_ne by congruence.
Qed.

Lemma grows_createAuditEvent e : keeps grows (repository.createAuditEvent e).
Proof. unfold repository.createAuditEvent. run_write. grows_split. Qed.

Lemma grows_upsertMfaSetting input :
  is_Some (repository.ums_activatedAt input) ->
  keeps grows (repository.upsertMfaSetting input).
Proof.
  intros Hactive. unfold repository.upsertMfaSetting. run_write; grows_split.
  - intros uid s Hin. destruct (decide (uid = repository.ums_userId input)) as [->|Hne].
    + rewrite lookup_insert_eq. eexists. split; [reflexivity|]. cbn.
      split; [congruence | auto].
    + rewrite lookup_insert_ne by congruence. eauto 10.
  - intros uid s Hin. rewrite lookup_insert_ne by congruence. eauto 10.
Qed.

Lemma grows_replaceMfaBackupCodes userMfaId codes :
  keeps grows (repository.replaceMfaBackupCodes userMfaId codes).
Proof. unfold repository.replaceMfaBackupCodes. run_write; framed. Qed.

Lemma grows_markBackupCodeUsed id at_ : keeps grows (repository.markBackupCodeUsed id at_).
Proof. unfold repository.markBackupCodeUsed. run_write. framed. Qed.

Lemma grows_createMfaChallenge input : keeps grows (repository.createMfaChallenge input).
Proof. unfold repository.createMfaChallenge. run_write. framed. Qed.

Lemma grows_incrementMfaChallengeAttempts id n :
  keeps grows (repository.incrementMfaChallengeAttempts id n).
Proof. unfold repository.incrementMfaChallengeAttempts. run_write. framed. Qed.

Lemma grows_consumeMfaChallenge id at_ : keeps grows (repository.consumeMfaChallenge id at_).
Proof. unfold repository.consumeMfaChallenge. run_write. framed. Qed.

Lemma grows_deleteMfaChallenge id : keeps grows (repository.deleteMfaChallenge id).
Proof. unfold repository.deleteMfaChallenge. run_write. framed. Qed.

Lemma grows_createRememberedDevice input :
  keeps grows (repository.createRememberedDevice input).
Proof. unfold repository.createRememberedDevice. run_write. framed. Qed.

Lemma grows_updateRememberedDevice id at_ ip ua :
  keeps grows (repository.updateRememberedDevice id at_ ip ua).
Proof. unfold repository.updateRememberedDevice. run_write. framed. Qed.

Lemma grows_deleteExpiredRememberedDevices userMfaId now :
  keeps grows (repository.deleteExpiredRememberedDevices userMfaId now).
Proof. unfold repository.deleteExpiredRememberedDevices. run_write. framed. Qed.

Lemma grows_sendPasswordResetEmail user token expiresAt :
  mailer_keeps_out -> keeps grows (sendPasswordResetEmail user token expiresAt).
Proof. intros Hout w. rewrite Hout. reflexivity. Qed.

(** One request, and any number of them. *)
Lemma serve_grows request ctx w :
  mailer_keeps_out -> grows (db w) (db (serve request ctx w)).
Proof.
  intros Hout.
  pose proof grows_saveRefreshToken. pose proof grows_revokeRefreshToken.
  pose proof grows_revokeRefreshTokensForUser. pose proof grows_consumePasswordResetToken.
  pose proof grows_createPasswordResetToken. pose proof grows_updatePasswordHash.
  pose proof grows_updateLastLogin. pose proof grows_createAuditEvent.
  pose proof grows_upsertMfaSetting. pose proof grows_replaceMfaBackupCodes.
  pose proof grows_markBackupCodeUsed. pose proof grows_createMfaChallenge.
  pose proof grows_incrementMfaChallengeAttempts. pose proof grows_consumeMfaChallenge.
  pose proof grows_deleteMfaChallenge. pose proof grows_createRememberedDevice.
  pose proof grows_updateRememberedDevice. pose proof grows_deleteExpiredRememberedDevices.
  pose proof (fun u t e => grows_sendPasswordResetEmail u t e Hout).
  destruct request; cbn [serve].
  - apply keeps_login; auto. apply grows_preorder.
  - apply keeps_refreshSession; auto. apply grows_preorder.
  - apply keeps_requestPasswordReset; auto. apply grows_preorder.
  - apply keeps_resetPassword; auto. apply grows_preorder.
  - apply keeps_startMfaEnrollment; auto. apply grows_preorder.
  - apply keeps_verifyMfaChallenge; auto. apply grows_preorder.
Qed.

Lemma serve_all_grows requests w :
  mailer_keeps_out -> grows (db w) (db (serve_all requests w)).
Proof.
  intros Hout. revert w. induction requests as [|[request ctx] rest IH]; intros w.
  - reflexivity.
  - cbn [serve_all]. etransitivity; [apply serve_grows; exact Hout | apply IH].
Qed.

End GrowsWrites.


#[local] Instance same_passwords_preorder : PreOrder same_passwords.
Proof.
  split.
  - intros d. reflexivity.
  - intros d1 d2 d3 H12 H23. unfold same_passwords in *. congruence.
Qed.

Ltac same_passwords_write := unfold same_passwords; run_write.

Section PasswordWrites.
Context `{NodeModules} `{Env} `{NodeCipher} `{EnvRest} `{EmailService}.

(** Every request but [resetPassword] leaves the password hashes alone. *)
Lemma serve_same_passwords request ctx w :
  mailer_keeps_out -> is_ResetPassword request = false ->
  same_passwords (db w) (db (serve request ctx w)).
Proof.
  intros Hout Hother.
  assert (forall input, keeps same_passwords (repository.saveRefreshToken input))
    by (intros; unfold repository.saveRefreshToken; same_passwords_write).
  assert (forall id at_ by_, keeps same_passwords (repository.revokeRefreshToken id at_ by_))
    by (intros; unfold repository.revokeRefreshToken; same_passwords_write).
  assert (forall userId token expiresAt,
            keeps same_passwords (createPasswordResetToken userId token expiresAt))
    by (intros; unfold createPasswordResetToken; same_passwords_write).
  assert (forall userId at_, keeps same_passwords (repository.updateLastLogin userId at_))
    by (intros; unfold repository.updateLastLogin; same_passwords_write).
  assert (forall e, keeps same_passwords (repository.createAuditEvent e))
    by (intros; unfold repository.createAuditEvent; same_passwords_write).
  assert (forall input, is_Some (repository.ums_activatedAt input) ->
            keeps same_passwords (repository.upsertMfaSetting input))
    by (intros; unfold repository.upsertMfaSetting; same_passwords_write).
  assert (forall userMfaId codes,
            keeps same_passwords (repository.replaceMfaBackupCodes userMfaId codes))
    by (intros; unfold repository.replaceMfaBackupCodes; same_passwords_write).
  assert (forall id at_, keeps same_passwords (repository.markBackupCodeUsed id at_))
    by (intros; unfold repository.markBackupCodeUsed; same_passwords_write).
  assert (forall input, keeps same_passwords (repository.createMfaChallenge input))
    by (intros; unfold repository.createMfaChallenge; same_passwords_write).
  assert (forall id n, keeps same_passwords (repository.incrementMfaChallengeAttempts id n))
    by (intros; unfold repository.incrementMfaChallengeAttempts; same_passwords_write).
  assert (forall id at_, keeps same_passwords (repository.consumeMfaChallenge id at_))
    by (intros; unfold repository.consumeMfaChallenge; same_passwords_write).
  assert (forall id, keeps same_passwords (repository.deleteMfaChallenge id))
    by (intros; unfold repository.deleteMfaChallenge; same_passwords_write).
  assert (forall input, keeps same_passwords (repository.createRememberedDevice input))
    by (intros; unfold repository.createRememberedDevice; same_passwords_write).
  assert (forall id at_ ip ua,
            keeps same_passwords (repository.updateRememberedDevice id at_ ip ua))
    by (intros; unfold repository.updateRememberedDevice; same_passwords_write).
  assert (forall userMfaId now,
            keeps same_passwords (repository.deleteExpiredRememberedDevices userMfaId now))
    by (intros; unfold repository.deleteExpiredRememberedDevices; same_passwords_write).
  assert (forall user token expiresAt,
            keeps same_passwords (sendPasswordResetEmail user token expiresAt))
    by (intros user token expiresAt w'; unfold same_passwords; now rewrite Hout).
  destruct request; try discriminate; cbn [serve].
  - apply keeps_login; auto. apply same_passwords_preorder.
  - apply keeps_refreshSession; auto. apply same_passwords_preorder.
  - apply keeps_requestPasswordReset; auto. apply same_passwords_preorder.
  - apply keeps_startMfaEnrollment; auto. apply same_passwords_preorder.
  - apply keeps_verifyMfaChallenge; auto. apply same_passwords_preorder.
Qed.

End PasswordWrites.

(** ** Invariants of the service *)

Section Invariants.
Context `{NodeModules} `{Env} `{NodeCipher} `{EnvRest} `{EmailService}.

(** X20. Revocation is final. Once a refresh token of a stored user is
    revoked, whatever requests the service answers afterwards (calls of
    [login], [refreshSession], [requestPasswordReset], [resetPassword],
    [startMfaEnrollment] and [verifyMfaChallenge], in any number and order,
    with a mailer that leaves the database alone), presenting that token
    raises AUTH_REFRESH_TOKEN_REVOKED. *)
Theorem revoked_token_stays_rejected requests w token id secret ctx r owner :
  mailer_keeps_out ->
  two_segments token id secret ->
  refreshTokens (db w) !! id = Some r -> is_Some (rt_revokedAt r) ->
  users (db w) !! rt_userId r = Some owner ->
  fst (refreshSession token ctx (serve_all requests w))
  = Throw (unauthorized "AUTH_REFRESH_TOKEN_REVOKED").
Proof.
  intros Hout Hseg Hr Hrevoked Howner.
  destruct (serve_all_grows requests w Hout) as [_ Husers Htokens _ _].
  destruct (Htokens id r Hr) as (r' & Hr' & Hu' & _ & _ & Hkept).
  destruct (Hkept Hrevoked) as [t Ht].
  specialize (Husers (rt_userId r)). rewrite Howner in Husers.
  destruct (users (db (serve_all requests w)) !! rt_userId r) as [owner'|] eqn:Howner';
    [|discriminate].
  apply (refreshSession_revoked token id secret ctx r' owner' t); try assumption.
  rewrite Hu'. exact Howner'.
Qed.

(** X21. A password reset token is used up for good. Once a reset token is
    consumed, whatever of these requests the service answers afterwards,
    [resetPassword] with that token raises AUTH_RESET_TOKEN_INVALID and
    changes nothing. *)
Theorem used_reset_token_stays_rejected requests w token newPassword ctx r :
  mailer_keeps_out ->
  passwordResetTokens (db w) !! token = Some r -> is_Some (prt_consumedAt r) ->
  exists w',
    resetPassword token newPassword ctx (serve_all requests w)
    = (Throw (badRequest "AUTH_RESET_TOKEN_INVALID"), w') /\
    db w' = db (serve_all requests w).
Proof.
  intros Hout Hr Hconsumed.
  destruct (serve_all_grows requests w Hout) as [_ _ _ Hresets _].
  destruct (Hresets token r Hr) as (r' & Hr' & _ & _ & Hkept).
  eexists. split; [eapply resetPassword_consumed; eauto|]. reflexivity.
Qed.

(** X22. The audit log is append-only. Whatever of these requests the
    service answers, the audit events it finds are still there afterwards,
    in the same order, followed by the ones it added. *)
Theorem audit_log_only_grows requests w :
  mailer_keeps_out ->
  exists added, auditEvents (db (serve_all requests w)) = auditEvents (db w) ++ added.
Proof. intros Hout. now destruct (serve_all_grows requests w Hout). Qed.

(** X23. None of these requests changes who a user is. Logins, refreshes,
    password reset requests and resets, enrolments and challenge
    verifications neither add nor remove a user, and leave the id, e-mail
    address, status, plan, roles and e-mail verification of every stored user
    as they are. *)
Theorem users_stay_who_they_are requests w id :
  mailer_keeps_out ->
  match users (db w) !! id with
  | None => users (db (serve_all requests w)) !! id = None
  | Some u =>
      exists u',
        users (db (serve_all requests w)) !! id = Some u' /\
        user_id u' = user_id u /\ user_email u' = user_email u /\
        user_status u' = user_status u /\ user_planTier u' = user_planTier u /\
        user_roles u' = user_roles u /\ user_emailVerifiedAt u' = user_emailVerifiedAt u
  end.
Proof.
  intros Hout. destruct (serve_all_grows requests w Hout) as [_ Husers _ _ _].
  specialize (Husers id).
  destruct (users (db w) !! id) as [u|],
    (users (db (serve_all requests w)) !! id) as [u'|]; try discriminate; [|reflexivity].
  injection Husers as ? ? ? ? ? ?. exists u'. auto 10.
Qed.

(** X24. MFA, once active, stays active. Whatever of these requests the
    service answers, a user's activated MFA setting is still stored under the
    same id and still activated, so that a new enrolment for that user is
    refused with AUTH_MFA_ALREADY_ENABLED and writes nothing. *)
Theorem mfa_stays_active requests w user setting deviceName ctx :
  mailer_keeps_out ->
  mfaSettings (db w) !! user_id user = Some setting ->
  is_Some (mfa_activatedAt setting) ->
  (exists setting',
     mfaSettings (db (serve_all requests w)) !! user_id user = Some setting' /\
     mfa_id setting' = mfa_id setting /\ is_Some (mfa_activatedAt setting')) /\
  startMfaEnrollment user deviceName ctx (serve_all requests w)
  = (Throw (conflict "AUTH_MFA_ALREADY_ENABLED"), serve_all requests w).
Proof.
  intros Hout Hsetting Hactive.
  destruct (serve_all_grows requests w Hout) as [_ _ _ _ Hsettings].
  destruct (Hsettings _ _ Hsetting) as (setting' & Hsetting' & Hid & Hkept).
  split; [eauto|].
  unfold startMfaEnrollment.
  erewrite bind_run by (apply getActiveMfaConfiguration_active; eauto). reflexivity.
Qed.

(** X25. Of these requests, only [resetPassword] changes a password. A
    sequence of requests without a password reset leaves every stored
    password hash as it was. *)
Theorem passwords_change_only_on_reset requests w :
  mailer_keeps_out ->
  forallb (fun request => negb (is_ResetPassword (fst request))) requests = true ->
  passwordCredentials (db (serve_all requests w)) = passwordCredentials (db w).
Proof.
  intros Hout. revert w. induction requests as [|[request ctx] rest IH]; intros w Hnone.
  - reflexivity.
  - cbn [forallb fst] in Hnone. apply andb_prop in Hnone as [Hother Hrest].
    apply negb_true_iff in Hother. cbn [serve_all]. rewrite IH by assumption.
    now apply serve_same_passwords.
Qed.

End Invariants.


(** ** The further statements at the fixtures *)

Section FurtherAtTheFixtures.
Local Existing Instance Fixtures.modules.
Local Existing Instance Fixtures.env.
Local Existing Instance FixturesRest.cipher.
Local Existing Instance FixturesRest.envRest.
Local Existing Instance FixturesRest.mailer.

Lemma mailer_keeps_out_fixture : mailer_keeps_out.
Proof. intros user resetToken expiresAt w. reflexivity. Qed.

Lemma login_rejections_witness :
  truthy (in_challengeId FixturesRest.wrongPasswordInput)
  && truthy (in_mfaCode FixturesRest.wrongPasswordInput) = false /\
  fst (login FixturesRest.wrongPasswordInput Fixtures.ctx
         (Fixtures.world Fixtures.db_signed_up))
  = Throw (unauthorized "AUTH_INVALID_CREDENTIALS") /\
  auditEvents (db (snd (login FixturesRest.wrongPasswordInput Fixtures.ctx
                          (Fixtures.world Fixtures.db_signed_up)))) = [].
Proof.
  split; [reflexivity|].
  destruct (login_rejections FixturesRest.wrongPasswordInput Fixtures.ctx
              (Fixtures.world Fixtures.db_signed_up) eq_refl) as [_ Hfound].
  destruct (Hfound Fixtures.casey (Fixtures.phc +:+ "Sup3rSecurePass!")) as [Hwrong _].
  - vm_compute. reflexivity.
  - rewrite Hwrong by (vm_compute; reflexivity). split; reflexivity.
Defined.

Lemma login_without_mfa_witness :
  refreshTokens (db (Fixtures.world Fixtures.db_signed_up)) !! "uuid-0" = None /\
  exists tokens w',
    login Fixtures.loginInput Fixtures.ctx (Fixtures.world Fixtures.db_signed_up)
    = (Ok (authenticated Fixtures.casey tokens false None), w') /\
    (user_lastLoginAt <$> users (db w') !! "user-1") = Some (Some (Fixtures.t0 + 1)) /\
    length (auditEvents (db w')) = 1%nat.
Proof.
  assert (refreshTokens (db (Fixtures.world Fixtures.db_signed_up)) !! "uuid-0" = None)
    as Hfresh by (vm_compute; reflexivity).
  split; [exact Hfresh|].
  destruct (login_without_mfa Fixtures.loginInput Fixtures.ctx
              (Fixtures.world Fixtures.db_signed_up) Fixtures.casey
              (Fixtures.phc +:+ "Sup3rSecurePass!"))
    as (tokens & record & secret & w' & Hrun & _ & _ & _ & _ & _ & _ & Husers & Haudit & _).
  - reflexivity.
  - vm_compute. reflexivity.
  - vm_compute. reflexivity.
  - discriminate.
  - vm_compute. reflexivity.
  - intros c Hc. vm_compute in Hc. discriminate.
  - exact Hfresh.
  - exists tokens, w'. split; [exact Hrun|].
    destruct Husers as (stored & Husers & Hlast & _). split.
    + rewrite Husers. change (user_id Fixtures.casey) with "user-1".
      rewrite lookup_insert_eq. cbn [fmap option_fmap option_map]. now rewrite Hlast.
    + rewrite Haudit. reflexivity.
Defined.

Lemma login_with_mfa_challenges_witness :
  mfaSettings (db (Fixtures.world Fixtures.db_mfa)) !! "user-1" = Some Fixtures.setting /\
  exists w',
    login Fixtures.loginInput Fixtures.ctx (Fixtures.world Fixtures.db_mfa)
    = (Ok (mfa_challenge "uuid-0" ["totp"; "backup_code"] (Fixtures.t0 + 600000)), w') /\
    refreshTokens (db w') = refreshTokens (db (Fixtures.world Fixtures.db_mfa)).
Proof.
  assert (mfaSettings (db (Fixtures.world Fixtures.db_mfa)) !! "user-1"
          = Some Fixtures.setting) as Hsetting by (vm_compute; reflexivity).
  split; [exact Hsetting|].
  destruct (login_with_mfa_challenges Fixtures.loginInput Fixtures.ctx
              (Fixtures.world Fixtures.db_mfa) Fixtures.casey
              (Fixtures.phc +:+ "Sup3rSecurePass!") Fixtures.setting)
    as (w' & Hrun & _ & Htokens & _).
  - reflexivity.
  - vm_compute. reflexivity.
  - vm_compute. reflexivity.
  - discriminate.
  - exact Hsetting.
  - eexists. reflexivity.
  - vm_compute. reflexivity.
  - vm_compute. reflexivity.
  - exists w'. split; [exact Hrun | exact Htokens].
Defined.

Lemma login_with_remembered_device_witness :
  matchedDevice Fixtures.setting (Some "device-token") Fixtures.t0
    FixturesRest.db_remembered = Some FixturesRest.rememberedDevice1 /\
  exists tokens w',
    login FixturesRest.rememberedInput Fixtures.ctx
      (Fixtures.world FixturesRest.db_remembered)
    = (Ok (authenticated Fixtures.casey tokens false None), w') /\
    mfaChallenges (db w') = mfaChallenges (db (Fixtures.world FixturesRest.db_remembered)).
Proof.
  assert (matchedDevice Fixtures.setting (Some "device-token") Fixtures.t0
            FixturesRest.db_remembered = Some FixturesRest.rememberedDevice1) as Hmatch
    by (vm_compute; reflexivity).
  split; [exact Hmatch|].
  destruct (login_with_remembered_device FixturesRest.rememberedInput Fixtures.ctx
              (Fixtures.world FixturesRest.db_remembered) Fixtures.casey
              (Fixtures.phc +:+ "Sup3rSecurePass!") Fixtures.setting
              FixturesRest.rememberedDevice1)
    as (tokens & record & w' & Hrun & _ & _ & _ & Hchallenges & _).
  - reflexivity.
  - vm_compute. reflexivity.
  - vm_compute. reflexivity.
  - discriminate.
  - vm_compute. reflexivity.
  - vm_compute. reflexivity.
  - eexists. reflexivity.
  - exact Hmatch.
  - vm_compute. reflexivity.
  - exists tokens, w'. split; [exact Hrun | exact Hchallenges].
Defined.

Lemma refreshSession_rotates_witness :
  two_segments "rt-1.s3cret" "rt-1" "s3cret" /\
  refreshTokens (db (Fixtures.world Fixtures.db_session)) !! "rt-1"
  = Some Fixtures.refreshToken1 /\
  exists tokens w',
    refreshSession "rt-1.s3cret" Fixtures.ctx (Fixtures.world Fixtures.db_session)
    = (Ok {| rr_user := Fixtures.casey; rr_tokens := tokens |}, w') /\
    refreshTokenExpiresAt tokens = Fixtures.t0 + 1 + 604800000 /\
    fst (refreshSession "rt-1.s3cret" Fixtures.ctx w')
    = Throw (unauthorized "AUTH_REFRESH_TOKEN_REVOKED").
Proof.
  assert (two_segments "rt-1.s3cret" "rt-1" "s3cret") as Hseg
    by (repeat split; discriminate).
  assert (refreshTokens (db (Fixtures.world Fixtures.db_session)) !! "rt-1"
          = Some Fixtures.refreshToken1) as Hrow by (vm_compute; reflexivity).
  split; [exact Hseg|]. split; [exact Hrow|].
  destruct (refreshSession_rotates "rt-1.s3cret" "rt-1" "s3cret" Fixtures.ctx
              (Fixtures.world Fixtures.db_session) Fixtures.refreshToken1 Fixtures.casey)
    as (tokens & newSecret & record & w' & Hrun & _ & Hexpires & _ & _ & _ & _ & _ & _
        & _ & Hagain).
  - exact Hseg.
  - exact Hrow.
  - reflexivity.
  - vm_compute. reflexivity.
  - reflexivity.
  - vm_compute. reflexivity.
  - vm_compute. reflexivity.
  - discriminate.
  - vm_compute. reflexivity.
  - exists tokens, w'. split; [exact Hrun|]. split.
    + rewrite Hexpires. vm_compute. reflexivity.
    + destruct (Hagain Fixtures.ctx w' eq_refl) as (w3 & Hthrow & _).
      now rewrite Hthrow.
Defined.

Lemma issued_refresh_token_redeems_witness :
  no_dot (base64url (map (entropy (Fixtures.world Fixtures.db_signed_up)) (seq 0 48)))
  = true /\
  exists tokens w1 next w2,
    issueSession Fixtures.casey Fixtures.ctx None (Some true)
      (Fixtures.world Fixtures.db_signed_up) = (Ok tokens, w1) /\
    refreshSession (refreshToken tokens) Fixtures.ctx w1
    = (Ok {| rr_user := Fixtures.casey; rr_tokens := next |}, w2).
Proof.
  assert (no_dot (base64url (map (entropy (Fixtures.world Fixtures.db_signed_up))
                               (seq 0 48))) = true) as Hdot by (vm_compute; reflexivity).
  split; [exact Hdot|].
  destruct (issued_refresh_token_redeems Fixtures.casey Fixtures.casey Fixtures.ctx
              (Some true) Fixtures.ctx (Fixtures.world Fixtures.db_signed_up))
    as (tokens & w1 & next & w2 & Hissue & Hredeem & _).
  - vm_compute. reflexivity.
  - vm_compute. reflexivity.
  - discriminate.
  - reflexivity.
  - discriminate.
  - exact Hdot.
  - vm_compute. discriminate.
  - vm_compute. reflexivity.
  - vm_compute. reflexivity.
  - discriminate.
  - vm_compute. reflexivity.
  - exists tokens, w1, next, w2. split; [exact Hissue | exact Hredeem].
Defined.

Lemma createTotpSecret_decodes_witness :
  (forall n, 0 <= entropy (Fixtures.world Fixtures.emptyDb) n < 256) /\
  exists secret buffer,
    fst (createTotpSecret None (Fixtures.world Fixtures.emptyDb)) = Ok (secret, buffer) /\
    base32Decode secret = Ok buffer /\
    String.length secret = 32%nat.
Proof.
  assert (forall n, 0 <= entropy (Fixtures.world Fixtures.emptyDb) n < 256) as Hbytes
    by (intros n; cbn [Fixtures.world entropy]; apply Z.mod_pos_bound; lia).
  split; [exact Hbytes|].
  destruct (createTotpSecret_decodes None (Fixtures.world Fixtures.emptyDb) Hbytes)
    as (secret & buffer & Hrun & _ & Hdecode & _ & Hlength & _).
  exists secret, buffer. rewrite Hrun. split; [reflexivity|]. split; [exact Hdecode|].
  exact (Hlength eq_refl).
Defined.

Lemma expired_challenge_is_deleted_witness :
  mfaChallenges (db (Fixtures.world FixturesRest.db_expired_challenge)) !! "ch-1"
  = Some FixturesRest.expiredChallenge /\
  ch_expiresAt FixturesRest.expiredChallenge < Fixtures.t0 /\
  let run :=
    verifyMfaChallenge
      {| vin_challengeId := "ch-1"; vin_code := "945099"; vin_rememberDevice := None |}
      Fixtures.ctx (Fixtures.world FixturesRest.db_expired_challenge) in
  fst run = Throw ChallengeExpired /\
  mfaChallenges (db (snd run)) !! "ch-1" = None /\
  fst (login (Fixtures.challengeInput "945099") Fixtures.ctx
         (Fixtures.world FixturesRest.db_expired_challenge)) = Throw ChallengeExpired.
Proof.
  assert (mfaChallenges (db (Fixtures.world FixturesRest.db_expired_challenge)) !! "ch-1"
          = Some FixturesRest.expiredChallenge) as Hrow by (vm_compute; reflexivity).
  assert (ch_expiresAt FixturesRest.expiredChallenge < Fixtures.t0) as Hlate
    by (vm_compute; reflexivity).
  split; [exact Hrow|]. split; [exact Hlate|].
  destruct (expired_challenge_is_deleted "ch-1" "945099" None
              (Fixtures.challengeInput "945099") Fixtures.ctx
              (Fixtures.world FixturesRest.db_expired_challenge)
              FixturesRest.expiredChallenge Hrow eq_refl Hlate) as (Hrun & Hlogin & _).
  cbv zeta. rewrite Hrun, Hlogin by (reflexivity || discriminate).
  split; [reflexivity|]. split; [|reflexivity].
  cbn [snd]. vm_compute. reflexivity.
Defined.

Lemma login_challenge_without_active_mfa_witness :
  mfaChallenges (db (Fixtures.world FixturesRest.db_orphan_challenge)) !! "ch-1"
  = Some Fixtures.loginChallenge /\
  let run :=
    completeLoginChallenge "ch-1" "945099" false Fixtures.ctx
      (Fixtures.world FixturesRest.db_orphan_challenge) in
  fst run = Throw ChallengeInvalid /\
  mfaChallenges (db (snd run)) !! "ch-1" = None.
Proof.
  assert (mfaChallenges (db (Fixtures.world FixturesRest.db_orphan_challenge)) !! "ch-1"
          = Some Fixtures.loginChallenge) as Hrow by (vm_compute; reflexivity).
  split; [exact Hrow|]. cbv zeta.
  rewrite (login_challenge_without_active_mfa "ch-1" "945099" false Fixtures.ctx
             (Fixtures.world FixturesRest.db_orphan_challenge) Fixtures.loginChallenge
             Hrow eq_refl).
  - split; [reflexivity|]. cbn [snd]. vm_compute. reflexivity.
  - vm_compute. discriminate.
  - intros c Hc. vm_compute in Hc. discriminate.
Defined.

Lemma unanswerable_challenge_writes_nothing_witness :
  mfaChallenges (db (Fixtures.world FixturesRest.db_recovery_challenge)) !! "ch-2"
  = Some FixturesRest.recoveryChallenge /\
  let run :=
    verifyMfaChallenge
      {| vin_challengeId := "ch-2"; vin_code := "945099"; vin_rememberDevice := None |}
      Fixtures.ctx (Fixtures.world FixturesRest.db_recovery_challenge) in
  fst run = Throw ChallengeInvalid /\
  db (snd run) = FixturesRest.db_recovery_challenge.
Proof.
  assert (mfaChallenges (db (Fixtures.world FixturesRest.db_recovery_challenge)) !! "ch-2"
          = Some FixturesRest.recoveryChallenge) as Hrow by (vm_compute; reflexivity).
  split; [exact Hrow|].
  destruct (unanswerable_challenge_writes_nothing "ch-2" "945099" None Fixtures.ctx
              (Fixtures.world FixturesRest.db_recovery_challenge)
              FixturesRest.recoveryChallenge Hrow eq_refl) as (Hrecovery & _).
  - vm_compute. discriminate.
  - cbv zeta in *. rewrite (Hrecovery eq_refl). split; reflexivity.
Defined.

Lemma encryptSecret_decryptSecret_witness :
  length (base64_decode MFA_ENCRYPTION_KEY) = 32%nat /\
  exists payload,
    fst (encryptSecret "JBSWY3DPEHPK3PXP" MFA_ENCRYPTION_KEY
           (Fixtures.world Fixtures.emptyDb)) = Ok payload /\
    decryptSecret payload MFA_ENCRYPTION_KEY = Ok "JBSWY3DPEHPK3PXP".
Proof.
  assert (length (base64_decode MFA_ENCRYPTION_KEY) = 32%nat) as Hkey
    by (vm_compute; reflexivity).
  split; [exact Hkey|].
  destruct (encryptSecret_decryptSecret "JBSWY3DPEHPK3PXP" MFA_ENCRYPTION_KEY
              (Fixtures.world Fixtures.emptyDb)) as (Hseal & _).
  destruct Hseal as (payload & Hrun & Hopen).
  - exact Hkey.
  - vm_compute. reflexivity.
  - vm_compute. reflexivity.
  - vm_compute. reflexivity.
  - exists payload. rewrite Hrun. split; [reflexivity | exact Hopen].
Defined.

Lemma password_reset_flow_witness :
  fst (repository.findUserByEmail (normalizeEmail "Casey@Example.com ")
         (Fixtures.world Fixtures.db_session))
  = Ok (Some (Fixtures.casey, Fixtures.phc +:+ "Sup3rSecurePass!")) /\
  exists w',
    requestPasswordReset "Casey@Example.com " Fixtures.ctx
      (Fixtures.world Fixtures.db_session) = (Ok true, w') /\
    exists token salt w2,
      resetPassword token "Diff3rentPass!" Fixtures.ctx
        (set_db (db w') (Fixtures.world Fixtures.emptyDb)) = (Ok Fixtures.casey, w2) /\
      passwordCredentials (db w2) !! "user-1" = Some (argon2_hash salt "Diff3rentPass!") /\
      fst (resetPassword token "An0therPass!" Fixtures.ctx w2)
      = Throw (badRequest "AUTH_RESET_TOKEN_INVALID").
Proof.
  assert (fst (repository.findUserByEmail (normalizeEmail "Casey@Example.com ")
                 (Fixtures.world Fixtures.db_session))
          = Ok (Some (Fixtures.casey, Fixtures.phc +:+ "Sup3rSecurePass!"))) as Hfind
    by (vm_compute; reflexivity).
  split; [exact Hfind|].
  destruct (password_reset_flow "Casey@Example.com " Fixtures.ctx
              (Fixtures.world Fixtures.db_session) Fixtures.casey
              (Fixtures.phc +:+ "Sup3rSecurePass!") Hfind)
    as (w' & Hrun & _ & _ & _ & _ & _ & Hreset).
  - vm_compute. reflexivity.
  - vm_compute. reflexivity.
  - intros t r Hr. vm_compute in Hr. discriminate.
  - intros w1. reflexivity.
  - exists w'. split; [exact Hrun|].
    destruct (Hreset "Diff3rentPass!" Fixtures.ctx
                (set_db (db w') (Fixtures.world Fixtures.emptyDb)) eq_refl)
      as (salt & w2 & Hok & Hstored & Honce).
    + vm_compute. discriminate.
    + eexists _, salt, w2. split; [exact Hok|]. split; [exact Hstored|].
      exact (Honce "An0therPass!" Fixtures.ctx w2 eq_refl).
Defined.

Lemma resetPassword_changes_login_witness :
  passwordResetTokens (db (Fixtures.world Fixtures.db_reset_requested)) !! "reset-1"
  = Some Fixtures.resetToken1 /\
  fst (login Fixtures.loginInput Fixtures.ctx (Fixtures.world Fixtures.db_reset_requested))
  <> Throw (unauthorized "AUTH_INVALID_CREDENTIALS") /\
  exists w',
    resetPassword "reset-1" "Diff3rentPass!" Fixtures.ctx
      (Fixtures.world Fixtures.db_reset_requested) = (Ok Fixtures.casey, w') /\
    fst (login Fixtures.loginInput Fixtures.ctx w')
    = Throw (unauthorized "AUTH_INVALID_CREDENTIALS").
Proof.
  assert (passwordResetTokens (db (Fixtures.world Fixtures.db_reset_requested)) !! "reset-1"
          = Some Fixtures.resetToken1) as Hrow by (vm_compute; reflexivity).
  split; [exact Hrow|]. split; [vm_compute; discriminate|].
  destruct (resetPassword_changes_login "reset-1" "Diff3rentPass!" Fixtures.ctx
              (Fixtures.world Fixtures.db_reset_requested) Fixtures.resetToken1
              Fixtures.casey (Fixtures.phc +:+ "Sup3rSecurePass!") Fixtures.loginInput Hrow)
    as (w' & Hrun & Hlogin).
  - reflexivity.
  - vm_compute. discriminate.
  - reflexivity.
  - vm_compute. reflexivity.
  - reflexivity.
  - vm_compute. reflexivity.
  - exists w'. split; [exact Hrun|].
    destruct (Hlogin Fixtures.ctx w' eq_refl) as (Hold & _).
    rewrite Hold by (vm_compute; reflexivity). reflexivity.
Defined.


Lemma remembered_device_round_trip_witness :
  existsb (fun r => String.eqb (rd_id r) "uuid-0")
    (mfaRememberedDevices (db (Fixtures.world Fixtures.db_mfa))) = false /\
  exists token w',
    createRememberedDevice "mfa-1" Fixtures.ctx (Fixtures.world Fixtures.db_mfa)
    = (Ok {| value := token; expiresAt := Fixtures.t0 + 2592000000 |}, w') /\
    (exists id,
       fst (validateRememberedDevice Fixtures.setting (Some token) Fixtures.ctx
              (set_db (db w') (Fixtures.world Fixtures.emptyDb))) = Ok (Some id)).
Proof.
  split; [reflexivity|].
  destruct (remembered_device_round_trip Fixtures.setting Fixtures.ctx
              (Fixtures.world Fixtures.db_mfa)) as (w' & Hrun & Hrows & Hlater).
  - vm_compute. discriminate.
  - vm_compute. reflexivity.
  - reflexivity.
  - eexists _, w'. split; [exact Hrun|].
    destruct (Hlater Fixtures.ctx (set_db (db w') (Fixtures.world Fixtures.emptyDb)))
        as ((matched & Hvalid & _) & _).
    + cbn [set_db db]. rewrite Hrows. apply in_or_app. right. left. reflexivity.
    + vm_compute. discriminate.
    + exists (rd_id matched). exact Hvalid.
Defined.

Lemma email_is_normalised_witness :
  ascii_only "Casey@Example.com " = true /\
  ascii_only (in_email FixturesRest.shoutedInput) = true /\
  normalizeEmail "Casey@Example.com " = "casey@example.com" /\
  login FixturesRest.shoutedInput Fixtures.ctx (Fixtures.world Fixtures.db_signed_up)
  = login Fixtures.loginInput Fixtures.ctx (Fixtures.world Fixtures.db_signed_up) /\
  requestPasswordReset "Casey@Example.com " Fixtures.ctx (Fixtures.world Fixtures.db_session)
  = requestPasswordReset "casey@example.com" Fixtures.ctx
      (Fixtures.world Fixtures.db_session).
Proof.
  split; [reflexivity|]. split; [reflexivity|]. split; [reflexivity|].
  destruct (email_is_normalised FixturesRest.shoutedInput "Casey@Example.com "
              Fixtures.ctx (Fixtures.world Fixtures.db_session) eq_refl eq_refl)
    as (_ & _ & _ & _ & _ & _ & Hreset).
  destruct (email_is_normalised FixturesRest.shoutedInput "Casey@Example.com "
              Fixtures.ctx (Fixtures.world Fixtures.db_signed_up) eq_refl eq_refl)
    as (_ & _ & _ & _ & _ & Hlogin & _).
  split; [exact Hlogin | exact Hreset].
Defined.

Lemma revoked_token_stays_rejected_witness :
  mailer_keeps_out /\
  is_Some (rt_revokedAt
             (repository.revoked (Fixtures.t0 - 500) (Some "rt-2") Fixtures.refreshToken1)) /\
  fst (refreshSession "rt-1.s3cret" Fixtures.ctx
         (serve_all FixturesRest.traffic (Fixtures.world Fixtures.db_rotated)))
  = Throw (unauthorized "AUTH_REFRESH_TOKEN_REVOKED").
Proof.
  split; [exact mailer_keeps_out_fixture|]. split; [eexists; reflexivity|].
  apply (revoked_token_stays_rejected FixturesRest.traffic
           (Fixtures.world Fixtures.db_rotated) "rt-1.s3cret" "rt-1" "s3cret" Fixtures.ctx
           (repository.revoked (Fixtures.t0 - 500) (Some "rt-2") Fixtures.refreshToken1)
           Fixtures.casey).
  - exact mailer_keeps_out_fixture.
  - repeat split; discriminate.
  - vm_compute. reflexivity.
  - eexists. reflexivity.
  - vm_compute. reflexivity.
Defined.

Lemma used_reset_token_stays_rejected_witness :
  passwordResetTokens (db (Fixtures.world FixturesRest.db_reset_used)) !! "reset-1"
  = Some FixturesRest.usedResetToken /\
  fst (resetPassword "reset-1" "Diff3rentPass!" Fixtures.ctx
         (serve_all FixturesRest.traffic (Fixtures.world FixturesRest.db_reset_used)))
  = Throw (badRequest "AUTH_RESET_TOKEN_INVALID").
Proof.
  assert (passwordResetTokens (db (Fixtures.world FixturesRest.db_reset_used)) !! "reset-1"
          = Some FixturesRest.usedResetToken) as Hrow by (vm_compute; reflexivity).
  split; [exact Hrow|].
  destruct (used_reset_token_stays_rejected FixturesRest.traffic
              (Fixtures.world FixturesRest.db_reset_used) "reset-1" "Diff3rentPass!"
              Fixtures.ctx FixturesRest.usedResetToken mailer_keeps_out_fixture Hrow)
    as (w' & Hrun & _).
  - eexists. reflexivity.
  - now rewrite Hrun.
Defined.

Lemma audit_log_only_grows_witness :
  exists added,
    auditEvents (db (serve_all FixturesRest.traffic (Fixtures.world Fixtures.db_session)))
    = auditEvents (db (Fixtures.world Fixtures.db_session)) ++ added.
Proof.
  exact (audit_log_only_grows FixturesRest.traffic (Fixtures.world Fixtures.db_session)
           mailer_keeps_out_fixture).
Defined.

Lemma users_stay_who_they_are_witness :
  exists u,
    users (db (serve_all FixturesRest.traffic (Fixtures.world Fixtures.db_session)))
    !! "user-1" = Some u /\
    user_email u = "casey@example.com" /\ user_status u = active /\
    user_roles u = ["user"].
Proof.
  pose proof (users_stay_who_they_are FixturesRest.traffic
                (Fixtures.world Fixtures.db_session) "user-1" mailer_keeps_out_fixture)
    as Hsame.
  assert (users (db (Fixtures.world Fixtures.db_session)) !! "user-1" = Some Fixtures.casey)
    as Hrow by (vm_compute; reflexivity).
  rewrite Hrow in Hsame.
  destruct Hsame as (u & Hu & _ & Hemail & Hstatus & _ & Hroles & _).
  exists u. split; [exact Hu|]. split; [exact Hemail|]. split; [exact Hstatus | exact Hroles].
Defined.

Lemma mfa_stays_active_witness :
  mfaSettings (db (Fixtures.world Fixtures.db_mfa)) !! "user-1" = Some Fixtures.setting /\
  fst (startMfaEnrollment Fixtures.casey None Fixtures.ctx
         (serve_all FixturesRest.traffic (Fixtures.world Fixtures.db_mfa)))
  = Throw (conflict "AUTH_MFA_ALREADY_ENABLED").
Proof.
  assert (mfaSettings (db (Fixtures.world Fixtures.db_mfa)) !! "user-1"
          = Some Fixtures.setting) as Hrow by (vm_compute; reflexivity).
  split; [exact Hrow|].
  destruct (mfa_stays_active FixturesRest.traffic (Fixtures.world Fixtures.db_mfa)
              Fixtures.casey Fixtures.setting None Fixtures.ctx mailer_keeps_out_fixture Hrow)
    as (_ & Hrun).
  - eexists. reflexivity.
  - now rewrite Hrun.
Defined.

Lemma passwords_change_only_on_reset_witness :
  forallb (fun request => negb (is_ResetPassword (fst request))) FixturesRest.traffic
  = true /\
  passwordCredentials
    (db (serve_all FixturesRest.traffic (Fixtures.world Fixtures.db_session)))
  = passwordCredentials (db (Fixtures.world Fixtures.db_session)).
Proof.
  split; [reflexivity|].
  apply (passwords_change_only_on_reset FixturesRest.traffic
           (Fixtures.world Fixtures.db_session) mailer_keeps_out_fixture).
  reflexivity.
Defined.

End FurtherAtTheFixtures.
